(** * Storage-unit optimisation: the store, the two strategies and the log checker

    A shallow embedding of [store.py] (the [Store] class, the [Logger] and
    [check_and_show]), of [expert.py] (the [Strategy] class and
    [execute_strategy]) and of the [Strategy] class of [simple.py],
    followed by the properties of the yard, of the schedulers and of the
    replay of a log.

    Python integers are [Z]; a Python float is the rational it stands for,
    and the division of two integers rounds to the nearest double; Python
    lists are [list]; the identifier to location dictionary is a
    [gmap Z Location]; a raised exception is the [Raise] branch of
    [result].  No exception is ever caught in the modules, so a raise ends
    the run and the state it leaves behind is never observed. *)

From Stdlib Require Import ZArith List Bool Lia QArith String Sorted.
From stdpp Require Import base option list gmap.
Import ListNotations.
Local Open Scope Z_scope.

(** ** Exceptions and the error monad *)

(** The exceptions the modules can raise.  [OutOfFuel] is not a Python
    exception: it marks the exhaustion of the recursion budget of a [while]
    loop; [exec_loop_fuel] shows that the idle loop of the expert
    [Strategy.exec] never reaches it. *)
Inductive exn : Set :=
| TypeError | AssertionError | IndexError | KeyError | ValueError
| ZeroDivisionError | OverflowError | OutOfFuel.

Inductive result (A : Type) : Type :=
| Ok (a : A)
| Raise (e : exn).
Arguments Ok {A} a.
Arguments Raise {A} e.

Definition bind {A B : Type} (m : result A) (k : A -> result B) : result B :=
  match m with
  | Ok a => k a
  | Raise e => Raise e
  end.

Notation "x <- e ;; k" := (bind e (fun x => k))
  (at level 100, e at next level, right associativity, only parsing).

(** [assert(b)] *)
Definition py_assert (b : bool) : result unit :=
  if b then Ok tt else Raise AssertionError.

(** ** Python floats *)

(** A float is a double of IEEE 754; the ones that occur are numbers, and
    such a float is modelled by the rational it stands for.  Python
    compares two floats, and an integer with a float, by these values. *)

(** [n / d] rounded to the nearest integer, a half to the even one
    ([d > 0]). *)
Definition round_half_even (n d : Z) : Z :=
  let k := n / d in
  let r := n mod d in
  if 2 * r <? d then k
  else if d <? 2 * r then k + 1
  else if Z.even k then k else k + 1.

(** The [e] with [2^e <= a/d < 2^(e+1)], for [a > 0] and [d > 0]. *)
Definition quotient_exponent (a d : Z) : Z :=
  let e0 := Z.log2 a - Z.log2 d in
  if (if 0 <=? e0 then d * 2 ^ e0 <=? a else d <=? a * 2 ^ (- e0))
  then e0 else e0 - 1.

(** The double nearest to [n/d] ([d > 0]), halves to the even significand:
    53 bits of significand, the least exponent of the last bit [-1074]
    (below [2^-1022] the doubles are [2^-1074] apart), and [OverflowError]
    when the rounded value reaches [2^1024]. *)
Definition round_to_double (n d : Z) : result Q :=
  if n =? 0 then Ok (inject_Z 0)
  else
    let a := Z.abs n in
    let q := Z.max (quotient_exponent a d - 52) (-1074) in
    if 0 <=? q then
      let k := round_half_even a (d * 2 ^ q) in
      if 2 ^ 1024 <=? k * 2 ^ q then Raise OverflowError
      else Ok (inject_Z (Z.sgn n * k * 2 ^ q))
    else
      let k := round_half_even (a * 2 ^ (- q)) d in
      Ok (Qmake (Z.sgn n * k) (Z.to_pos (2 ^ (- q)))).

(** [a / b] on two integers: the quotient correctly rounded to a float,
    [ZeroDivisionError] for [b = 0], [OverflowError] when the quotient is
    too large for a float. *)
Definition py_truediv (a b : Z) : result Q :=
  if b =? 0 then Raise ZeroDivisionError
  else round_to_double (Z.sgn b * a) (Z.abs b).

(** ** Python lists *)

(** [range(a, b)] *)
Definition py_range (a b : Z) : list Z :=
  map (fun k => a + Z.of_nat k) (seq 0 (Z.to_nat (b - a))).

(** [len(l)] *)
Definition py_len {A : Type} (l : list A) : Z := Z.of_nat (length l).

(** The offset an index [i] denotes in [l]: a negative index counts from
    the end, and an index outside [-len(l), len(l)) raises [IndexError]. *)
Definition py_index {A : Type} (l : list A) (i : Z) : result nat :=
  if (0 <=? i) && (i <? py_len l) then Ok (Z.to_nat i)
  else if (i <? 0) && (- py_len l <=? i) then Ok (Z.to_nat (py_len l + i))
  else Raise IndexError.

(** [l[i]] *)
Definition py_getitem {A : Type} (l : list A) (i : Z) : result A :=
  k <- py_index l i ;;
  match l !! k with
  | Some x => Ok x
  | None => Raise IndexError
  end.

(** [del(l[i])] *)
Definition py_delitem {A : Type} (l : list A) (i : Z) : result (list A) :=
  k <- py_index l i ;; Ok (delete k l).

(** ** Data model *)

Definition TimeStamp := Z.
Definition Position := Z.
(** [(height, column)] *)
Definition Location := (Z * Z)%type.

Record TimeRange := { start : TimeStamp; end_ : TimeStamp }.

Record Container := {
  identifier : Z;
  size : Z;
  value : Z;
  arrival : TimeRange;
  delivery : TimeRange
}.

#[global] Instance TimeRange_eq_dec : EqDecision TimeRange.
Proof. solve_decision. Defined.

#[global] Instance Container_eq_dec : EqDecision Container.
Proof. solve_decision. Defined.

(** [l.remove(c)]: deletes the first element equal to [c] (dataclass
    equality is field-wise), [ValueError] when there is none. *)
Fixpoint py_list_remove (c : Container) (l : list Container) : result (list Container) :=
  match l with
  | [] => Raise ValueError
  | x :: l' =>
      if decide (x = c) then Ok l'
      else (r <- py_list_remove c l' ;; Ok (x :: r))
  end.

(** [sorted(l, key=key)]: a new list, ascending in [key], equal keys in
    their order in [l]. *)
Fixpoint py_sorted_insert (key : Container -> Z) (x : Container) (l : list Container)
  : list Container :=
  match l with
  | [] => [x]
  | y :: l' => if key x <? key y then x :: y :: l' else y :: py_sorted_insert key x l'
  end.

Definition py_sorted (key : Container -> Z) (l : list Container) : list Container :=
  fold_left (fun acc x => py_sorted_insert key x acc) l [].

(** ** The store *)

Module Store.

Record t := {
  _storage : list (list Container);
  _width : Z;
  _cash : Z;
  _containers : list Container;
  _map : gmap Z Location
}.

Definition __init__ (width : Z) : t :=
  {| _storage := map (fun _ => []) (py_range 0 width);
     _width := width;
     _cash := 0;
     _containers := [];
     _map := ∅ |}.

Definition width (s : t) : Z := _width s.

Definition cash (s : t) : Z := _cash s.

Definition valid_position (s : t) (p : Position) : bool := p <? _width s.

Definition height_column (s : t) (p : Position) : result Z :=
  _ <- py_assert (valid_position s p) ;;
  col <- py_getitem (_storage s) p ;;
  Ok (py_len col).

Definition add_cash (s : t) (amount : Z) : t :=
  {| _storage := _storage s; _width := _width s; _cash := _cash s + amount;
     _containers := _containers s; _map := _map s |}.

Definition containers (s : t) : list Container := _containers s.

Definition empty (s : t) (p : Position) : result bool :=
  col <- py_getitem (_storage s) p ;; Ok (py_len col =? 0).

Definition location (s : t) (c : Container) : option Location :=
  _map s !! identifier c.

(** The loop of [can_add] over [range(p, p+c.size)]. *)
Fixpoint can_add_loop (s : t) (l : Z) (columns : list Z) : result bool :=
  match columns with
  | [] => Ok true
  | i :: rest =>
      h <- height_column s i ;;
      if negb (h =? l) then Ok false else can_add_loop s l rest
  end.

Definition can_add (s : t) (c : Container) (p : Position) : result bool :=
  _ <- py_assert (valid_position s p) ;;
  l <- height_column s p ;;
  can_add_loop s l (py_range p (p + size c)).

(** [loc[0]+1] is computed before [loc] is compared with [None]:
    subscripting [None] raises [TypeError]. *)
Definition can_remove (s : t) (c : Container) : result bool :=
  let loc := location s c in
  container_height <-
    match loc with
    | Some l => Ok (fst l + 1)
    | None => Raise TypeError
    end ;;
  match loc with
  | Some l =>
      h <- height_column s (snd l) ;;
      if container_height =? h then Ok true else Ok false
  | None => Ok false
  end.

(** [self._storage[i].append(c)] *)
Definition storage_append (st : list (list Container)) (i : Z) (c : Container)
  : result (list (list Container)) :=
  k <- py_index st i ;; Ok (alter (fun col => col ++ [c]) k st).

Fixpoint add_loop (st : list (list Container)) (c : Container) (columns : list Z)
  : result (list (list Container)) :=
  match columns with
  | [] => Ok st
  | i :: rest => st' <- storage_append st i c ;; add_loop st' c rest
  end.

Definition add (s : t) (c : Container) (p : Position) : result t :=
  b <- can_add s c p ;;
  _ <- py_assert b ;;
  h <- height_column s p ;;
  st <- add_loop (_storage s) c (py_range p (p + size c)) ;;
  Ok {| _storage := st; _width := _width s; _cash := _cash s;
        _containers := _containers s ++ [c];
        _map := <[identifier c := (h, p)]> (_map s) |}.

(** [del(self._storage[i][h])] *)
Definition storage_del (st : list (list Container)) (i : Z) (h : Z)
  : result (list (list Container)) :=
  k <- py_index st i ;;
  col <- py_getitem st i ;;
  col' <- py_delitem col h ;;
  Ok (<[k := col']> st).

Fixpoint remove_loop (st : list (list Container)) (h : Z) (columns : list Z)
  : result (list (list Container)) :=
  match columns with
  | [] => Ok st
  | i :: rest => st' <- storage_del st i h ;; remove_loop st' h rest
  end.

Definition remove (s : t) (c : Container) : result t :=
  b <- (if bool_decide (is_Some (_map s !! identifier c)) then can_remove s c
        else Ok false) ;;
  _ <- py_assert b ;;
  match location s c with
  | None => Raise TypeError
  | Some loc =>
      cs <- py_list_remove c (_containers s) ;;
      st <- remove_loop (_storage s) (fst loc) (py_range (snd loc) (snd loc + size c)) ;;
      Ok {| _storage := st; _width := _width s; _cash := _cash s;
            _containers := cs;
            _map := delete (identifier c) (_map s) |}
  end.

Definition can_move (s : t) (c : Container) (p : Position) : result bool :=
  b <- can_remove s c ;;
  if b then can_add s c p else Ok false.

(** The closing [self._map[c.identifier] = self.location(c)] stores back
    the location [add] has just recorded. *)
Definition move (s : t) (c : Container) (p : Position) : result t :=
  b <- can_move s c p ;;
  if b then
    s1 <- remove s c ;;
    s2 <- add s1 c p ;;
    match location s2 c with
    | Some loc =>
        Ok {| _storage := _storage s2; _width := _width s2; _cash := _cash s2;
              _containers := _containers s2;
              _map := <[identifier c := loc]> (_map s2) |}
    | None => Raise TypeError
    end
  else Ok s.

Fixpoint removable_loop (s : t) (cs : list Container) : result (list Container) :=
  match cs with
  | [] => Ok []
  | c :: rest =>
      b <- can_remove s c ;;
      l <- removable_loop s rest ;;
      Ok (if b then c :: l else l)
  end.

Definition removable_containers (s : t) : result (list Container) :=
  removable_loop s (containers s).

(** The loop of [height] over the columns. *)
Fixpoint height_loop (height : Z) (storage : list (list Container)) : Z :=
  match storage with
  | [] => height
  | l :: rest => height_loop (Z.max height (py_len l)) rest
  end.

Definition height (s : t) : Z := height_loop 0 (_storage s).

Definition top_container (s : t) (p : Position) : result (option Container) :=
  e <- empty s p ;;
  if e then Ok None
  else (col <- py_getitem (_storage s) p ;;
        c <- py_getitem col (-1) ;;
        Ok (Some c)).

End Store.

(** ** The logger *)

(** One line of the log file.  [Logger.__init__] prints the [START] line,
    the other four methods print one line each; the file is the list of
    the records printed so far, oldest first. *)
Inductive LogRecord : Type :=
| START (t : TimeStamp) (name : string) (width : Z)
| ADD (t : TimeStamp) (identifier : Z) (p : Position)
| REMOVE (t : TimeStamp) (identifier : Z)
| MOVE (t : TimeStamp) (identifier : Z) (p : Position)
| CASH (t : TimeStamp) (cash : Z).

Module Logger.

Definition t := list LogRecord.

Definition __init__ (name : string) (width : Z) : t := [START 0 name width].

Definition add (file : t) (time : TimeStamp) (c : Container) (p : Position) : t :=
  file ++ [ADD time (identifier c) p].

Definition remove (file : t) (time : TimeStamp) (c : Container) : t :=
  file ++ [REMOVE time (identifier c)].

Definition move (file : t) (time : TimeStamp) (c : Container) (p : Position) : t :=
  file ++ [MOVE time (identifier c) p].

Definition cash (file : t) (time : TimeStamp) (cash : Z) : t :=
  file ++ [CASH time cash].

End Logger.

(** ** The log checker *)

(** [{c.identifier: c for c in containers_list}]: a later container
    replaces an earlier one with the same identifier. *)
Definition containers_map (containers_list : list Container) : gmap Z Container :=
  fold_left (fun m c => <[identifier c := c]> m) containers_list ∅.

(** [containers_map[identifier]] *)
Definition map_getitem (m : gmap Z Container) (identifier : Z) : result Container :=
  match m !! identifier with
  | Some c => Ok c
  | None => Raise KeyError
  end.

(** The body of the loop of [check_and_show] over the lines after the
    first; the state of the loop is the store and [last]. *)
Definition check_line (cmap : gmap Z Container) (st : Store.t * Z) (line : LogRecord)
  : result (Store.t * Z) :=
  let store := fst st in
  let last := snd st in
  let time :=
    match line with
    | START t _ _ | ADD t _ _ | REMOVE t _ | MOVE t _ _ | CASH t _ => t
    end in
  _ <- py_assert (time >=? last) ;;
  let last := time in
  match line with
  | CASH _ cash =>
      _ <- py_assert (cash =? Store.cash store) ;;
      Ok (store, last)
  | ADD _ identifier position =>
      c <- map_getitem cmap identifier ;;
      store' <- Store.add store c position ;;
      Ok (store', last)
  | REMOVE _ identifier =>
      container <- map_getitem cmap identifier ;;
      store' <- Store.remove store container ;;
      if (start (delivery container) <=? time) && (time <? end_ (delivery container))
      then Ok (Store.add_cash store' (value container), last)
      else Ok (store', last)
  | MOVE _ identifier position =>
      c <- map_getitem cmap identifier ;;
      store' <- Store.move store c position ;;
      Ok (store', last)
  | START _ _ _ => Raise AssertionError
  end.

Fixpoint check_lines (cmap : gmap Z Container) (st : Store.t * Z) (lines : list LogRecord)
  : result (Store.t * Z) :=
  match lines with
  | [] => Ok st
  | line :: rest => st' <- check_line cmap st line ;; check_lines cmap st' rest
  end.

(** [check_and_show] without a screen, on the parsed lines of the log; it
    returns the store it has rebuilt. *)
Definition check_and_show (containers_list : list Container) (lines : list LogRecord)
  : result Store.t :=
  let cmap := containers_map containers_list in
  match lines with
  | [] => Raise IndexError
  | START 0 name width :: rest =>
      st <- check_lines cmap (Store.__init__ width, 0) rest ;;
      Ok (fst st)
  | _ :: _ => Raise AssertionError
  end.

(** ** The expert strategy *)

(** The value of an attribute access on a store: an integer, or a method
    bound to the store it was looked up on (what [obj.method] without a
    call evaluates to). *)
Inductive PyObject : Type :=
| PyInt (n : Z)
| PyBoundMethod (self : Store.t) (name : string).

(** [[pos, score, remaining_time]], the list [better_pile] and [best_pile]
    pass around.  The score is the integer [-1] of [best_pile] or the
    float [pile_score] returns. *)
Definition Pile := (Position * Q * Z)%type.

Module Strategy.

Record t := {
  _store : Store.t;
  _logger : Logger.t;
  _time : TimeStamp
}.

Definition __init__ (width : Z) : t :=
  {| _store := Store.__init__ width;
     _logger := Logger.__init__ "my_strategy" width;
     _time := 0 |}.

Definition expired_container (s : t) (c : Container) : bool :=
  _time s >=? end_ (delivery c).

Definition valid_container (s : t) (c : Container) : bool :=
  (_time s >=? start (delivery c)) && negb (expired_container s c).

Definition valid_position (s : t) (p : Position) : bool :=
  p <? Store._width (_store s).

Definition stack_position (n : Z) (size : Z) : result Position :=
  _ <- py_assert ((n <=? 2) && (n >=? 1)) ;;
  if n =? 1 then Ok (size * (size - 1)) else Ok (size ^ 2).

Definition update_time (s : t) : t :=
  {| _store := _store s; _logger := _logger s; _time := _time s + 1 |}.

Definition lose_container (s : t) (c : Container) : result t :=
  b <- Store.can_remove (_store s) c ;;
  _ <- py_assert b ;;
  store <- Store.remove (_store s) c ;;
  Ok (update_time {| _store := store;
                     _logger := Logger.remove (_logger s) (_time s) c;
                     _time := _time s |}).

Definition sell_container (s : t) (c : Container) : result t :=
  b <- Store.can_remove (_store s) c ;;
  _ <- py_assert b ;;
  store <- Store.remove (Store.add_cash (_store s) (value c)) c ;;
  Ok (update_time {| _store := store;
                     _logger := Logger.remove (_logger s) (_time s) c;
                     _time := _time s |}).

Definition move_container (s : t) (c : Container) (p : Position) : result t :=
  b <- Store.can_move (_store s) c p ;;
  _ <- py_assert b ;;
  store <- Store.move (_store s) c p ;;
  Ok (update_time {| _store := store;
                     _logger := Logger.move (_logger s) (_time s) c p;
                     _time := _time s |}).

Definition empty_store (s : t) : bool :=
  py_len (Store.containers (_store s)) =? 0.

Definition evaluate_container (s : t) (c : Container) (p_2 : Position) : result t :=
  b1 <- Store.can_add (_store s) c p_2 ;;
  b2 <- (if b1 then Store.can_remove (_store s) c else Ok false) ;;
  if b2 then
    if expired_container s c then lose_container s c
    else if valid_container s c then sell_container s c
    else move_container s c p_2
  else Ok s.

Definition height_column (s : t) (p : Position) : result Z :=
  _ <- py_assert (valid_position s p) ;;
  col <- py_getitem (Store._storage (_store s)) p ;;
  Ok (py_len col).

(** [return self._store.cash]: the attribute is not called. *)
Definition cash (s : t) : PyObject := PyBoundMethod (_store s) "cash".

Definition add_container (s : t) (c : Container) (p : Position) : result t :=
  b <- Store.can_add (_store s) c p ;;
  _ <- py_assert b ;;
  store <- Store.add (_store s) c p ;;
  Ok (update_time {| _store := store;
                     _logger := Logger.add (_logger s) (_time s) c p;
                     _time := _time s |}).

Definition valid_container_h (c : Container) (t : Z) : bool :=
  if (end_ (delivery c) >? t) && (t >=? start (delivery c)) then true else false.

Definition adjacent_stack (s : t) (c : Container) : result Position :=
  match Store._map (_store s) !! identifier c with
  | None => Raise KeyError
  | Some loc =>
      let p := snd loc in
      if p =? size c ^ 2 then Ok (size c * (size c - 1)) else Ok (size c ^ 2)
  end.

(** The scan shared by [containers_from_pile] and [money_from_pile]:
    [for i in range(depth): c = self._store._storage[p][depth-i-1]],
    adding [f i c] to the running total. *)
Fixpoint scan_pile (col : list Container) (depth : Z) (f : Z -> Container -> Z)
    (indices : list Z) (acc : Z) : result Z :=
  match indices with
  | [] => Ok acc
  | i :: rest =>
      c <- py_getitem col (depth - i - 1) ;;
      scan_pile col depth f rest (acc + f i c)
  end.

Definition containers_from_pile (s : t) (p : Position) (depth : Z) : result Z :=
  _ <- py_assert (depth >=? 0) ;;
  _ <- py_assert (valid_position s p) ;;
  h <- height_column s p ;;
  let remaining_time := depth - h in
  let depth := if remaining_time >? 0 then h else depth in
  col <- py_getitem (Store._storage (_store s)) p ;;
  scan_pile col depth
    (fun _ c => if valid_container s c || expired_container s c then 1 else 0)
    (py_range 0 depth) 0.

Definition money_from_pile (s : t) (p : Position) (depth : Z) : result (Z * Z) :=
  _ <- py_assert (depth >=? 0) ;;
  _ <- py_assert (valid_position s p) ;;
  h <- height_column s p ;;
  let rem_time := depth - h in
  let depth := if rem_time >? 0 then h else depth in
  col <- py_getitem (Store._storage (_store s)) p ;;
  money <- scan_pile col depth
    (fun i c => if valid_container_h c (_time s + i) then value c else 0)
    (py_range 0 depth) 0 ;;
  Ok (money, rem_time).

Definition pile_score (s : t) (p : Position) (depth : Z) : result (Q * Z) :=
  _ <- py_assert (depth >=? 0) ;;
  _ <- py_assert (valid_position s p) ;;
  let m := 3 in
  let c := 1 in
  money <- money_from_pile s p depth ;;
  count <- containers_from_pile s p depth ;;
  score <- py_truediv (m * fst money + c * count) (m + c) ;;
  Ok (score, snd money).

Fixpoint dig_loop (fuel : nat) (s : t) (p : Position) : result t :=
  match fuel with
  | O => Ok s
  | S fuel' =>
      e <- Store.empty (_store s) p ;;
      if negb e then
        col <- py_getitem (Store._storage (_store s)) p ;;
        h <- height_column s p ;;
        c <- py_getitem col (h - 1) ;;
        p_2 <- adjacent_stack s c ;;
        s' <- evaluate_container s c p_2 ;;
        dig_loop fuel' s' p
      else Ok s
  end.

(** [depth] decreases by one on every turn of the loop and the loop
    stops at [0]: it makes at most [depth] turns. *)
Definition dig_pile (s : t) (p : Position) (depth : Z) : result t :=
  _ <- py_assert (depth >=? 0) ;;
  _ <- py_assert (valid_position s p) ;;
  dig_loop (Z.to_nat depth) s p.

Definition better_pile (s : t) (pos : Position) (best_pile : Pile) (depth : Z)
  : result Pile :=
  _ <- py_assert (valid_position s pos) ;;
  _ <- py_assert (depth >=? 0) ;;
  sc <- pile_score s pos depth ;;
  let pile : Pile := (pos, fst sc, snd sc) in
  if negb (Qle_bool (snd (fst pile)) (snd (fst best_pile))) then Ok pile
  else
    e <- Store.empty (_store s) (fst (fst best_pile)) ;;
    if e then Ok pile else Ok best_pile.

Fixpoint best_pile_loop (s : t) (depth : Z) (best_pile : Pile) (sizes : list Z)
  : result Pile :=
  match sizes with
  | [] => Ok best_pile
  | i :: rest =>
      b1 <- better_pile s (i * i) best_pile depth ;;
      b2 <- better_pile s (i * (i - 1)) b1 depth ;;
      best_pile_loop s depth b2 rest
  end.

Definition best_pile (s : t) (depth : Z) : result Pile :=
  _ <- py_assert (depth >=? 0) ;;
  best_pile_loop s depth (0, inject_Z (-1), 0) (py_range 1 5).

Definition least_full_pile (s : t) (c : Container) : result Position :=
  p1 <- stack_position 1 (size c) ;;
  h1 <- height_column s p1 ;;
  p2 <- stack_position 2 (size c) ;;
  h2 <- height_column s p2 ;;
  if h1 >? h2 then stack_position 2 (size c) else stack_position 1 (size c).

Fixpoint least_equilibrated_loop (s : t) (max_entropy : Z) (res : list Position)
    (sizes : list Z) : result (list Position) :=
  match sizes with
  | [] => Ok res
  | i :: rest =>
      pos_1 <- stack_position 1 i ;;
      pos_2 <- stack_position 2 i ;;
      h2 <- height_column s pos_2 ;;
      h1 <- height_column s pos_1 ;;
      if max_entropy <? Z.abs (h2 - h1) then
        least_equilibrated_loop s (Z.abs (h2 - h1))
          (if h2 - h1 >? 0 then [pos_2; pos_1] else [pos_1; pos_2]) rest
      else least_equilibrated_loop s max_entropy res rest
  end.

Definition least_equilibrated_pile (s : t) : result (list Position) :=
  least_equilibrated_loop s (-1) [] (py_range 1 5).

Definition by_value (c : Container) : Z := value c.

(** The loop of [sort_by_cost] that fills [sell] and [remove]. *)
Fixpoint sort_loop (s : t) (container_list sell remove : list Container)
  : list Container * list Container :=
  match container_list with
  | [] => (sell, remove)
  | x :: rest =>
      if valid_container s x then sort_loop s rest (sell ++ [x]) remove
      else sort_loop s rest sell (remove ++ [x])
  end.

(** [sorted(sell, key=self.by_value)] builds a new list, which the
    statement drops; [sell] itself keeps its order. *)
Definition sort_by_cost (s : t) (container_list : list Container) : list Container :=
  let sr := sort_loop s container_list [] [] in
  let sell := fst sr in
  let remove := snd sr in
  let _ := py_sorted by_value sell in
  sell ++ remove.

Fixpoint equilibrate_loop (rem_time : nat) (s : t) (big_pile small_pile : Position)
  : result (t * nat) :=
  match rem_time with
  | O => Ok (s, O)
  | S rem_time' =>
      hb <- height_column s big_pile ;;
      hs <- height_column s small_pile ;;
      if hb >=? hs then
        e <- Store.empty (_store s) big_pile ;;
        s' <- (if negb e then
                 col <- py_getitem (Store._storage (_store s)) big_pile ;;
                 c <- py_getitem col (-1) ;;
                 move_container s c small_pile
               else Ok s) ;;
        equilibrate_loop rem_time' s' big_pile small_pile
      else Ok (s, rem_time)
  end.

(** [rem_time] is asserted non-negative, so the loop counts it down as a
    natural number. *)
Definition equilibrate_piles (s : t) (rem_time : Z) (big_pile small_pile : Position)
  : result (t * Z) :=
  _ <- py_assert (rem_time >=? 0) ;;
  r <- equilibrate_loop (Z.to_nat rem_time) s big_pile small_pile ;;
  if empty_store (fst r) then Ok (fst r, 0) else Ok (fst r, Z.of_nat (snd r)).

(** The body of both loops of [treat_removables]. *)
Definition treat_one (s : t) (r : Container) : result t :=
  if expired_container s r then lose_container s r
  else if valid_container s r then sell_container s r
  else Ok s.

(** The two loops of [treat_removables] differ by the test
    [c.value < removables[i].value], present when [before_add]. *)
Fixpoint treat_loop (s : t) (c : Container) (before_add : bool)
    (removables : list Container) : result t :=
  match removables with
  | [] => Ok s
  | r :: rest =>
      if (end_ (delivery c) >? _time s)
         && (if before_add then value c <? value r else true)
      then s' <- treat_one s r ;; treat_loop s' c before_add rest
      else Ok s
  end.

Definition treat_removables (s : t) (c : Container) (before_add : bool) : result t :=
  l <- Store.removable_containers (_store s) ;;
  let removables := sort_by_cost s l in
  treat_loop s c before_add removables.

(** [min_score = 0.3]: the float literal is the double nearest to [3/10],
    which is [5404319552844595 / 2^54]. *)
Definition min_score : Q := 5404319552844595 # 18014398509481984.

(** The [while] loop that ends [exec].  [fuel] bounds the number of its
    turns; [exec] gives it [rem_time] turns, which is enough
    ([exec_loop_fuel]): every turn decreases [rem_time]. *)
Fixpoint exec_loop (fuel : nat) (s : t) (rem_time : Z) : result t :=
  if (rem_time >? 0) && negb (empty_store s) then
    match fuel with
    | O => Raise OutOfFuel
    | S fuel' =>
        best_p <- best_pile s rem_time ;;
        if Qle_bool (snd (fst best_p)) min_score then
          piles <- least_equilibrated_pile s ;;
          big <- py_getitem piles 0 ;;
          small <- py_getitem piles 1 ;;
          r <- equilibrate_piles s rem_time big small ;;
          exec_loop fuel' (fst r) (snd r)
        else
          s' <- dig_pile s (fst (fst best_p)) rem_time ;;
          exec_loop fuel' s' (snd best_p)
    end
  else Ok s.

(** The placement of the incoming container, between the two calls of
    [treat_removables]. *)
Definition intake (s : t) (c : Container) : result t :=
  pos_1 <- least_full_pile s c ;;
  b <- Store.can_add (_store s) c pos_1 ;;
  if b && negb (expired_container s c) && (end_ (delivery c) >? _time s)
  then add_container s c pos_1
  else Ok s.

Definition exec (s : t) (c : Container) : result t :=
  s1 <- treat_removables s c true ;;
  s2 <- intake s1 c ;;
  s3 <- treat_removables s2 c false ;;
  let rem_time := end_ (arrival c) - _time s3 in
  exec_loop (Z.to_nat rem_time) s3 rem_time.

End Strategy.

Fixpoint execute_loop (strategy : Strategy.t) (containers : list Container)
  : result Strategy.t :=
  match containers with
  | [] => Ok strategy
  | container :: rest =>
      strategy' <- Strategy.exec strategy container ;;
      execute_loop strategy' rest
  end.

(** [execute_strategy] on the containers read from the file. *)
Definition execute_strategy (containers : list Container) (width : Z)
  : result Strategy.t :=
  execute_loop (Strategy.__init__ width) containers.

(** ** The simple strategy *)

(** [simple.py] has a [Strategy] class of its own with the same three
    fields.  The methods named here after the ones of [expert.py] have the
    same body in both files; [sold_container] is the [sell_container] of
    [expert.py] under another name. *)
Module Simple.

Definition t : Type := Strategy.t.

Definition __init__ (width : Z) : t := Strategy.__init__ width.

Definition expired_container (s : t) (c : Container) : bool :=
  Strategy.expired_container s c.

Definition valid_container (s : t) (c : Container) : bool :=
  Strategy.valid_container s c.

Definition valid_position (s : t) (p : Position) : bool :=
  p <? Store._width (Strategy._store s).

Definition stack_position (n : Z) (size : Z) : result Position :=
  Strategy.stack_position n size.

Definition update_time (s : t) : t := Strategy.update_time s.

Definition lose_container (s : t) (c : Container) : result t :=
  Strategy.lose_container s c.

Definition sold_container (s : t) (c : Container) : result t :=
  Strategy.sell_container s c.

Definition move_container (s : t) (c : Container) (p : Position) : result t :=
  Strategy.move_container s c p.

Definition empty_store (s : t) : bool :=
  py_len (Store.containers (Strategy._store s)) =? 0.

Definition evaluate_container (s : t) (c : Container) (p_2 : Position) : result t :=
  b1 <- Store.can_add (Strategy._store s) c p_2 ;;
  b2 <- (if b1 then Store.can_remove (Strategy._store s) c else Ok false) ;;
  if b2 then
    if expired_container s c then lose_container s c
    else if valid_container s c then sold_container s c
    else move_container s c p_2
  else Ok s.

(** The [while] loop of [transfer].  Nothing bounds the number of its
    turns in the source; [fuel] does in the model, and [Raise OutOfFuel]
    stands for a loop cut short. *)
Fixpoint transfer_loop (fuel : nat) (s : t) (p_1 p_2 : Position) (time_limit : Z)
  : result t :=
  e <- Store.empty (Strategy._store s) p_1 ;;
  if negb e && (time_limit >? Strategy._time s) then
    match fuel with
    | O => Raise OutOfFuel
    | S fuel' =>
        col <- py_getitem (Store._storage (Strategy._store s)) p_1 ;;
        c <- py_getitem col (-1) ;;
        s1 <- evaluate_container s c p_2 ;;
        transfer_loop fuel' s1 p_1 p_2 time_limit
    end
  else Ok s.

Definition transfer (fuel : nat) (s : t) (p_1 p_2 : Position) (time_limit : Z)
  : result t :=
  _ <- py_assert (valid_position s p_1 && valid_position s p_2) ;;
  transfer_loop fuel (if empty_store s then update_time s else s)
    p_1 p_2 time_limit.

(** Unlike the one of [expert.py], this [add_container] does not assert
    [can_add] itself. *)
Definition add_container (s : t) (c : Container) (p : Position) : result t :=
  store <- Store.add (Strategy._store s) c p ;;
  Ok (update_time {| Strategy._store := store;
                     Strategy._logger := Logger.add (Strategy._logger s)
                                           (Strategy._time s) c p;
                     Strategy._time := Strategy._time s |}).

(** [for width_pile in range(1, 5)], the body of the loop of [exec]. *)
Fixpoint exec_for (fuel : nat) (s : t) (time_limit : Z) (widths : list Z)
  : result t :=
  match widths with
  | [] => Ok s
  | width_pile :: rest =>
      pos_1 <- stack_position 1 width_pile ;;
      pos_2 <- stack_position 2 width_pile ;;
      s1 <- transfer fuel s pos_1 pos_2 time_limit ;;
      s2 <- transfer fuel s1 pos_2 pos_1 time_limit ;;
      exec_for fuel s2 time_limit rest
  end.

(** [while self._time < c.arrival.end], with [fuel] as in
    [transfer_loop]. *)
Fixpoint exec_loop (fuel : nat) (s : t) (c : Container) : result t :=
  if Strategy._time s <? end_ (arrival c) then
    match fuel with
    | O => Raise OutOfFuel
    | S fuel' =>
        s1 <- exec_for fuel' s (end_ (arrival c)) (py_range 1 5) ;;
        exec_loop fuel' s1 c
    end
  else Ok s.

Definition exec (fuel : nat) (s : t) (c : Container) : result t :=
  pos_1 <- stack_position 1 (size c) ;;
  b <- Store.can_add (Strategy._store s) c pos_1 ;;
  s1 <- (if b && negb (expired_container s c) then add_container s c pos_1
         else Ok s) ;;
  exec_loop fuel s1 c.

End Simple.

(** ** Statements of the specification, to compare the code with *)

(** The height of column [i] of a yard, for [0 <= i]. *)
Definition column_height (s : Store.t) (i : Z) : Z :=
  py_len (default [] (Store._storage s !! Z.to_nat i)).

(** Every column of [[p, q)] is as high as column [p]. *)
Definition level (s : Store.t) (p q : Z) : bool :=
  forallb (fun i => column_height s i =? column_height s p) (py_range p q).

(** The yard keeps one column per position of its width. *)
Definition well_formed (s : Store.t) : Prop :=
  length (Store._storage s) = Z.to_nat (Store._width s).

(** [can_remove] as specified: the container is present and its recorded
    height is the height of its column minus one. *)
Definition can_remove_spec (s : Store.t) (c : Container) : bool :=
  match Store.location s c with
  | Some loc => fst loc =? column_height s (snd loc) - 1
  | None => false
  end.

(** [can_place] as specified: [p] is a column, the footprint fits in the
    width and stands on columns of one height. *)
Definition can_place_spec (s : Store.t) (c : Container) (p : Position) : bool :=
  (0 <=? p) && (p <? Store._width s) && (p + size c <=? Store._width s)
  && level s p (p + size c).

(** [can_relocate] as specified: the container can be removed and, once
    it is removed, placed at [p]. *)
Definition can_relocate_spec (s : Store.t) (c : Container) (p : Position) : result bool :=
  b <- Store.can_remove s c ;;
  if b then (s1 <- Store.remove s c ;; Store.can_add s1 c p) else Ok false.

(** The flat-surface property of one container: every column of its
    footprint is exactly one higher than its recorded height. *)
Definition flat_at (s : Store.t) (c : Container) : bool :=
  match Store.location s c with
  | Some loc =>
      forallb (fun i => column_height s i =? fst loc + 1)
              (py_range (snd loc) (snd loc + size c))
  | None => false
  end.

Definition flat_surface (s : Store.t) : bool :=
  forallb (flat_at s) (Store.containers s).

(** The yards built from an empty one by [add], [remove] and [move], each
    under its own check. *)
Inductive reachable : Store.t -> Prop :=
| reachable_init width : reachable (Store.__init__ width)
| reachable_add s c p s' :
    reachable s -> Store.add s c p = Ok s' -> reachable s'
| reachable_remove s c s' :
    reachable s -> Store.remove s c = Ok s' -> reachable s'
| reachable_move s c p s' :
    reachable s -> Store.move s c p = Ok s' -> reachable s'.

(** The yards built from an empty one by [add], [remove] and [move] under
    the preconditions of the specification: a container is placed at a
    column [p >= 0] when its identifier is not in the yard, and it is
    removed or relocated when it is on top of every column of its
    footprint ([flat_at]). *)
Inductive tidy : Store.t -> Prop :=
| tidy_init width : tidy (Store.__init__ width)
| tidy_add s c p s' :
    tidy s -> 0 <= p -> Store.location s c = None ->
    Store.add s c p = Ok s' -> tidy s'
| tidy_remove s c s' :
    tidy s -> flat_at s c = true -> Store.remove s c = Ok s' -> tidy s'
| tidy_move s c p s' :
    tidy s -> 0 <= p -> flat_at s c = true ->
    Store.move s c p = Ok s' -> tidy s'.

(** The index and the columns agree: the containers of the yard bear
    distinct identifiers, each one lies at its recorded height in every
    column of its recorded footprint, and every cell of a column holds a
    container of the yard recorded at that height, over that column. *)
Definition recorded (s : Store.t) : Prop :=
  well_formed s
  /\ NoDup (List.map identifier (Store._containers s))
  /\ (forall c, In c (Store._containers s) ->
        exists h p,
          Store._map s !! identifier c = Some (h, p) /\ 0 <= h /\ 0 <= p
          /\ forall i, p <= i < p + size c ->
                exists col, Store._storage s !! Z.to_nat i = Some col
                            /\ col !! Z.to_nat h = Some c)
  /\ (forall (i j : nat) (col : list Container) (c : Container),
        Store._storage s !! i = Some col -> col !! j = Some c ->
        In c (Store._containers s)
        /\ exists p, Store._map s !! identifier c = Some (Z.of_nat j, p)
                     /\ p <= Z.of_nat i < p + size c).

(** The amount of the last [CASH] line of a log. *)
Definition last_cash (lines : list LogRecord) : option Z :=
  fold_left (fun acc line => match line with CASH _ cash => Some cash | _ => acc end)
            lines None.

Definition is_cash (line : LogRecord) : bool :=
  match line with CASH _ _ => true | _ => false end.

(** What the checker credits for a log: the value of every container
    removed at a time inside its delivery window. *)
Fixpoint credited (cmap : gmap Z Container) (lines : list LogRecord) : Z :=
  match lines with
  | [] => 0
  | REMOVE t identifier :: rest =>
      match cmap !! identifier with
      | Some c =>
          (if (start (delivery c) <=? t) && (t <? end_ (delivery c)) then value c else 0)
          + credited cmap rest
      | None => credited cmap rest
      end
  | _ :: rest => credited cmap rest
  end.

(** A container the checker finds under its identifier. *)
Definition known (cmap : gmap Z Container) (c : Container) : Prop :=
  cmap !! identifier c = Some c.

Definition store_known (cmap : gmap Z Container) (st : Store.t) : Prop :=
  Forall (known cmap) (Store._containers st)
  /\ Forall (Forall (known cmap)) (Store._storage st).

(** The log of a strategy replays to the store of the strategy: the
    invariant of the scheduler that the checker relies on. *)
Definition audited (cmap : gmap Z Container) (s : Strategy.t) : Prop :=
  exists name width rest last,
    Strategy._logger s = START 0 name width :: rest
    /\ check_lines cmap (Store.__init__ width, 0) rest = Ok (Strategy._store s, last)
    /\ last <= Strategy._time s
    /\ existsb is_cash rest = false
    /\ store_known cmap (Strategy._store s).

(** A container that lies in the yard where the index says, with nothing
    on it: the columns of its footprint end one above its recorded
    height. *)
Definition settled (st : Store.t) (c : Container) : Prop :=
  exists loc,
    Store.location st c = Some loc
    /\ 0 <= fst loc /\ 0 <= snd loc
    /\ flat_at st c = true.

(** The intake test as specified: the container is not expired and its
    arrival window is still open. *)
Definition intake_spec (s : Strategy.t) (c : Container) : bool :=
  negb (Strategy.expired_container s c) && (Strategy._time s <? end_ (arrival c)).





(** A computation that has not exhausted the recursion budget of the
    model. *)
Definition fuelled {A : Type} (r : result A) : Prop := r <> Raise OutOfFuel.

(** The time stamp a line of the log starts with. *)
Definition line_time (line : LogRecord) : TimeStamp :=
  match line with
  | START t _ _ | ADD t _ _ | REMOVE t _ | MOVE t _ _ | CASH t _ => t
  end.

Definition is_remove (line : LogRecord) : bool :=
  match line with REMOVE _ _ => true | _ => false end.

Definition is_move (line : LogRecord) : bool :=
  match line with MOVE _ _ _ => true | _ => false end.

Definition is_start (line : LogRecord) : bool :=
  match line with START _ _ _ => true | _ => false end.

(** The identifier a line of the log names, if any. *)
Definition line_identifier (line : LogRecord) : option Z :=
  match line with
  | ADD _ i _ | REMOVE _ i | MOVE _ i _ => Some i
  | START _ _ _ | CASH _ _ => None
  end.

(** One logged action of the strategy, with the line it writes: the four
    methods through which [expert.py] changes the yard. *)
Inductive action : Strategy.t -> LogRecord -> Strategy.t -> Prop :=
| action_add s c p s' :
    Strategy.add_container s c p = Ok s' ->
    action s (ADD (Strategy._time s) (identifier c) p) s'
| action_lose s c s' :
    Strategy.lose_container s c = Ok s' ->
    action s (REMOVE (Strategy._time s) (identifier c)) s'
| action_sell s c s' :
    Strategy.sell_container s c = Ok s' ->
    action s (REMOVE (Strategy._time s) (identifier c)) s'
| action_move s c p s' :
    Strategy.move_container s c p = Ok s' ->
    action s (MOVE (Strategy._time s) (identifier c) p) s'.

(** A sequence of actions and the lines it writes, oldest first. *)
Inductive actions : Strategy.t -> list LogRecord -> Strategy.t -> Prop :=
| actions_nil s : actions s [] s
| actions_cons s r s1 l s' :
    action s r s1 -> actions s1 l s' -> actions s (r :: l) s'.

(** ** Containers and yards of the examples *)

(** One line of a container file, as [read_containers] builds it. *)
Definition read_container (identifier size value arrival_start arrival_end
                           delivery_start delivery_end : Z) : Container :=
  {| identifier := identifier; size := size; value := value;
     arrival := {| start := arrival_start; end_ := arrival_end |};
     delivery := {| start := delivery_start; end_ := delivery_end |} |}.

(** The result of a computation that succeeds, a default otherwise; used
    to name the yards the examples reach. *)
Definition run_from {A : Type} (d : A) (r : result A) : A :=
  match r with Ok a => a | Raise _ => d end.

Definition small_box : Container := read_container 1 1 10 0 5 1 3.
Definition second_box : Container := read_container 2 1 7 0 5 1 3.
Definition wide_box : Container := read_container 3 2 5 0 5 1 3.

(** Width 1, [small_box] with [second_box] on top of it. *)
Definition stacked_yard : Store.t :=
  run_from (Store.__init__ 1)
    (s <- Store.add (Store.__init__ 1) small_box 0 ;; Store.add s second_box 0).

(** Width 3, [wide_box] on columns 0 and 1. *)
Definition wide_yard : Store.t :=
  run_from (Store.__init__ 3) (Store.add (Store.__init__ 3) wide_box 0).

(** Width 3, [wide_box] on columns 0 and 1 and [small_box] on top of it
    in column 1. *)
Definition covered_yard : Store.t :=
  run_from (Store.__init__ 3) (Store.add wide_yard small_box 1).

(** Width 3, [wide_box] on columns 0 and 1 and [small_box] beside it in
    column 2: three columns of height 1. *)
Definition level_yard : Store.t :=
  run_from (Store.__init__ 3) (Store.add wide_yard small_box 2).

(** Two boxes that are both sellable from time 2 on, the first one the
    cheaper. *)
Definition cheap_box : Container := read_container 1 1 1 0 0 2 10.
Definition dear_box : Container := read_container 2 2 2 0 0 2 10.

(** The strategy of width 20 that has executed [cheap_box] and has just
    taken [dear_box] in: the state in which the second call of
    [treat_removables] of [exec] starts. *)
Definition before_post_flush : Strategy.t :=
  run_from (Strategy.__init__ 20)
    (s1 <- Strategy.exec (Strategy.__init__ 20) cheap_box ;;
     s2 <- Strategy.treat_removables s1 dear_box true ;;
     Strategy.intake s2 dear_box).

(** Three boxes of size 1 whose arrival windows are closed when they come
    in; none is deliverable before time 100, except the first, deliverable
    from time 3. *)
Definition bottom_box : Container := read_container 1 1 10 0 0 3 200.
Definition beside_box : Container := read_container 2 1 7 0 0 100 200.
Definition top_box : Container := read_container 3 1 5 0 0 100 200.

(** The strategy of width 20 after these three: [bottom_box] under
    [top_box] in column 0, [beside_box] in column 1, at time 3. *)
Definition three_boxes : Strategy.t :=
  run_from (Strategy.__init__ 20)
    (execute_strategy [bottom_box; beside_box; top_box] 20).

(** A container file of three lines; with width 20 the run places, moves
    and sells, and spends idle time on the piles. *)
Definition example_file : list Container :=
  [read_container 1 1 10 0 5 3 8;
   read_container 2 2 5 1 9 20 30;
   read_container 3 1 7 2 12 9 11].

Definition example_run : Strategy.t :=
  run_from (Strategy.__init__ 20) (execute_strategy example_file 20).

(** A box whose delivery window [0, 1) is over as soon as it stands in
    the yard, and the strategy of width 20 that has executed it: the box is
    in column 0 at time 1. *)
Definition stale_box : Container := read_container 1 1 10 0 0 0 1.

Definition stale_yard : Strategy.t :=
  run_from (Strategy.__init__ 20) (execute_strategy [stale_box] 20).

(** A box that comes after [stale_box], cheaper and deliverable later. *)
Definition late_box : Container := read_container 2 1 5 0 0 5 9.

(** A log for the file that holds [small_box] alone, with a [CASH] line
    after the sale. *)
Definition cash_log : list LogRecord :=
  [START 0 "my_strategy" 4; ADD 0 1 0; CASH 0 0; REMOVE 1 1; CASH 2 10].

(** A box five columns wide, which belongs to none of the piles of sizes
    1 to 4, and the simple strategy of width 30 that has just placed it:
    the box stands on columns 20 to 24 at time 1. *)
Definition five_box : Container := read_container 9 5 1 0 3 5 9.

Definition idle_yard : Simple.t :=
  run_from (Simple.__init__ 30)
    (Simple.add_container (Simple.__init__ 30) five_box 20).

(** * Properties *)

(** ** The error monad *)

Lemma bind_Ok {A B : Type} (m : result A) (k : A -> result B) (b : B) :
  bind m k = Ok b -> exists a, m = Ok a /\ k a = Ok b.
Proof. destruct m as [a|e]; simpl; intros H; [eauto | discriminate]. Qed.

Lemma py_assert_Ok (b : bool) (u : unit) : py_assert b = Ok u -> b = true.
Proof. destruct b; simpl; [reflexivity | discriminate]. Qed.

(** Splits a successful monadic computation into its successful steps. *)
Ltac monad_inv H :=
  match type of H with
  | bind _ _ = Ok _ =>
      let x := fresh "x" in
      let H1 := fresh "E" in
      let H2 := fresh "K" in
      apply bind_Ok in H; destruct H as (x & H1 & H2);
      try monad_inv H1; try monad_inv H2
  | py_assert _ = Ok _ => apply py_assert_Ok in H
  | Ok _ = Ok _ => inversion H; clear H; subst
  | Raise _ = Ok _ => discriminate H
  end.

(** ** The yards and strategies of the examples are reached *)

Lemma stacked_yard_reached :
  (s <- Store.add (Store.__init__ 1) small_box 0 ;; Store.add s second_box 0)
  = Ok stacked_yard.
Proof. reflexivity. Qed.

Lemma wide_yard_reached : Store.add (Store.__init__ 3) wide_box 0 = Ok wide_yard.
Proof. reflexivity. Qed.

Lemma covered_yard_reached : Store.add wide_yard small_box 1 = Ok covered_yard.
Proof. reflexivity. Qed.

Lemma level_yard_reached : Store.add wide_yard small_box 2 = Ok level_yard.
Proof. reflexivity. Qed.

Lemma before_post_flush_reached :
  (s1 <- Strategy.exec (Strategy.__init__ 20) cheap_box ;;
   s2 <- Strategy.treat_removables s1 dear_box true ;;
   Strategy.intake s2 dear_box)
  = Ok before_post_flush.
Proof. vm_compute. reflexivity. Qed.

Lemma three_boxes_reached :
  execute_strategy [bottom_box; beside_box; top_box] 20 = Ok three_boxes
  /\ Strategy._logger three_boxes
     = [START 0 "my_strategy" 20; ADD 0 1 0; ADD 1 2 1; ADD 2 3 0]
  /\ Strategy._time three_boxes = 3.
Proof. repeat split; vm_compute; reflexivity. Qed.

Lemma example_run_reached :
  execute_strategy example_file 20 = Ok example_run
  /\ Strategy._logger example_run
     = [START 0 "my_strategy" 20; ADD 0 1 0; MOVE 1 1 1; MOVE 2 1 0; REMOVE 3 1;
        ADD 4 2 2; MOVE 5 2 4; MOVE 6 2 2; MOVE 7 2 4; MOVE 8 2 2; ADD 9 3 0;
        REMOVE 10 3; MOVE 11 2 4]
  /\ Store.cash (Strategy._store example_run) = 17.
Proof. repeat split; vm_compute; reflexivity. Qed.

Lemma stale_yard_reached :
  execute_strategy [stale_box] 20 = Ok stale_yard
  /\ Strategy._logger stale_yard = [START 0 "my_strategy" 20; ADD 0 1 0]
  /\ Strategy._time stale_yard = 1.
Proof. repeat split; vm_compute; reflexivity. Qed.

(** The run that takes [late_box] in after [stale_box] loses [stale_box]
    at time 1 and earns nothing. *)
Lemma stale_box_lost_in_run :
  exists s,
    execute_strategy [stale_box; late_box] 20 = Ok s
    /\ Strategy._logger s
       = [START 0 "my_strategy" 20; ADD 0 1 0; REMOVE 1 1; ADD 2 2 0]
    /\ Store.cash (Strategy._store s) = 0.
Proof. eexists. repeat split; vm_compute; reflexivity. Qed.

(** ** [Strategy.cash] *)

(** C10. [Strategy.cash()] is documented to return the cash gained, the
    integer [Store.cash()] returns; it returns the method [cash] bound to
    the store instead, for every strategy, and so never that integer. *)
Theorem Strategy_cash_returns_method (s : Strategy.t) :
  Strategy.cash s = PyBoundMethod (Strategy._store s) "cash"
  /\ Strategy.cash s <> PyInt (Store.cash (Strategy._store s))
  /\ Strategy.cash (Strategy.__init__ 4) <> PyInt 0.
Proof. repeat split; unfold Strategy.cash; discriminate. Qed.

(** ** [Strategy.sort_by_cost] *)

Lemma sort_loop_partition (s : Strategy.t) (l sell remove : list Container) :
  Strategy.sort_loop s l sell remove
  = (sell ++ List.filter (Strategy.valid_container s) l,
     remove ++ List.filter (fun x => negb (Strategy.valid_container s x)) l).
Proof.
  revert sell remove; induction l as [|x l IH]; intros sell remove; simpl.
  - now rewrite !app_nil_r.
  - destruct (Strategy.valid_container s x); simpl; rewrite IH;
      now rewrite <- app_assoc.
Qed.

(** [sort_by_cost] only moves the sellable containers to the front: both
    groups keep the order of the argument. *)
Lemma sort_by_cost_partition (s : Strategy.t) (l : list Container) :
  Strategy.sort_by_cost s l
  = List.filter (Strategy.valid_container s) l
    ++ List.filter (fun x => negb (Strategy.valid_container s x)) l.
Proof. unfold Strategy.sort_by_cost. now rewrite sort_loop_partition. Qed.

(** C7. The docstring of [sort_by_cost] promises the sellable containers
    by descending value.  With [cheap_box] (value 1) and [dear_box]
    (value 2) both removable and sellable at time 2, the list comes back in
    the order of the yard, cheaper first, and the run sells in that order. *)
Theorem sort_by_cost_keeps_order :
  Store.removable_containers (Strategy._store before_post_flush)
    = Ok [cheap_box; dear_box]
  /\ Strategy.valid_container before_post_flush cheap_box = true
  /\ Strategy.valid_container before_post_flush dear_box = true
  /\ value cheap_box < value dear_box
  /\ Strategy.sort_by_cost before_post_flush [cheap_box; dear_box]
     = [cheap_box; dear_box]
  /\ (Strategy._logger (run_from (Strategy.__init__ 20)
                          (execute_strategy [cheap_box; dear_box] 20))
      = [START 0 "my_strategy" 20; ADD 0 1 0; ADD 1 2 2; REMOVE 2 1; REMOVE 3 2]).
Proof. repeat split; vm_compute; reflexivity. Qed.

(** ** [Store.can_remove] *)

Lemma can_remove_present (s : Store.t) (c : Container) (h col : Z) :
  Store.location s c = Some (h, col) ->
  Store.can_remove s c
  = (hc <- Store.height_column s col ;; Ok (h + 1 =? hc)).
Proof.
  intros H. unfold Store.can_remove. rewrite H. simpl.
  destruct (Store.height_column s col) as [hc|e]; simpl; [|reflexivity].
  now destruct (h + 1 =? hc).
Qed.

Lemma can_remove_absent (s : Store.t) (c : Container) :
  Store.location s c = None -> Store.can_remove s c = Raise TypeError.
Proof. intros H. unfold Store.can_remove. now rewrite H. Qed.

(** C1. [can_remove] is meant to answer [False] for a container that is
    not in the yard (it tests [loc is not None]) but subscripts [loc]
    first: on the empty yard it raises [TypeError].  It also looks at the
    leftmost column of the container only: in [covered_yard], [wide_box]
    has [small_box] above it in column 1 and is reported removable. *)
Theorem can_remove_absent_raises :
  Store.location (Store.__init__ 1) small_box = None
  /\ can_remove_spec (Store.__init__ 1) small_box = false
  /\ Store.can_remove (Store.__init__ 1) small_box = Raise TypeError
  /\ py_getitem (Store._storage covered_yard) 1 = Ok [wide_box; small_box]
  /\ Store.location covered_yard wide_box = Some (0, 0)
  /\ size wide_box = 2
  /\ Store.can_remove covered_yard wide_box = Ok true.
Proof. repeat split; vm_compute; reflexivity. Qed.

(** ** Python lists and ranges *)

Lemma py_range_nil (a b : Z) : b <= a -> py_range a b = [].
Proof.
  intros H. unfold py_range. now replace (Z.to_nat (b - a)) with O by lia.
Qed.

Lemma py_range_cons (a b : Z) : a < b -> py_range a b = a :: py_range (a + 1) b.
Proof.
  intros H. unfold py_range.
  replace (Z.to_nat (b - a)) with (S (Z.to_nat (b - (a + 1)))) by lia.
  simpl. f_equal; [lia|].
  rewrite <- seq_shift, List.map_map. apply List.map_ext. intros k. lia.
Qed.

Lemma map_seq_offset (a : Z) (j n : nat) :
  List.map (fun k => a + Z.of_nat k) (seq j n)
  = List.map (fun k => a + Z.of_nat j + Z.of_nat k) (seq 0 n).
Proof.
  revert j; induction n as [|n IH]; intros j; simpl; [reflexivity|].
  f_equal; [lia|]. rewrite IH, <- seq_shift, List.map_map.
  apply List.map_ext. intros k. lia.
Qed.

Lemma py_range_app (a m b : Z) :
  a <= m -> m <= b -> py_range a b = py_range a m ++ py_range m b.
Proof.
  intros Ham Hmb. unfold py_range.
  replace (Z.to_nat (b - a)) with (Z.to_nat (m - a) + Z.to_nat (b - m))%nat by lia.
  rewrite seq_app, List.map_app. f_equal.
  rewrite map_seq_offset. apply List.map_ext. intros k. lia.
Qed.

Lemma In_py_range (a b i : Z) : In i (py_range a b) <-> a <= i < b.
Proof.
  unfold py_range. rewrite in_map_iff. split.
  - intros (k & <- & Hk). apply in_seq in Hk. lia.
  - intros H. exists (Z.to_nat (i - a)). split; [lia|]. apply in_seq. lia.
Qed.

Lemma py_index_nonneg {A : Type} (l : list A) (i : Z) :
  0 <= i < py_len l -> py_index l i = Ok (Z.to_nat i).
Proof.
  intros H. unfold py_index.
  replace (0 <=? i) with true by lia. now replace (i <? py_len l) with true by lia.
Qed.

Lemma py_index_lt {A : Type} (l : list A) (i : Z) (k : nat) :
  py_index l i = Ok k -> (k < length l)%nat.
Proof.
  unfold py_index, py_len.
  destruct ((0 <=? i) && (i <? Z.of_nat (length l))) eqn:E1.
  - intros [= <-]. apply andb_true_iff in E1. lia.
  - destruct ((i <? 0) && (- Z.of_nat (length l) <=? i)) eqn:E2; [|discriminate].
    intros [= <-]. apply andb_true_iff in E2. lia.
Qed.

Lemma py_index_same_length {A B : Type} (l : list A) (l' : list B) (i : Z) :
  length l = length l' -> py_index l' i = py_index l i.
Proof. intros H. unfold py_index, py_len. now rewrite H. Qed.

Lemma py_getitem_nonneg {A : Type} (l : list A) (i : Z) :
  0 <= i ->
  py_getitem l i
  = match l !! Z.to_nat i with Some x => Ok x | None => Raise IndexError end.
Proof.
  intros H. unfold py_getitem.
  destruct (Z_lt_dec i (py_len l)) as [Hlt|Hge].
  - now rewrite py_index_nonneg by lia.
  - unfold py_index.
    replace (i <? py_len l) with false by lia.
    replace (i <? 0) with false by lia. rewrite andb_false_r. simpl.
    rewrite lookup_ge_None_2; [reflexivity|]. unfold py_len in Hge. lia.
Qed.

Lemma py_getitem_elem {A : Type} (l : list A) (i : Z) (x : A) :
  py_getitem l i = Ok x -> x ∈ l.
Proof.
  unfold py_getitem. intros H. monad_inv H.
  destruct (l !! x0) eqn:El; [|discriminate]. inversion K; subst.
  apply list_elem_of_lookup. eauto.
Qed.

(** ** Heights of the columns of a well-formed yard *)

Lemma height_column_wf (s : Store.t) (i : Z) :
  well_formed s -> 0 <= i ->
  Store.height_column s i
  = if i <? Store._width s then Ok (column_height s i) else Raise AssertionError.
Proof.
  intros Hwf Hi. unfold Store.height_column, Store.valid_position.
  destruct (i <? Store._width s) eqn:E; simpl; [|reflexivity].
  rewrite py_getitem_nonneg by lia. unfold column_height.
  destruct (Store._storage s !! Z.to_nat i) eqn:El; simpl; [reflexivity|].
  apply lookup_ge_None_1 in El. unfold well_formed in Hwf. lia.
Qed.

Lemma can_add_loop_app (s : Store.t) (l : Z) (a b : list Z) :
  Store.can_add_loop s l (a ++ b)
  = (r <- Store.can_add_loop s l a ;;
     if r then Store.can_add_loop s l b else Ok false).
Proof.
  induction a as [|i a IH]; simpl; [reflexivity|].
  destruct (Store.height_column s i) as [h|e]; simpl; [|reflexivity].
  destruct (h =? l); simpl; [apply IH | reflexivity].
Qed.

Lemma can_add_loop_inside (s : Store.t) (l : Z) (columns : list Z) :
  well_formed s ->
  (forall i, In i columns -> 0 <= i < Store._width s) ->
  Store.can_add_loop s l columns
  = Ok (forallb (fun i => column_height s i =? l) columns).
Proof.
  intros Hwf. induction columns as [|i columns IH]; intros Hin; simpl; [reflexivity|].
  rewrite height_column_wf by (try apply Hin; simpl; auto; apply Hin; simpl; auto).
  replace (i <? Store._width s) with true
    by (specialize (Hin i (or_introl eq_refl)); lia).
  simpl. destruct (column_height s i =? l); simpl; [|reflexivity].
  apply IH. intros j Hj. apply Hin. now right.
Qed.

(** ** [Store.can_add] *)

Lemma can_add_inside (s : Store.t) (c : Container) (p : Position) :
  well_formed s -> 0 <= p < Store._width s -> p + size c <= Store._width s ->
  Store.can_add s c p = Ok (can_place_spec s c p).
Proof.
  intros Hwf Hp Hfit. unfold Store.can_add, Store.valid_position.
  replace (p <? Store._width s) with true by lia. simpl.
  rewrite height_column_wf by (auto; lia).
  replace (p <? Store._width s) with true by lia. simpl.
  rewrite can_add_loop_inside; auto.
  - unfold can_place_spec, level.
    replace (0 <=? p) with true by lia.
    replace (p <? Store._width s) with true by lia.
    now replace (p + size c <=? Store._width s) with true by lia.
  - intros i Hi. apply In_py_range in Hi. lia.
Qed.

Lemma can_add_outside (s : Store.t) (c : Container) (p : Position) :
  Store._width s <= p -> Store.can_add s c p = Raise AssertionError.
Proof.
  intros Hp. unfold Store.can_add, Store.valid_position.
  now replace (p <? Store._width s) with false by lia.
Qed.

Lemma can_add_overrun (s : Store.t) (c : Container) (p : Position) :
  well_formed s -> 0 <= p < Store._width s -> Store._width s < p + size c ->
  Store.can_add s c p
  = if level s p (Store._width s) then Raise AssertionError else Ok false.
Proof.
  intros Hwf Hp Hover. unfold Store.can_add, Store.valid_position.
  replace (p <? Store._width s) with true by lia. simpl.
  rewrite height_column_wf by (auto; lia).
  replace (p <? Store._width s) with true by lia. simpl.
  rewrite (py_range_app p (Store._width s) (p + size c)) by lia.
  rewrite can_add_loop_app, can_add_loop_inside; auto.
  - simpl. fold (level s p (Store._width s)).
    destruct (level s p (Store._width s)); [|reflexivity].
    rewrite py_range_cons by lia. simpl.
    unfold Store.height_column, Store.valid_position.
    now rewrite Z.ltb_irrefl.
  - intros i Hi. apply In_py_range in Hi. lia.
Qed.

Lemma add_rejected (s : Store.t) (c : Container) (p : Position) :
  Store.can_add s c p = Ok false -> Store.add s c p = Raise AssertionError.
Proof. intros H. unfold Store.add. now rewrite H. Qed.

(** C4, as the code has it.  On a column [p >= 0] of a well-formed yard:
    when the footprint fits in the width, [can_add] answers whether the
    columns [[p, p+size)] are level with column [p]; a position at or
    beyond the width fails the assertion on the position; a footprint that
    overruns the width is answered [False] only when one of its columns
    inside the yard is out of level, and fails the assertion of
    [height_column] otherwise.  The check returns no yard, and [add]
    refuses a placement that [can_add] refuses. *)
Theorem can_add_characterised (s : Store.t) (c : Container) (p : Position) :
  well_formed s -> 0 <= p ->
  (p < Store._width s -> p + size c <= Store._width s ->
   Store.can_add s c p = Ok (can_place_spec s c p))
  /\ (Store._width s <= p -> Store.can_add s c p = Raise AssertionError)
  /\ (p < Store._width s -> Store._width s < p + size c ->
      Store.can_add s c p
      = if level s p (Store._width s) then Raise AssertionError else Ok false)
  /\ (Store.can_add s c p = Ok false -> Store.add s c p = Raise AssertionError).
Proof.
  intros Hwf Hp. repeat split.
  - intros; apply can_add_inside; auto; lia.
  - apply can_add_outside.
  - intros; apply can_add_overrun; auto; lia.
  - apply add_rejected.
Qed.

(** In [wide_yard] (width 3, columns of heights 1, 1, 0) a footprint of
    size 2 at column 1 straddles heights 1 and 0. *)
Lemma can_add_characterised_witness :
  well_formed wide_yard /\ 0 <= 1
  /\ Store.can_add wide_yard dear_box 1 = Ok false
  /\ Store.add wide_yard dear_box 1 = Raise AssertionError.
Proof.
  assert (Hwf : well_formed wide_yard) by reflexivity.
  assert (Hp : 0 <= 1) by lia.
  destruct (can_add_characterised wide_yard dear_box 1 Hwf Hp) as (H1 & _ & _ & H4).
  assert (Hno : Store.can_add wide_yard dear_box 1 = Ok false).
  { rewrite H1; [reflexivity | reflexivity | discriminate]. }
  split; [exact Hwf|]. split; [exact Hp|]. split; [exact Hno|]. exact (H4 Hno).
Defined.

(** C4, as stated, fails where the footprint overruns the width: in the
    empty yard of width 2, a container of size 2 at column 1 is not
    answered [False], the assertion of [height_column] fails. *)
Lemma can_add_overrun_raises :
  can_place_spec (Store.__init__ 2) wide_box 1 = false
  /\ Store.can_add (Store.__init__ 2) wide_box 1 = Raise AssertionError
  /\ Store.can_add (Store.__init__ 2) wide_box 1
     <> Ok (can_place_spec (Store.__init__ 2) wide_box 1).
Proof. split; [reflexivity|]. split; [reflexivity|]. vm_compute. discriminate. Qed.

(** ** [Store.add], [Store.remove] and [Store.move] on the columns *)

Lemma py_index_nonneg_inv {A : Type} (l : list A) (i : Z) (k : nat) :
  0 <= i -> py_index l i = Ok k -> k = Z.to_nat i /\ i < py_len l.
Proof.
  intros Hi. unfold py_index.
  destruct ((0 <=? i) && (i <? py_len l)) eqn:E1.
  - intros [= <-]. apply andb_true_iff in E1. lia.
  - replace (i <? 0) with false by lia. discriminate.
Qed.

Lemma add_loop_length (c : Container) (columns : list Z) :
  forall st st', Store.add_loop st c columns = Ok st' -> length st' = length st.
Proof.
  induction columns as [|i columns IH]; simpl; intros st st' H.
  - now inversion H.
  - monad_inv H. unfold Store.storage_append in E. monad_inv E.
    apply IH in K. now rewrite K, length_alter.
Qed.

Lemma remove_loop_length (h : Z) (columns : list Z) :
  forall st st', Store.remove_loop st h columns = Ok st' -> length st' = length st.
Proof.
  induction columns as [|i columns IH]; simpl; intros st st' H.
  - now inversion H.
  - monad_inv H. unfold Store.storage_del in E. monad_inv E.
    apply IH in K. now rewrite K, length_insert.
Qed.

Lemma add_fields (s s' : Store.t) (c : Container) (p : Position) :
  Store.add s c p = Ok s' ->
  Store.can_add s c p = Ok true
  /\ Store._width s' = Store._width s
  /\ Store._cash s' = Store._cash s
  /\ Store._containers s' = Store._containers s ++ [c]
  /\ (exists h, Store.height_column s p = Ok h
               /\ Store._map s' = <[identifier c := (h, p)]> (Store._map s))
  /\ Store.add_loop (Store._storage s) c (py_range p (p + size c))
     = Ok (Store._storage s').
Proof.
  unfold Store.add. intros H. monad_inv H. simpl. repeat split; eauto.
Qed.

Lemma remove_fields (s s' : Store.t) (c : Container) :
  Store.remove s c = Ok s' ->
  Store.can_remove s c = Ok true
  /\ Store._width s' = Store._width s
  /\ Store._cash s' = Store._cash s
  /\ py_list_remove c (Store._containers s) = Ok (Store._containers s')
  /\ Store._map s' = delete (identifier c) (Store._map s)
  /\ exists loc, Store.location s c = Some loc
       /\ Store.remove_loop (Store._storage s) (fst loc)
            (py_range (snd loc) (snd loc + size c)) = Ok (Store._storage s').
Proof.
  unfold Store.remove. intros H. monad_inv H.
  destruct (Store.location s c) as [loc|] eqn:El; [|discriminate].
  monad_inv K0. simpl.
  destruct (bool_decide (is_Some (Store._map s !! identifier c))); [|discriminate].
  repeat split; eauto.
Qed.

Lemma add_location (s s' : Store.t) (c : Container) (p : Position) :
  Store.add s c p = Ok s' ->
  exists h, Store.height_column s p = Ok h /\ Store.location s' c = Some (h, p).
Proof.
  intros H. apply add_fields in H as (_ & _ & _ & _ & (h & Hh & Hm) & _).
  exists h. split; [exact Hh|]. unfold Store.location. rewrite Hm.
  apply lookup_insert_eq.
Qed.

(** When [can_move] holds, [move] is [remove] followed by [add]; the
    assignment that ends it changes nothing. *)
Lemma move_remove_add (s : Store.t) (c : Container) (p : Position) :
  Store.can_move s c p = Ok true ->
  Store.move s c p = (s1 <- Store.remove s c ;; Store.add s1 c p).
Proof.
  intros Hm. unfold Store.move. rewrite Hm. simpl.
  destruct (Store.remove s c) as [s1|e]; simpl; [|reflexivity].
  destruct (Store.add s1 c p) as [s2|e] eqn:Ea; simpl; [|reflexivity].
  destruct (add_location _ _ _ _ Ea) as (h & _ & Hl). rewrite Hl.
  unfold Store.location in Hl. rewrite insert_id by exact Hl.
  now destruct s2.
Qed.

Lemma move_refused (s : Store.t) (c : Container) (p : Position) :
  Store.can_move s c p = Ok false -> Store.move s c p = Ok s.
Proof. intros Hm. unfold Store.move. now rewrite Hm. Qed.

Lemma move_cases (s s' : Store.t) (c : Container) (p : Position) :
  Store.move s c p = Ok s' ->
  (Store.can_move s c p = Ok false /\ s' = s)
  \/ (Store.can_move s c p = Ok true
      /\ exists s1, Store.remove s c = Ok s1 /\ Store.add s1 c p = Ok s').
Proof.
  intros H. destruct (Store.can_move s c p) as [[|]|e] eqn:Hm.
  - right. split; [reflexivity|]. rewrite move_remove_add in H by exact Hm.
    monad_inv H. eauto.
  - left. rewrite move_refused in H by exact Hm. now inversion H.
  - unfold Store.move in H. rewrite Hm in H. discriminate.
Qed.

Lemma add_well_formed (s s' : Store.t) (c : Container) (p : Position) :
  Store.add s c p = Ok s' -> well_formed s -> well_formed s'.
Proof.
  intros H Hwf. apply add_fields in H as (_ & Hw & _ & _ & _ & Hl).
  apply add_loop_length in Hl. unfold well_formed. now rewrite Hl, Hw.
Qed.

Lemma remove_well_formed (s s' : Store.t) (c : Container) :
  Store.remove s c = Ok s' -> well_formed s -> well_formed s'.
Proof.
  intros H Hwf. apply remove_fields in H as (_ & Hw & _ & _ & _ & loc & _ & Hl).
  apply remove_loop_length in Hl. unfold well_formed. now rewrite Hl, Hw.
Qed.

Lemma move_well_formed (s s' : Store.t) (c : Container) (p : Position) :
  Store.move s c p = Ok s' -> well_formed s -> well_formed s'.
Proof.
  intros H Hwf. apply move_cases in H as [(_ & ->)|(_ & s1 & Hr & Ha)]; [exact Hwf|].
  eapply add_well_formed; [exact Ha|]. eapply remove_well_formed; eauto.
Qed.

Lemma init_well_formed (width : Z) : well_formed (Store.__init__ width).
Proof.
  unfold well_formed, Store.__init__, py_range. simpl.
  rewrite List.length_map, List.length_map, length_seq. f_equal. lia.
Qed.

Lemma reachable_well_formed (s : Store.t) : reachable s -> well_formed s.
Proof.
  induction 1; eauto using init_well_formed, add_well_formed, remove_well_formed,
    move_well_formed.
Qed.

Lemma add_loop_lookup (c : Container) (n : nat) :
  forall (p q : Z) (st st' : list (list Container)) (k : nat),
    Z.to_nat (q - p) = n -> 0 <= p ->
    Store.add_loop st c (py_range p q) = Ok st' ->
    st' !! k
    = if bool_decide (p <= Z.of_nat k < q)
      then (fun col => col ++ [c]) <$> st !! k
      else st !! k.
Proof.
  induction n as [|n IH]; intros p q st st' k Hn Hp H.
  - rewrite py_range_nil in H by lia. inversion H; subst.
    rewrite bool_decide_eq_false_2 by lia. reflexivity.
  - rewrite py_range_cons in H by lia. simpl in H. monad_inv H.
    unfold Store.storage_append in E. monad_inv E.
    apply py_index_nonneg_inv in E0 as (-> & Hlt); [|exact Hp].
    rewrite (IH (p + 1) q _ st' k) by (try exact K; lia).
    destruct (decide (k = Z.to_nat p)) as [->|Hne].
    + rewrite bool_decide_eq_false_2 by lia.
      rewrite bool_decide_eq_true_2 by lia.
      apply list_lookup_alter_eq.
    + rewrite list_lookup_alter_ne by auto.
      destruct (decide (p + 1 <= Z.of_nat k < q)).
      * rewrite !bool_decide_eq_true_2 by lia. reflexivity.
      * rewrite !bool_decide_eq_false_2 by lia. reflexivity.
Qed.

(** What a successful [can_add] says about a well-formed yard. *)
Lemma can_add_true_inv (s : Store.t) (c : Container) (p : Position) :
  well_formed s -> 0 <= p -> Store.can_add s c p = Ok true ->
  p < Store._width s
  /\ (0 < size c -> p + size c <= Store._width s)
  /\ level s p (p + size c) = true.
Proof.
  intros Hwf Hp H.
  destruct (Z_lt_dec p (Store._width s)) as [Hlt|Hge];
    [|rewrite can_add_outside in H by lia; discriminate].
  split; [exact Hlt|].
  destruct (Z_le_dec (p + size c) (Store._width s)) as [Hfit|Hover].
  - rewrite can_add_inside in H by (auto; lia). injection H as Hs.
    unfold can_place_spec in Hs.
    apply andb_true_iff in Hs as (_ & Hs). split; [lia | exact Hs].
  - rewrite can_add_overrun in H by (auto; lia).
    destruct (level s p (Store._width s)); discriminate.
Qed.

Lemma add_flat (s s' : Store.t) (c : Container) (p : Position) :
  well_formed s -> 0 <= p -> Store.add s c p = Ok s' -> flat_at s' c = true.
Proof.
  intros Hwf Hp H.
  destruct (add_location _ _ _ _ H) as (h & Hh & Hl).
  destruct (add_fields _ _ _ _ H) as (Hc & _ & _ & _ & _ & Hst).
  destruct (can_add_true_inv _ _ _ Hwf Hp Hc) as (Hlt & Hfit & Hlev).
  rewrite height_column_wf in Hh by auto.
  replace (p <? Store._width s) with true in Hh by lia. inversion Hh; subst h.
  unfold flat_at. rewrite Hl. simpl.
  apply forallb_forall. intros i Hi. apply In_py_range in Hi.
  unfold level in Hlev. rewrite forallb_forall in Hlev.
  specialize (Hlev i (proj2 (In_py_range _ _ _) Hi)).
  apply Z.eqb_eq in Hlev. apply Z.eqb_eq. rewrite <- Hlev.
  unfold column_height.
  rewrite (add_loop_lookup c _ p (p + size c) _ _ (Z.to_nat i) eq_refl Hp Hst).
  rewrite bool_decide_eq_true_2 by lia.
  destruct (Store._storage s !! Z.to_nat i) as [col|] eqn:Ecol; simpl.
  - unfold py_len. rewrite length_app. simpl. lia.
  - apply lookup_ge_None_1 in Ecol. unfold well_formed in Hwf. lia.
Qed.

Lemma add_flat_heights (s s' : Store.t) (c : Container) (p : Position) :
  well_formed s -> 0 <= p -> Store.add s c p = Ok s' ->
  exists h, Store.location s' c = Some (h, p)
    /\ forall i, p <= i < p + size c -> Store.height_column s' i = Ok (h + 1).
Proof.
  intros Hwf Hp H.
  pose proof (add_flat _ _ _ _ Hwf Hp H) as Hflat.
  destruct (add_location _ _ _ _ H) as (h & _ & Hl).
  destruct (add_fields _ _ _ _ H) as (Hc & Hw & _).
  destruct (can_add_true_inv _ _ _ Hwf Hp Hc) as (_ & Hfit & _).
  exists h. split; [exact Hl|]. intros i Hi.
  rewrite height_column_wf by (eauto using add_well_formed; lia).
  rewrite Hw. replace (i <? Store._width s) with true by lia.
  unfold flat_at in Hflat. rewrite Hl in Hflat. simpl in Hflat.
  rewrite forallb_forall in Hflat.
  specialize (Hflat i (proj2 (In_py_range _ _ _) Hi)).
  apply Z.eqb_eq in Hflat. now rewrite Hflat.
Qed.

(** ** The flat-surface property *)

(** C2, as stated, fails as soon as a container is covered: in the yard
    of width 1 where [second_box] stands on [small_box], [small_box] is
    present at height 0 and its column has height 2. *)
Lemma flat_surface_fails_under_a_stack :
  reachable stacked_yard
  /\ tidy stacked_yard
  /\ In small_box (Store.containers stacked_yard)
  /\ Store.location stacked_yard small_box = Some (0, 0)
  /\ Store.height_column stacked_yard 0 = Ok 2
  /\ flat_surface stacked_yard = false.
Proof.
  split.
  - apply (reachable_add
             (run_from (Store.__init__ 1) (Store.add (Store.__init__ 1) small_box 0))
             second_box 0); [|reflexivity].
    apply (reachable_add (Store.__init__ 1) small_box 0); [constructor | reflexivity].
  - split.
    + apply (tidy_add
               (run_from (Store.__init__ 1) (Store.add (Store.__init__ 1) small_box 0))
               second_box 0); [|lia|reflexivity|reflexivity].
      apply (tidy_add (Store.__init__ 1) small_box 0);
        [constructor|lia|reflexivity|reflexivity].
    + split; [left; reflexivity|]. repeat split.
Qed.

(** ** [Store.can_move] and [Store.move] *)

Lemma can_move_true (s : Store.t) (c : Container) (p : Position) :
  Store.can_move s c p = Ok true
  <-> Store.can_remove s c = Ok true /\ Store.can_add s c p = Ok true.
Proof.
  unfold Store.can_move. split.
  - intros H. destruct (Store.can_remove s c) as [[|]|e]; simpl in H;
      try discriminate. auto.
  - intros (Hr & Ha). now rewrite Hr.
Qed.

(** C5.  [can_move] evaluates [can_add] on the yard as it stands, with
    the container still in it, while [move] removes the container first
    and lets [add] assert the placement on the yard without it.  On
    [wide_yard], [wide_box] alone on columns 0 and 1 of a yard of width 3
    can be removed and then placed on columns 1 and 2, and [can_move]
    refuses, so that [move] does nothing.  On [level_yard], where the
    three columns have height 1, [can_move] permits the same relocation,
    and [move] removes [wide_box] and then fails the assertion of [add]. *)
Theorem can_move_judges_before_removal :
  (Store.can_remove wide_yard wide_box = Ok true
   /\ can_relocate_spec wide_yard wide_box 1 = Ok true
   /\ (exists s', (s1 <- Store.remove wide_yard wide_box ;; Store.add s1 wide_box 1)
                  = Ok s')
   /\ Store.can_move wide_yard wide_box 1 = Ok false
   /\ Store.move wide_yard wide_box 1 = Ok wide_yard)
  /\ (Store.can_move level_yard wide_box 1 = Ok true
      /\ can_relocate_spec level_yard wide_box 1 = Ok false
      /\ (exists s1, Store.remove level_yard wide_box = Ok s1
                     /\ Store.add s1 wide_box 1 = Raise AssertionError)
      /\ Store.move level_yard wide_box 1 = Raise AssertionError).
Proof.
  split.
  - split; [reflexivity|]. split; [reflexivity|].
    split; [eexists; vm_compute; reflexivity|].
    split; reflexivity.
  - split; [reflexivity|]. split; [reflexivity|].
    split; [|reflexivity].
    eexists. split; vm_compute; reflexivity.
Qed.

(** ** [Store.add] succeeds when [Store.can_add] holds *)

Lemma height_column_index (s : Store.t) (i h : Z) :
  Store.height_column s i = Ok h -> exists k, py_index (Store._storage s) i = Ok k.
Proof.
  unfold Store.height_column, py_getitem. intros H. monad_inv H. eauto.
Qed.

Lemma can_add_loop_index (s : Store.t) (l : Z) (columns : list Z) :
  Store.can_add_loop s l columns = Ok true ->
  forall i, In i columns -> exists k, py_index (Store._storage s) i = Ok k.
Proof.
  induction columns as [|j columns IH]; simpl; intros H i Hi; [contradiction|].
  monad_inv H. destruct (negb (x =? l)); [discriminate|].
  destruct Hi as [->|Hi]; [eapply height_column_index; eauto | auto].
Qed.

Lemma add_loop_succeeds (c : Container) (columns : list Z) :
  forall st,
    (forall i, In i columns -> exists k, py_index st i = Ok k) ->
    exists st', Store.add_loop st c columns = Ok st'.
Proof.
  induction columns as [|j columns IH]; simpl; intros st Hin; [eauto|].
  destruct (Hin j (or_introl eq_refl)) as (k & Hk).
  unfold Store.storage_append. rewrite Hk. simpl.
  apply IH. intros i Hi.
  rewrite (py_index_same_length st) by (now rewrite length_alter). auto.
Qed.

Lemma add_succeeds (s : Store.t) (c : Container) (p : Position) :
  Store.can_add s c p = Ok true -> exists s', Store.add s c p = Ok s'.
Proof.
  intros Hc. unfold Store.add. rewrite Hc. simpl.
  unfold Store.can_add in Hc. monad_inv Hc. rewrite E0. simpl.
  destruct (add_loop_succeeds c _ (Store._storage s) (can_add_loop_index _ _ _ K0))
    as (st' & ->).
  simpl. eauto.
Qed.

(** ** The intake step of [Strategy.exec] *)

Lemma least_full_pile_inv (s : Strategy.t) (c : Container) (pos : Position) :
  Strategy.least_full_pile s c = Ok pos ->
  exists h1 h2,
    Strategy.height_column s (size c * (size c - 1)) = Ok h1
    /\ Strategy.height_column s (size c ^ 2) = Ok h2
    /\ pos = if h1 >? h2 then size c ^ 2 else size c * (size c - 1).
Proof.
  unfold Strategy.least_full_pile, Strategy.stack_position. simpl.
  destruct (Strategy.height_column s (size c * (size c - 1))) as [h1|e] eqn:E1;
    simpl; [|discriminate].
  destruct (Strategy.height_column s (size c ^ 2)) as [h2|e] eqn:E2;
    simpl; [|discriminate].
  intros H. exists h1, h2. repeat split.
  destruct (h1 >? h2); now inversion H.
Qed.

(** C6, as the code has it.  The intake step chooses the lower of the two
    piles of the size of the container (the first one when they are as
    high), and places the container there exactly when [can_add] accepts
    the position and the delivery window of the container is still open;
    the arrival window is not consulted. *)
Theorem intake_gate (s : Strategy.t) (c : Container) (pos : Position) :
  Strategy.least_full_pile s c = Ok pos ->
  (exists h1 h2,
      Strategy.height_column s (size c * (size c - 1)) = Ok h1
      /\ Strategy.height_column s (size c ^ 2) = Ok h2
      /\ pos = if h1 >? h2 then size c ^ 2 else size c * (size c - 1))
  /\ (Store.can_add (Strategy._store s) c pos = Ok true ->
      Strategy._time s < end_ (delivery c) ->
      exists s' h,
        Strategy.intake s c = Ok s'
        /\ Store.add (Strategy._store s) c pos = Ok (Strategy._store s')
        /\ Store.location (Strategy._store s') c = Some (h, pos)
        /\ Strategy._logger s'
           = Strategy._logger s ++ [ADD (Strategy._time s) (identifier c) pos]
        /\ Strategy._time s' = Strategy._time s + 1)
  /\ (Store.can_add (Strategy._store s) c pos = Ok true ->
      end_ (delivery c) <= Strategy._time s ->
      Strategy.intake s c = Ok s)
  /\ (Store.can_add (Strategy._store s) c pos = Ok false ->
      Strategy.intake s c = Ok s).
Proof.
  intros Hpos. split; [now apply least_full_pile_inv|].
  unfold Strategy.intake. rewrite Hpos. simpl. repeat split.
  - intros Hc Ht. rewrite Hc. simpl.
    unfold Strategy.expired_container.
    replace (Strategy._time s >=? end_ (delivery c)) with false by lia.
    replace (end_ (delivery c) >? Strategy._time s) with true by lia. simpl.
    destruct (add_succeeds _ _ _ Hc) as (st' & Ha).
    destruct (add_location _ _ _ _ Ha) as (h & _ & Hl).
    unfold Strategy.add_container. rewrite Hc, Ha. simpl.
    eexists; exists h. repeat split; simpl; eauto.
  - intros Hc Ht. rewrite Hc. simpl.
    replace (end_ (delivery c) >? Strategy._time s) with false by lia.
    now rewrite andb_false_r.
  - intros Hc. now rewrite Hc.
Qed.

(** An empty strategy of width 20 takes [cheap_box] in on column 0,
    although its arrival window [0, 0) is closed. *)
Lemma intake_gate_witness :
  exists s' h,
    Strategy.intake (Strategy.__init__ 20) cheap_box = Ok s'
    /\ Store.add (Strategy._store (Strategy.__init__ 20)) cheap_box 0
       = Ok (Strategy._store s')
    /\ Store.location (Strategy._store s') cheap_box = Some (h, 0)
    /\ Strategy._logger s'
       = Strategy._logger (Strategy.__init__ 20) ++ [ADD 0 (identifier cheap_box) 0]
    /\ Strategy._time s' = 0 + 1.
Proof.
  assert (Hpos : Strategy.least_full_pile (Strategy.__init__ 20) cheap_box = Ok 0)
    by reflexivity.
  destruct (intake_gate _ _ _ Hpos) as (_ & H & _).
  apply H; reflexivity.
Defined.

(** C6, as stated, fails for a container whose arrival window is closed
    and whose delivery window is open: [cheap_box] arrives in [0, 0) and is
    placed at time 0. *)
Lemma intake_ignores_arrival :
  Strategy._time (Strategy.__init__ 20) >= end_ (arrival cheap_box)
  /\ intake_spec (Strategy.__init__ 20) cheap_box = false
  /\ Strategy._logger
       (run_from (Strategy.__init__ 20)
          (Strategy.intake (Strategy.__init__ 20) cheap_box))
     = [START 0 "my_strategy" 20; ADD 0 1 0]
  /\ Store.location
       (Strategy._store
          (run_from (Strategy.__init__ 20)
             (Strategy.intake (Strategy.__init__ 20) cheap_box)))
       cheap_box
     = Some (0, 0).
Proof.
  split; [vm_compute; discriminate|]. split; [reflexivity|].
  split; vm_compute; reflexivity.
Qed.

(** ** Float division by four *)

(** The literal [0.3] of [exec]. *)
Lemma min_score_is_the_double_of_three_tenths :
  py_truediv 3 10 = Ok Strategy.min_score.
Proof. vm_compute. reflexivity. Qed.






Lemma py_truediv_cases (a b : Z) :
  (exists score, py_truediv a b = Ok score)
  \/ py_truediv a b = Raise ZeroDivisionError
  \/ py_truediv a b = Raise OverflowError.
Proof.
  unfold py_truediv, round_to_double.
  destruct (b =? 0); [right; now left|].
  destruct (Z.sgn b * a =? 0); [left; eauto|].
  destruct (0 <=? Z.max (quotient_exponent (Z.abs (Z.sgn b * a)) (Z.abs b) - 52) (-1074));
    [|left; eauto].
  match goal with |- context [if ?c then _ else _] => destruct c end;
    [right; now right | left; eauto].
Qed.

(** ** [Strategy.pile_score] *)










(** ** The checker on a growing log *)

Lemma bind_ret {A : Type} (m : result A) : bind m Ok = m.
Proof. now destruct m. Qed.

Lemma check_lines_app (cmap : gmap Z Container) (l1 l2 : list LogRecord) :
  forall st,
    check_lines cmap st (l1 ++ l2)
    = (st' <- check_lines cmap st l1 ;; check_lines cmap st' l2).
Proof.
  induction l1 as [|r l1 IH]; intros st; simpl; [reflexivity|].
  destruct (check_line cmap st r); simpl; auto.
Qed.

Lemma check_lines_snoc (cmap : gmap Z Container) (l : list LogRecord) (r : LogRecord)
    (st st1 : Store.t * Z) :
  check_lines cmap st l = Ok st1 ->
  check_lines cmap st (l ++ [r]) = check_line cmap st1 r.
Proof. intros H. rewrite check_lines_app, H. simpl. apply bind_ret. Qed.

Lemma existsb_is_cash_snoc (l : list LogRecord) (r : LogRecord) :
  existsb is_cash l = false -> is_cash r = false -> existsb is_cash (l ++ [r]) = false.
Proof. intros Hl Hr. rewrite existsb_app, Hl. simpl. now rewrite Hr. Qed.

Lemma last_cash_no_cash (l : list LogRecord) :
  existsb is_cash l = false -> forall acc, fold_left
    (fun acc line => match line with CASH _ cash => Some cash | _ => acc end) l acc = acc.
Proof.
  induction l as [|r l IH]; simpl; intros H acc; [reflexivity|].
  apply orb_false_iff in H as (Hr & Hl). destruct r; try discriminate; auto.
Qed.

(** ** Cash and removal commute *)

Lemma remove_add_cash (st : Store.t) (v : Z) (c : Container) :
  Store.remove (Store.add_cash st v) c
  = (st' <- Store.remove st c ;; Ok (Store.add_cash st' v)).
Proof.
  unfold Store.remove.
  change (Store.can_remove (Store.add_cash st v) c) with (Store.can_remove st c).
  change (Store.location (Store.add_cash st v) c) with (Store.location st c).
  simpl.
  destruct (if bool_decide (is_Some (Store._map st !! identifier c))
            then Store.can_remove st c else Ok false) as [[|]|e]; simpl; try reflexivity.
  destruct (Store.location st c) as [loc|]; [|reflexivity].
  destruct (py_list_remove c (Store._containers st)); simpl; [|reflexivity].
  destruct (Store.remove_loop (Store._storage st) (fst loc)
              (py_range (snd loc) (snd loc + size c))); reflexivity.
Qed.

(** ** The containers of the yard stay among those of the file *)

Lemma py_list_remove_Forall (P : Container -> Prop) (c : Container) (l : list Container) :
  forall l', py_list_remove c l = Ok l' -> Forall P l -> Forall P l'.
Proof.
  induction l as [|x l IH]; simpl; intros l' H Hl; [discriminate|].
  apply Forall_cons in Hl as (Hx & Hl).
  destruct (decide (x = c)); [inversion H; subst; exact Hl|].
  monad_inv H. apply Forall_cons. eauto.
Qed.

Lemma add_loop_Forall (P : Container -> Prop) (c : Container) (columns : list Z) :
  forall st st',
    Store.add_loop st c columns = Ok st' -> P c ->
    Forall (Forall P) st -> Forall (Forall P) st'.
Proof.
  induction columns as [|i columns IH]; simpl; intros st st' H Hc Hst.
  - inversion H; subst; assumption.
  - monad_inv H. unfold Store.storage_append in E. monad_inv E.
    eapply IH; [exact K | exact Hc |].
    apply Forall_alter; [exact Hst|]. intros col _ Hcol.
    apply Forall_app_2; [exact Hcol | now apply Forall_singleton].
Qed.

Lemma remove_loop_Forall (P : Container -> Prop) (h : Z) (columns : list Z) :
  forall st st',
    Store.remove_loop st h columns = Ok st' ->
    Forall (Forall P) st -> Forall (Forall P) st'.
Proof.
  induction columns as [|i columns IH]; simpl; intros st st' H Hst.
  - inversion H; subst; assumption.
  - monad_inv H. unfold Store.storage_del in E. monad_inv E.
    eapply IH; [exact K|].
    apply Forall_insert; [exact Hst|].
    match goal with
    | Hd : py_delitem _ _ = Ok _, Hg : py_getitem _ _ = Ok _ |- _ =>
        unfold py_delitem in Hd; monad_inv Hd; apply py_getitem_elem in Hg;
        apply Forall_delete; rewrite Forall_forall in Hst; auto
    end.
Qed.

Lemma add_known (cmap : gmap Z Container) (st st' : Store.t) (c : Container)
    (p : Position) :
  Store.add st c p = Ok st' -> known cmap c ->
  store_known cmap st -> store_known cmap st'.
Proof.
  intros H Hc (Hcs & Hst).
  apply add_fields in H as (_ & _ & _ & Hcs' & _ & Hl). split.
  - rewrite Hcs'. apply Forall_app_2; [exact Hcs | now apply Forall_singleton].
  - eapply add_loop_Forall; eauto.
Qed.

Lemma remove_known (cmap : gmap Z Container) (st st' : Store.t) (c : Container) :
  Store.remove st c = Ok st' -> store_known cmap st -> store_known cmap st'.
Proof.
  intros H (Hcs & Hst).
  apply remove_fields in H as (_ & _ & _ & Hcs' & _ & loc & _ & Hl). split.
  - eapply py_list_remove_Forall; eauto.
  - eapply remove_loop_Forall; eauto.
Qed.

Lemma move_known (cmap : gmap Z Container) (st st' : Store.t) (c : Container)
    (p : Position) :
  Store.move st c p = Ok st' -> known cmap c ->
  store_known cmap st -> store_known cmap st'.
Proof.
  intros H Hc Hst.
  apply move_cases in H as [(_ & ->)|(_ & s1 & Hr & Ha)]; [exact Hst|].
  eapply add_known; [exact Ha | exact Hc |]. eapply remove_known; eauto.
Qed.

Lemma add_cash_known (cmap : gmap Z Container) (st : Store.t) (v : Z) :
  store_known cmap st -> store_known cmap (Store.add_cash st v).
Proof. now intros (Hcs & Hst). Qed.

(** ** Every action of the strategy is replayed by the checker *)

Section Audit.

Variable cmap : gmap Z Container.

Lemma init_audited (width : Z) : audited cmap (Strategy.__init__ width).
Proof.
  exists "my_strategy"%string, width, [], 0. simpl. repeat split; try lia.
  - constructor.
  - apply Forall_forall. intros col Hcol.
    apply list_elem_of_In, in_map_iff in Hcol as (i & <- & _). constructor.
Qed.

Lemma add_container_audited (s s' : Strategy.t) (c : Container) (p : Position) :
  Strategy.add_container s c p = Ok s' -> known cmap c ->
  audited cmap s -> audited cmap s'.
Proof.
  unfold Strategy.add_container.
  intros H Hc (name & w & rest & last & Hlog & Hrep & Hlast & Hcash & Hk).
  destruct (Store.can_add (Strategy._store s) c p) as [[|]|e]; simpl in H;
    try discriminate.
  destruct (Store.add (Strategy._store s) c p) as [st'|e] eqn:Ha; simpl in H;
    [|discriminate].
  inversion H; subst s'; clear H.
  exists name, w, (rest ++ [ADD (Strategy._time s) (identifier c) p]),
    (Strategy._time s).
  simpl. split; [unfold Logger.add; now rewrite Hlog|].
  split.
  { rewrite (check_lines_snoc _ _ _ _ _ Hrep). unfold check_line. simpl.
    replace (Strategy._time s >=? last) with true by lia. simpl.
    unfold map_getitem. rewrite Hc. simpl. now rewrite Ha. }
  split; [lia|]. split; [now apply existsb_is_cash_snoc|].
  eapply add_known; eauto.
Qed.

Lemma lose_container_audited (s s' : Strategy.t) (c : Container) :
  Strategy.lose_container s c = Ok s' -> known cmap c ->
  Strategy.expired_container s c = true ->
  audited cmap s -> audited cmap s'.
Proof.
  unfold Strategy.lose_container, Strategy.expired_container.
  intros H Hc Hexp (name & w & rest & last & Hlog & Hrep & Hlast & Hcash & Hk).
  destruct (Store.can_remove (Strategy._store s) c) as [[|]|e]; simpl in H;
    try discriminate.
  destruct (Store.remove (Strategy._store s) c) as [st'|e] eqn:Hr; simpl in H;
    [|discriminate].
  inversion H; subst s'; clear H.
  exists name, w, (rest ++ [REMOVE (Strategy._time s) (identifier c)]),
    (Strategy._time s).
  simpl. split; [unfold Logger.remove; now rewrite Hlog|].
  split.
  { rewrite (check_lines_snoc _ _ _ _ _ Hrep). unfold check_line. simpl.
    replace (Strategy._time s >=? last) with true by lia. simpl.
    unfold map_getitem. rewrite Hc. simpl. rewrite Hr. simpl.
    replace (Strategy._time s <? end_ (delivery c)) with false by lia.
    now rewrite andb_false_r. }
  split; [lia|]. split; [now apply existsb_is_cash_snoc|].
  eapply remove_known; eauto.
Qed.

Lemma sell_container_audited (s s' : Strategy.t) (c : Container) :
  Strategy.sell_container s c = Ok s' -> known cmap c ->
  Strategy.valid_container s c = true ->
  audited cmap s -> audited cmap s'.
Proof.
  unfold Strategy.sell_container, Strategy.valid_container,
    Strategy.expired_container.
  intros H Hc Hval (name & w & rest & last & Hlog & Hrep & Hlast & Hcash & Hk).
  destruct (Store.can_remove (Strategy._store s) c) as [[|]|e]; simpl in H;
    try discriminate.
  rewrite remove_add_cash in H.
  destruct (Store.remove (Strategy._store s) c) as [st'|e] eqn:Hr; simpl in H;
    [|discriminate].
  inversion H; subst s'; clear H.
  exists name, w, (rest ++ [REMOVE (Strategy._time s) (identifier c)]),
    (Strategy._time s).
  simpl. split; [unfold Logger.remove; now rewrite Hlog|].
  split.
  { rewrite (check_lines_snoc _ _ _ _ _ Hrep). unfold check_line. simpl.
    replace (Strategy._time s >=? last) with true by lia. simpl.
    unfold map_getitem. rewrite Hc. simpl. rewrite Hr. simpl.
    apply andb_true_iff in Hval as (Hs & He).
    replace (start (delivery c) <=? Strategy._time s) with true by lia.
    replace (Strategy._time s <? end_ (delivery c)) with true
      by (apply negb_true_iff in He; lia).
    reflexivity. }
  split; [lia|]. split; [now apply existsb_is_cash_snoc|].
  apply add_cash_known. eapply remove_known; eauto.
Qed.

Lemma move_container_audited (s s' : Strategy.t) (c : Container) (p : Position) :
  Strategy.move_container s c p = Ok s' -> known cmap c ->
  audited cmap s -> audited cmap s'.
Proof.
  unfold Strategy.move_container.
  intros H Hc (name & w & rest & last & Hlog & Hrep & Hlast & Hcash & Hk).
  destruct (Store.can_move (Strategy._store s) c p) as [[|]|e]; simpl in H;
    try discriminate.
  destruct (Store.move (Strategy._store s) c p) as [st'|e] eqn:Hm; simpl in H;
    [|discriminate].
  inversion H; subst s'; clear H.
  exists name, w, (rest ++ [MOVE (Strategy._time s) (identifier c) p]),
    (Strategy._time s).
  simpl. split; [unfold Logger.move; now rewrite Hlog|].
  split.
  { rewrite (check_lines_snoc _ _ _ _ _ Hrep). unfold check_line. simpl.
    replace (Strategy._time s >=? last) with true by lia. simpl.
    unfold map_getitem. rewrite Hc. simpl. now rewrite Hm. }
  split; [lia|]. split; [now apply existsb_is_cash_snoc|].
  eapply move_known; eauto.
Qed.

Lemma treat_one_audited (s s' : Strategy.t) (r : Container) :
  Strategy.treat_one s r = Ok s' -> known cmap r ->
  audited cmap s -> audited cmap s'.
Proof.
  unfold Strategy.treat_one. intros H Hr Hs.
  destruct (Strategy.expired_container s r) eqn:He;
    [eapply lose_container_audited; eauto|].
  destruct (Strategy.valid_container s r) eqn:Hv;
    [eapply sell_container_audited; eauto|].
  now inversion H; subst.
Qed.

Lemma evaluate_container_audited (s s' : Strategy.t) (c : Container) (p_2 : Position) :
  Strategy.evaluate_container s c p_2 = Ok s' -> known cmap c ->
  audited cmap s -> audited cmap s'.
Proof.
  unfold Strategy.evaluate_container. intros H Hc Hs.
  destruct (Store.can_add (Strategy._store s) c p_2) as [b1|e]; simpl in H;
    [|discriminate].
  destruct (if b1 then Store.can_remove (Strategy._store s) c else Ok false)
    as [[|]|e]; simpl in H; try discriminate.
  - destruct (Strategy.expired_container s c) eqn:He;
      [eapply lose_container_audited; eauto|].
    destruct (Strategy.valid_container s c) eqn:Hv;
      [eapply sell_container_audited; eauto|].
    eapply move_container_audited; eauto.
  - now inversion H; subst.
Qed.

Lemma treat_loop_audited (c : Container) (before_add : bool)
    (removables : list Container) :
  forall s s',
    Strategy.treat_loop s c before_add removables = Ok s' ->
    Forall (known cmap) removables ->
    audited cmap s -> audited cmap s'.
Proof.
  induction removables as [|r rest IH]; simpl; intros s s' H Hk Hs.
  - now inversion H; subst.
  - apply Forall_cons in Hk as (Hr & Hrest).
    destruct ((end_ (delivery c) >? Strategy._time s)
              && (if before_add then value c <? value r else true));
      [|now inversion H; subst].
    destruct (Strategy.treat_one s r) as [s1|e] eqn:H1; simpl in H; [|discriminate].
    eapply IH; eauto using treat_one_audited.
Qed.

Lemma removable_loop_Forall (P : Container -> Prop) (st : Store.t)
    (cs : list Container) :
  forall l, Store.removable_loop st cs = Ok l -> Forall P cs -> Forall P l.
Proof.
  induction cs as [|c cs IH]; simpl; intros l H Hcs.
  - inversion H; subst; constructor.
  - apply Forall_cons in Hcs as (Hc & Hcs).
    destruct (Store.can_remove st c) as [b|e]; simpl in H; [|discriminate].
    destruct (Store.removable_loop st cs) as [l0|e]; simpl in H; [|discriminate].
    inversion H; subst. destruct b; [apply Forall_cons|]; auto.
Qed.

Lemma sort_by_cost_Forall (P : Container -> Prop) (s : Strategy.t)
    (l : list Container) :
  Forall P l -> Forall P (Strategy.sort_by_cost s l).
Proof.
  intros Hl. rewrite sort_by_cost_partition. rewrite Forall_forall in Hl.
  apply Forall_app_2; apply Forall_forall; intros x Hx; apply Hl;
    apply list_elem_of_In in Hx; apply filter_In in Hx as (Hx & _);
    now apply list_elem_of_In.
Qed.

Lemma treat_removables_audited (s s' : Strategy.t) (c : Container) (before_add : bool) :
  Strategy.treat_removables s c before_add = Ok s' ->
  audited cmap s -> audited cmap s'.
Proof.
  unfold Strategy.treat_removables, Store.removable_containers. intros H Hs.
  destruct (Store.removable_loop (Strategy._store s)
              (Store.containers (Strategy._store s))) as [l|e] eqn:Hl;
    simpl in H; [|discriminate].
  eapply treat_loop_audited; [exact H | | exact Hs].
  apply sort_by_cost_Forall. eapply removable_loop_Forall; [exact Hl|].
  destruct Hs as (_ & _ & _ & _ & _ & _ & _ & _ & Hk & _). exact Hk.
Qed.

Lemma audited_column (s : Strategy.t) (p i : Z) (col : list Container)
    (c : Container) :
  audited cmap s ->
  py_getitem (Store._storage (Strategy._store s)) p = Ok col ->
  py_getitem col i = Ok c -> known cmap c.
Proof.
  intros (_ & _ & _ & _ & _ & _ & _ & _ & _ & Hst) Hcol Hc.
  apply py_getitem_elem in Hcol, Hc.
  rewrite Forall_forall in Hst. specialize (Hst col Hcol).
  rewrite Forall_forall in Hst. auto.
Qed.

Lemma dig_loop_audited (p : Position) (fuel : nat) :
  forall s s',
    Strategy.dig_loop fuel s p = Ok s' -> audited cmap s -> audited cmap s'.
Proof.
  induction fuel as [|fuel IH]; simpl; intros s s' H Hs.
  - now inversion H; subst.
  - destruct (Store.empty (Strategy._store s) p) as [[|]|e]; simpl in H;
      try discriminate; [now inversion H; subst|].
    destruct (py_getitem (Store._storage (Strategy._store s)) p) as [col|e] eqn:Hcol;
      simpl in H; [|discriminate].
    destruct (Strategy.height_column s p) as [h|e]; simpl in H; [|discriminate].
    destruct (py_getitem col (h - 1)) as [c|e] eqn:Hc; simpl in H; [|discriminate].
    destruct (Strategy.adjacent_stack s c) as [p_2|e]; simpl in H; [|discriminate].
    destruct (Strategy.evaluate_container s c p_2) as [s1|e] eqn:He; simpl in H;
      [|discriminate].
    eapply IH; [exact H|].
    eapply evaluate_container_audited; eauto using audited_column.
Qed.

Lemma dig_pile_audited (s s' : Strategy.t) (p : Position) (depth : Z) :
  Strategy.dig_pile s p depth = Ok s' -> audited cmap s -> audited cmap s'.
Proof.
  unfold Strategy.dig_pile. intros H Hs.
  destruct (py_assert (depth >=? 0)); simpl in H; [|discriminate].
  destruct (py_assert (Strategy.valid_position s p)); simpl in H; [|discriminate].
  eapply dig_loop_audited; eauto.
Qed.

Lemma equilibrate_loop_audited (big_pile small_pile : Position) (rem_time : nat) :
  forall s r,
    Strategy.equilibrate_loop rem_time s big_pile small_pile = Ok r ->
    audited cmap s -> audited cmap (fst r).
Proof.
  induction rem_time as [|n IH]; simpl; intros s r H Hs.
  - now inversion H; subst.
  - destruct (Strategy.height_column s big_pile) as [hb|e]; simpl in H;
      [|discriminate].
    destruct (Strategy.height_column s small_pile) as [hs|e]; simpl in H;
      [|discriminate].
    destruct (hb >=? hs); [|now inversion H; subst].
    destruct (Store.empty (Strategy._store s) big_pile) as [[|]|e]; simpl in H;
      try discriminate; [eapply IH; eauto|].
    destruct (py_getitem (Store._storage (Strategy._store s)) big_pile)
      as [col|e] eqn:Hcol; simpl in H; [|discriminate].
    destruct (py_getitem col (-1)) as [c|e] eqn:Hc; simpl in H; [|discriminate].
    destruct (Strategy.move_container s c small_pile) as [s1|e] eqn:Hm;
      simpl in H; [|discriminate].
    eapply IH; [exact H|].
    eapply move_container_audited; eauto using audited_column.
Qed.

Lemma equilibrate_piles_audited (s : Strategy.t) (rem_time : Z)
    (big_pile small_pile : Position) (r : Strategy.t * Z) :
  Strategy.equilibrate_piles s rem_time big_pile small_pile = Ok r ->
  audited cmap s -> audited cmap (fst r).
Proof.
  unfold Strategy.equilibrate_piles. intros H Hs.
  destruct (py_assert (rem_time >=? 0)); simpl in H; [|discriminate].
  destruct (Strategy.equilibrate_loop (Z.to_nat rem_time) s big_pile small_pile)
    as [r0|e] eqn:Hl; simpl in H; [|discriminate].
  apply equilibrate_loop_audited in Hl; [|exact Hs].
  destruct (Strategy.empty_store (fst r0)); inversion H; subst; exact Hl.
Qed.

Lemma intake_audited (s s' : Strategy.t) (c : Container) :
  Strategy.intake s c = Ok s' -> known cmap c ->
  audited cmap s -> audited cmap s'.
Proof.
  unfold Strategy.intake. intros H Hc Hs.
  destruct (Strategy.least_full_pile s c) as [pos|e]; simpl in H; [|discriminate].
  destruct (Store.can_add (Strategy._store s) c pos) as [b|e]; simpl in H;
    [|discriminate].
  destruct (b && negb (Strategy.expired_container s c)
            && (end_ (delivery c) >? Strategy._time s));
    [eapply add_container_audited; eauto | now inversion H; subst].
Qed.

Lemma exec_loop_audited (fuel : nat) :
  forall s rem_time s',
    Strategy.exec_loop fuel s rem_time = Ok s' ->
    audited cmap s -> audited cmap s'.
Proof.
  induction fuel as [|fuel IH]; simpl; intros s rem_time s' H Hs.
  - destruct ((rem_time >? 0) && negb (Strategy.empty_store s));
      [discriminate | now inversion H; subst].
  - destruct ((rem_time >? 0) && negb (Strategy.empty_store s));
      [|now inversion H; subst].
    destruct (Strategy.best_pile s rem_time) as [best_p|e]; simpl in H;
      [|discriminate].
    destruct (Qle_bool (snd (fst best_p)) Strategy.min_score).
    + destruct (Strategy.least_equilibrated_pile s) as [piles|e]; simpl in H;
        [|discriminate].
      destruct (py_getitem piles 0) as [big|e]; simpl in H; [|discriminate].
      destruct (py_getitem piles 1) as [small|e]; simpl in H; [|discriminate].
      destruct (Strategy.equilibrate_piles s rem_time big small) as [r|e] eqn:He;
        simpl in H; [|discriminate].
      eapply IH; [exact H|]. eapply equilibrate_piles_audited; eauto.
    + destruct (Strategy.dig_pile s (fst (fst best_p)) rem_time) as [s1|e] eqn:Hd;
        simpl in H; [|discriminate].
      eapply IH; [exact H|]. eapply dig_pile_audited; eauto.
Qed.

Lemma exec_audited (s s' : Strategy.t) (c : Container) :
  Strategy.exec s c = Ok s' -> known cmap c ->
  audited cmap s -> audited cmap s'.
Proof.
  unfold Strategy.exec. intros H Hc Hs.
  destruct (Strategy.treat_removables s c true) as [s1|e] eqn:H1; simpl in H;
    [|discriminate].
  destruct (Strategy.intake s1 c) as [s2|e] eqn:H2; simpl in H; [|discriminate].
  destruct (Strategy.treat_removables s2 c false) as [s3|e] eqn:H3; simpl in H;
    [|discriminate].
  eapply exec_loop_audited; [exact H|].
  eapply treat_removables_audited; [exact H3|].
  eapply intake_audited; [exact H2 | exact Hc |].
  eapply treat_removables_audited; eauto.
Qed.

Lemma execute_loop_audited (containers : list Container) :
  forall s s',
    execute_loop s containers = Ok s' ->
    Forall (known cmap) containers ->
    audited cmap s -> audited cmap s'.
Proof.
  induction containers as [|c containers IH]; simpl; intros s s' H Hk Hs.
  - now inversion H; subst.
  - apply Forall_cons in Hk as (Hc & Hk).
    destruct (Strategy.exec s c) as [s1|e] eqn:H1; simpl in H; [|discriminate].
    eapply IH; eauto using exec_audited.
Qed.

End Audit.

(** ** The dictionary of the checker *)

Lemma containers_map_other (cs : list Container) :
  forall (m : gmap Z Container) (i : Z),
    i ∉ List.map identifier cs ->
    fold_left (fun m c => <[identifier c := c]> m) cs m !! i = m !! i.
Proof.
  induction cs as [|x cs IH]; simpl; intros m i Hi; [reflexivity|].
  apply not_elem_of_cons in Hi as (Hne & Hi).
  rewrite IH by exact Hi. now apply lookup_insert_ne.
Qed.

Lemma containers_map_known (cs : list Container) :
  NoDup (List.map identifier cs) -> Forall (known (containers_map cs)) cs.
Proof.
  unfold containers_map, known. generalize (∅ : gmap Z Container).
  induction cs as [|x cs IH]; simpl; intros m Hnd; [constructor|].
  apply NoDup_cons in Hnd as (Hx & Hnd). constructor; [|now apply IH].
  rewrite containers_map_other by exact Hx. apply lookup_insert_eq.
Qed.

(** ** Replay of the log of a run *)

Lemma run_audited (containers : list Container) (width : Z) (s : Strategy.t) :
  NoDup (List.map identifier containers) ->
  execute_strategy containers width = Ok s ->
  audited (containers_map containers) s.
Proof.
  intros Hnd Hrun. unfold execute_strategy in Hrun.
  eapply execute_loop_audited; [exact Hrun | | apply init_audited].
  now apply containers_map_known.
Qed.

(** C3, as the code has it.  For a container file with distinct
    identifiers and a run of the expert strategy that completes, the
    checker accepts the log of the run (no assertion fails, no exception is
    raised) and the yard it rebuilds is the yard of the strategy, cash
    included.  The log holds no [CASH] line: the strategy never calls
    [Logger.cash]. *)
Theorem replay_of_expert_log (containers : list Container) (width : Z)
    (s : Strategy.t) :
  NoDup (List.map identifier containers) ->
  execute_strategy containers width = Ok s ->
  check_and_show containers (Strategy._logger s) = Ok (Strategy._store s)
  /\ existsb is_cash (Strategy._logger s) = false
  /\ last_cash (Strategy._logger s) = None.
Proof.
  intros Hnd Hrun.
  destruct (run_audited _ _ _ Hnd Hrun)
    as (name & w & rest & last & Hlog & Hrep & _ & Hcash & _).
  rewrite Hlog. unfold check_and_show, last_cash. simpl. rewrite Hrep. simpl.
  repeat split; [exact Hcash|]. now apply last_cash_no_cash.
Qed.

Lemma replay_of_expert_log_witness :
  check_and_show example_file (Strategy._logger example_run)
  = Ok (Strategy._store example_run)
  /\ existsb is_cash (Strategy._logger example_run) = false
  /\ last_cash (Strategy._logger example_run) = None.
Proof.
  apply (replay_of_expert_log example_file 20 example_run).
  - apply (bool_decide_unpack (NoDup (List.map identifier example_file))).
    vm_compute. exact I.
  - vm_compute. reflexivity.
Defined.

(** C3, as stated, fails on the last [CASH] line: the run of the
    one-container scenario of width 4 sells the container for 10, its log
    replays to a cash of 10, and the log has no [CASH] line to compare
    with. *)
Lemma replay_has_no_logged_cash :
  exists s,
    execute_strategy [small_box] 4 = Ok s
    /\ Strategy._logger s = [START 0 "my_strategy" 4; ADD 0 1 0; REMOVE 1 1]
    /\ (exists st, check_and_show [small_box] (Strategy._logger s) = Ok st
                   /\ Store.cash st = 10)
    /\ last_cash (Strategy._logger s) = None
    /\ ~ (exists st, check_and_show [small_box] (Strategy._logger s) = Ok st
                     /\ last_cash (Strategy._logger s) = Some (Store.cash st)).
Proof.
  eexists. split; [vm_compute; reflexivity|]. split; [reflexivity|].
  split; [eexists; split; vm_compute; reflexivity|]. split; [reflexivity|].
  intros (st & _ & H). vm_compute in H. discriminate.
Qed.

(** ** The recursion budget of the idle loop *)

(** Only [exec_loop] can report [OutOfFuel]; every other function of the
    model raises Python exceptions only. *)

Lemma fuelled_Ok {A : Type} (a : A) : fuelled (Ok a).
Proof. discriminate. Qed.

Lemma fuelled_bind {A B : Type} (m : result A) (k : A -> result B) :
  fuelled m -> (forall a, fuelled (k a)) -> fuelled (bind m k).
Proof.
  destruct m as [a|e]; simpl; intros Hm Hk; [apply Hk|].
  intros H. apply Hm. now inversion H.
Qed.

Lemma fuelled_assert (b : bool) : fuelled (py_assert b).
Proof. destruct b; discriminate. Qed.

Lemma fuelled_index {A : Type} (l : list A) (i : Z) : fuelled (py_index l i).
Proof.
  unfold py_index.
  destruct ((0 <=? i) && (i <? py_len l)); [discriminate|].
  destruct ((i <? 0) && (- py_len l <=? i)); discriminate.
Qed.

Create HintDb fuel.
#[local] Hint Resolve fuelled_assert fuelled_index : fuel.

(** Reduces a goal [fuelled e] along the structure of [e]. *)
Ltac fuelled_step :=
  first
    [ apply fuelled_Ok
    | discriminate
    | solve [auto with fuel]
    | apply fuelled_bind; [|intros]
    | match goal with
      | |- fuelled (if ?b then _ else _) => destruct b
      | |- fuelled (match ?x with _ => _ end) => destruct x
      | |- fuelled (let _ := _ in _) => cbv zeta
      end ].
Ltac fuelled_tac := repeat fuelled_step.

Lemma fuelled_getitem {A : Type} (l : list A) (i : Z) : fuelled (py_getitem l i).
Proof. unfold py_getitem. fuelled_tac. Qed.
#[local] Hint Resolve fuelled_getitem : fuel.

Lemma fuelled_delitem {A : Type} (l : list A) (i : Z) : fuelled (py_delitem l i).
Proof. unfold py_delitem. fuelled_tac. Qed.
#[local] Hint Resolve fuelled_delitem : fuel.

Lemma fuelled_list_remove (c : Container) (l : list Container) :
  fuelled (py_list_remove c l).
Proof. induction l as [|x l IH]; simpl; fuelled_tac. Qed.
#[local] Hint Resolve fuelled_list_remove : fuel.

Lemma fuelled_store_height (s : Store.t) (p : Position) :
  fuelled (Store.height_column s p).
Proof. unfold Store.height_column. fuelled_tac. Qed.
#[local] Hint Resolve fuelled_store_height : fuel.

Lemma fuelled_store_empty (s : Store.t) (p : Position) : fuelled (Store.empty s p).
Proof. unfold Store.empty. fuelled_tac. Qed.
#[local] Hint Resolve fuelled_store_empty : fuel.

Lemma fuelled_can_add_loop (s : Store.t) (l : Z) (columns : list Z) :
  fuelled (Store.can_add_loop s l columns).
Proof. induction columns as [|i columns IH]; simpl; fuelled_tac. Qed.
#[local] Hint Resolve fuelled_can_add_loop : fuel.

Lemma fuelled_can_add (s : Store.t) (c : Container) (p : Position) :
  fuelled (Store.can_add s c p).
Proof. unfold Store.can_add. fuelled_tac. Qed.
#[local] Hint Resolve fuelled_can_add : fuel.

Lemma fuelled_can_remove (s : Store.t) (c : Container) : fuelled (Store.can_remove s c).
Proof. unfold Store.can_remove. fuelled_tac. Qed.
#[local] Hint Resolve fuelled_can_remove : fuel.

Lemma fuelled_add_loop (c : Container) (columns : list Z) :
  forall st, fuelled (Store.add_loop st c columns).
Proof.
  induction columns as [|i columns IH]; simpl; intros st;
    unfold Store.storage_append; fuelled_tac.
Qed.
#[local] Hint Resolve fuelled_add_loop : fuel.

Lemma fuelled_remove_loop (h : Z) (columns : list Z) :
  forall st, fuelled (Store.remove_loop st h columns).
Proof.
  induction columns as [|i columns IH]; simpl; intros st;
    unfold Store.storage_del; fuelled_tac.
Qed.
#[local] Hint Resolve fuelled_remove_loop : fuel.

Lemma fuelled_add (s : Store.t) (c : Container) (p : Position) :
  fuelled (Store.add s c p).
Proof. unfold Store.add. fuelled_tac. Qed.
#[local] Hint Resolve fuelled_add : fuel.

Lemma fuelled_remove (s : Store.t) (c : Container) : fuelled (Store.remove s c).
Proof. unfold Store.remove. fuelled_tac. Qed.
#[local] Hint Resolve fuelled_remove : fuel.

Lemma fuelled_can_move (s : Store.t) (c : Container) (p : Position) :
  fuelled (Store.can_move s c p).
Proof. unfold Store.can_move. fuelled_tac. Qed.
#[local] Hint Resolve fuelled_can_move : fuel.

Lemma fuelled_move (s : Store.t) (c : Container) (p : Position) :
  fuelled (Store.move s c p).
Proof. unfold Store.move. fuelled_tac. Qed.
#[local] Hint Resolve fuelled_move : fuel.

Lemma fuelled_removable_loop (s : Store.t) (cs : list Container) :
  fuelled (Store.removable_loop s cs).
Proof. induction cs as [|c cs IH]; simpl; fuelled_tac. Qed.
#[local] Hint Resolve fuelled_removable_loop : fuel.

Lemma fuelled_height (s : Strategy.t) (p : Position) :
  fuelled (Strategy.height_column s p).
Proof. unfold Strategy.height_column. fuelled_tac. Qed.
#[local] Hint Resolve fuelled_height : fuel.

Lemma fuelled_stack_position (n size : Z) : fuelled (Strategy.stack_position n size).
Proof. unfold Strategy.stack_position. fuelled_tac. Qed.
#[local] Hint Resolve fuelled_stack_position : fuel.

Lemma fuelled_lose (s : Strategy.t) (c : Container) :
  fuelled (Strategy.lose_container s c).
Proof. unfold Strategy.lose_container. fuelled_tac. Qed.

Lemma fuelled_sell (s : Strategy.t) (c : Container) :
  fuelled (Strategy.sell_container s c).
Proof. unfold Strategy.sell_container. fuelled_tac. Qed.

Lemma fuelled_move_container (s : Strategy.t) (c : Container) (p : Position) :
  fuelled (Strategy.move_container s c p).
Proof. unfold Strategy.move_container. fuelled_tac. Qed.

Lemma fuelled_add_container (s : Strategy.t) (c : Container) (p : Position) :
  fuelled (Strategy.add_container s c p).
Proof. unfold Strategy.add_container. fuelled_tac. Qed.
#[local] Hint Resolve fuelled_lose fuelled_sell fuelled_move_container
  fuelled_add_container : fuel.

Lemma fuelled_evaluate (s : Strategy.t) (c : Container) (p_2 : Position) :
  fuelled (Strategy.evaluate_container s c p_2).
Proof. unfold Strategy.evaluate_container. fuelled_tac. Qed.

Lemma fuelled_adjacent (s : Strategy.t) (c : Container) :
  fuelled (Strategy.adjacent_stack s c).
Proof. unfold Strategy.adjacent_stack. fuelled_tac. Qed.
#[local] Hint Resolve fuelled_evaluate fuelled_adjacent : fuel.

Lemma fuelled_scan (col : list Container) (depth : Z) (f : Z -> Container -> Z)
    (indices : list Z) :
  forall acc, fuelled (Strategy.scan_pile col depth f indices acc).
Proof. induction indices as [|i indices IH]; simpl; intros acc; fuelled_tac. Qed.
#[local] Hint Resolve fuelled_scan : fuel.

Lemma fuelled_truediv (a b : Z) : fuelled (py_truediv a b).
Proof.
  unfold fuelled.
  destruct (py_truediv_cases a b) as [(score & ->)|[->| ->]]; discriminate.
Qed.
#[local] Hint Resolve fuelled_truediv : fuel.

Lemma fuelled_pile_score (s : Strategy.t) (p : Position) (depth : Z) :
  fuelled (Strategy.pile_score s p depth).
Proof.
  unfold Strategy.pile_score, Strategy.money_from_pile, Strategy.containers_from_pile.
  fuelled_tac.
Qed.
#[local] Hint Resolve fuelled_pile_score : fuel.

Lemma fuelled_better_pile (s : Strategy.t) (pos : Position) (best : Pile) (depth : Z) :
  fuelled (Strategy.better_pile s pos best depth).
Proof. unfold Strategy.better_pile. fuelled_tac. Qed.
#[local] Hint Resolve fuelled_better_pile : fuel.

Lemma fuelled_best_pile (s : Strategy.t) (depth : Z) :
  fuelled (Strategy.best_pile s depth).
Proof.
  unfold Strategy.best_pile. apply fuelled_bind; [auto with fuel | intros _].
  generalize (0, inject_Z (-1), 0) (py_range 1 5). intros best sizes.
  revert best; induction sizes as [|i sizes IH]; simpl; intros best; fuelled_tac.
Qed.

Lemma fuelled_least_equilibrated (s : Strategy.t) :
  fuelled (Strategy.least_equilibrated_pile s).
Proof.
  unfold Strategy.least_equilibrated_pile.
  generalize (-1) (@nil Position) (py_range 1 5). intros m res sizes.
  revert m res; induction sizes as [|i sizes IH]; simpl; intros m res; fuelled_tac.
Qed.

Lemma fuelled_dig_pile (s : Strategy.t) (p : Position) (depth : Z) :
  fuelled (Strategy.dig_pile s p depth).
Proof.
  unfold Strategy.dig_pile. do 2 (apply fuelled_bind; [auto with fuel | intros _]).
  generalize (Z.to_nat depth). intros fuel.
  revert s; induction fuel as [|fuel IH]; simpl; intros s; fuelled_tac.
Qed.

Lemma fuelled_equilibrate_piles (s : Strategy.t) (rem_time : Z) (big small : Position) :
  fuelled (Strategy.equilibrate_piles s rem_time big small).
Proof.
  unfold Strategy.equilibrate_piles. apply fuelled_bind; [auto with fuel | intros _].
  apply fuelled_bind; [|intros; fuelled_tac].
  generalize (Z.to_nat rem_time). intros n.
  revert s; induction n as [|n IH]; simpl; intros s; fuelled_tac.
Qed.
#[local] Hint Resolve fuelled_best_pile fuelled_least_equilibrated fuelled_dig_pile
  fuelled_equilibrate_piles : fuel.

Lemma strategy_height_nonneg (s : Strategy.t) (p : Position) (h : Z) :
  Strategy.height_column s p = Ok h -> 0 <= h.
Proof.
  unfold Strategy.height_column. intros H.
  destruct (py_assert (Strategy.valid_position s p)); simpl in H; [|discriminate].
  destruct (py_getitem (Store._storage (Strategy._store s)) p); simpl in H;
    [|discriminate].
  inversion H. unfold py_len. lia.
Qed.

Lemma money_from_pile_inv (s : Strategy.t) (p : Position) (d m r : Z) :
  Strategy.money_from_pile s p d = Ok (m, r) ->
  exists h,
    Strategy.height_column s p = Ok h /\ 0 <= h /\ r = d - h /\ (h = 0 -> m = 0).
Proof.
  unfold Strategy.money_from_pile. intros H.
  destruct (py_assert (d >=? 0)) eqn:Ha; simpl in H; [|discriminate].
  apply py_assert_Ok in Ha.
  destruct (py_assert (Strategy.valid_position s p)); simpl in H; [|discriminate].
  destruct (Strategy.height_column s p) as [h|e] eqn:Hh; simpl in H; [|discriminate].
  destruct (py_getitem (Store._storage (Strategy._store s)) p) as [col|e];
    simpl in H; [|discriminate].
  exists h. split; [reflexivity|]. split; [eapply strategy_height_nonneg; eauto|].
  destruct (Strategy.scan_pile col _ _ _ 0) as [money|e] eqn:Hs; simpl in H;
    [|discriminate].
  inversion H; subst. split; [reflexivity|]. intros ->.
  assert (Hz : (if d - 0 >? 0 then 0 else d) = 0) by (destruct (d - 0 >? 0) eqn:?; lia).
  rewrite Hz in Hs. simpl in Hs. now inversion Hs.
Qed.

Lemma containers_from_pile_zero (s : Strategy.t) (p : Position) (d n : Z) :
  Strategy.containers_from_pile s p d = Ok n ->
  Strategy.height_column s p = Ok 0 -> n = 0.
Proof.
  unfold Strategy.containers_from_pile. intros H Hh.
  destruct (py_assert (d >=? 0)) eqn:Ha; simpl in H; [|discriminate].
  apply py_assert_Ok in Ha.
  destruct (py_assert (Strategy.valid_position s p)); simpl in H; [|discriminate].
  rewrite Hh in H. simpl in H.
  destruct (py_getitem (Store._storage (Strategy._store s)) p) as [col|e];
    simpl in H; [|discriminate].
  assert (Hz : (if d - 0 >? 0 then 0 else d) = 0) by (destruct (d - 0 >? 0) eqn:?; lia).
  rewrite Hz in H. simpl in H. now inversion H.
Qed.

(** A pile whose score is above the threshold is not empty, so that
    digging it leaves less time than there was. *)
Lemma pile_score_progress (s : Strategy.t) (pos : Position) (depth : Z) (sc : Q * Z) :
  Strategy.pile_score s pos depth = Ok sc ->
  Qle_bool (fst sc) Strategy.min_score = true \/ snd sc < depth.
Proof.
  unfold Strategy.pile_score. intros H.
  destruct (py_assert (depth >=? 0)); cbn [bind] in H; [|discriminate].
  destruct (py_assert (Strategy.valid_position s pos)); cbn [bind] in H;
    [|discriminate].
  destruct (Strategy.money_from_pile s pos depth) as [[m r]|e] eqn:Hm;
    cbn [bind fst snd] in H; [|discriminate].
  destruct (Strategy.containers_from_pile s pos depth) as [n|e] eqn:Hn;
    cbn [bind] in H; [|discriminate].
  destruct (py_truediv (3 * m + 1 * n) (3 + 1)) as [score|e] eqn:Hs;
    cbn [bind] in H; [|discriminate].
  inversion H; subst sc; clear H. cbn [fst snd].
  destruct (money_from_pile_inv _ _ _ _ _ Hm) as (h & Hh & Hpos & -> & Hzero).
  destruct (Z.eq_dec h 0) as [->|Hne]; [left | right; lia].
  rewrite (Hzero eq_refl), (containers_from_pile_zero _ _ _ _ Hn Hh) in Hs.
  vm_compute in Hs. inversion Hs; subst score. reflexivity.
Qed.

Lemma better_pile_inv (s : Strategy.t) (pos : Position) (best pile : Pile) (depth : Z) :
  Strategy.better_pile s pos best depth = Ok pile ->
  pile = best
  \/ exists sc, Strategy.pile_score s pos depth = Ok sc /\ pile = (pos, fst sc, snd sc).
Proof.
  unfold Strategy.better_pile. intros H.
  destruct (py_assert (Strategy.valid_position s pos)); simpl in H; [|discriminate].
  destruct (py_assert (depth >=? 0)); simpl in H; [|discriminate].
  destruct (Strategy.pile_score s pos depth) as [sc|e]; simpl in H; [|discriminate].
  destruct (negb (Qle_bool (fst sc) (snd (fst best)))); [inversion H; eauto|].
  destruct (Store.empty (Strategy._store s) (fst (fst best))) as [[|]|e];
    simpl in H; inversion H; eauto.
Qed.

Lemma best_pile_progress (s : Strategy.t) (depth : Z) (pile : Pile) :
  Strategy.best_pile s depth = Ok pile ->
  Qle_bool (snd (fst pile)) Strategy.min_score = true \/ snd pile < depth.
Proof.
  unfold Strategy.best_pile. generalize (py_range 1 5). intros range_1_5 H.
  destruct (py_assert (depth >=? 0)); simpl in H; [|discriminate].
  assert (Hgen : forall sizes best,
    (Qle_bool (snd (fst best)) Strategy.min_score = true \/ snd best < depth) ->
    Strategy.best_pile_loop s depth best sizes = Ok pile ->
    Qle_bool (snd (fst pile)) Strategy.min_score = true \/ snd pile < depth).
  { clear H. induction sizes as [|i sizes IH]; simpl; intros best Hb H.
    - now inversion H; subst.
    - destruct (Strategy.better_pile s (i * i) best depth) as [b1|e] eqn:H1;
        simpl in H; [|discriminate].
      destruct (Strategy.better_pile s (i * (i - 1)) b1 depth) as [b2|e] eqn:H2;
        simpl in H; [|discriminate].
      apply (IH b2); [|exact H].
      assert (Hb1 : Qle_bool (snd (fst b1)) Strategy.min_score = true \/ snd b1 < depth).
      { apply better_pile_inv in H1 as [->|(sc & Hsc & ->)]; [exact Hb|].
        simpl. eapply pile_score_progress; eauto. }
      apply better_pile_inv in H2 as [->|(sc & Hsc & ->)]; [exact Hb1|].
      simpl. eapply pile_score_progress; eauto. }
  eapply Hgen; [|exact H]. left. reflexivity.
Qed.

(** The first pile [least_equilibrated_pile] returns is at least as high
    as the second. *)
Lemma least_equilibrated_inv (s : Strategy.t) (piles : list Position) :
  Strategy.least_equilibrated_pile s = Ok piles ->
  piles = []
  \/ exists big small hb hs,
       piles = [big; small]
       /\ Strategy.height_column s big = Ok hb
       /\ Strategy.height_column s small = Ok hs
       /\ hb >= hs.
Proof.
  unfold Strategy.least_equilibrated_pile.
  generalize (py_range 1 5) (-1). intros sizes.
  assert (Hgen : forall m res,
    (res = [] \/ exists big small hb hs,
        res = [big; small]
        /\ Strategy.height_column s big = Ok hb
        /\ Strategy.height_column s small = Ok hs
        /\ hb >= hs) ->
    Strategy.least_equilibrated_loop s m res sizes = Ok piles ->
    piles = [] \/ exists big small hb hs,
        piles = [big; small]
        /\ Strategy.height_column s big = Ok hb
        /\ Strategy.height_column s small = Ok hs
        /\ hb >= hs).
  { induction sizes as [|i sizes IH]; simpl; intros m res Hres H.
    - now inversion H; subst.
    - unfold Strategy.stack_position in H. simpl in H.
      destruct (Strategy.height_column s (i ^ 2)) as [h2|e] eqn:E2; simpl in H;
        [|discriminate].
      destruct (Strategy.height_column s (i * (i - 1))) as [h1|e] eqn:E1; simpl in H;
        [|discriminate].
      destruct (m <? Z.abs (h2 - h1)); [|eapply IH; eauto].
      eapply IH; [|exact H]. right.
      destruct (h2 - h1 >? 0) eqn:Hcmp.
      + exists (i ^ 2), (i * (i - 1)), h2, h1. repeat split; auto. lia.
      + exists (i * (i - 1)), (i ^ 2), h1, h2. repeat split; auto. lia. }
  intros m H. eapply Hgen; [|exact H]. now left.
Qed.

Lemma equilibrate_loop_le (big small : Position) (n : nat) :
  forall s r,
    Strategy.equilibrate_loop n s big small = Ok r -> (snd r <= n)%nat.
Proof.
  induction n as [|n IH]; simpl; intros s r H.
  - inversion H; subst. simpl. lia.
  - destruct (Strategy.height_column s big) as [hb|e]; simpl in H; [|discriminate].
    destruct (Strategy.height_column s small) as [hs|e]; simpl in H; [|discriminate].
    destruct (hb >=? hs); [|inversion H; subst; simpl; lia].
    destruct (Store.empty (Strategy._store s) big) as [e'|e]; simpl in H;
      [|discriminate].
    destruct (if negb e' then _ else _) as [s1|e]; simpl in H; [|discriminate].
    apply IH in H. lia.
Qed.

Lemma equilibrate_piles_progress (s : Strategy.t) (rem_time : Z)
    (big small : Position) (hb hs : Z) (r : Strategy.t * Z) :
  0 < rem_time ->
  Strategy.height_column s big = Ok hb ->
  Strategy.height_column s small = Ok hs ->
  hb >= hs ->
  Strategy.equilibrate_piles s rem_time big small = Ok r ->
  0 <= snd r < rem_time.
Proof.
  unfold Strategy.equilibrate_piles. intros Hrem Hb Hs Hge H.
  destruct (py_assert (rem_time >=? 0)); simpl in H; [|discriminate].
  destruct (Strategy.equilibrate_loop (Z.to_nat rem_time) s big small)
    as [r0|e] eqn:Hl; simpl in H; [|discriminate].
  assert (Hlt : (snd r0 < Z.to_nat rem_time)%nat).
  { replace (Z.to_nat rem_time) with (S (Z.to_nat (rem_time - 1))) in Hl by lia.
    simpl in Hl. rewrite Hb, Hs in Hl. simpl in Hl.
    replace (hb >=? hs) with true in Hl by lia.
    destruct (Store.empty (Strategy._store s) big) as [e'|e]; simpl in Hl;
      [|discriminate].
    destruct (if negb e' then _ else _) as [s1|e]; simpl in Hl; [|discriminate].
    apply equilibrate_loop_le in Hl. lia. }
  destruct (Strategy.empty_store (fst r0)); inversion H; subst; simpl; lia.
Qed.

Lemma fuelled_raise {A B : Type} (e : exn) :
  fuelled (@Raise A e) -> fuelled (@Raise B e).
Proof. intros H E. apply H. now inversion E. Qed.

(** The idle loop of [exec] never exhausts a budget of [rem_time] turns:
    every turn leaves less time than it found. *)
Lemma exec_loop_fuel (fuel : nat) :
  forall s rem_time,
    (Z.to_nat rem_time <= fuel)%nat ->
    fuelled (Strategy.exec_loop fuel s rem_time).
Proof.
  induction fuel as [|fuel IH]; simpl; intros s rem_time Hfuel.
  - replace (rem_time >? 0) with false by lia. apply fuelled_Ok.
  - destruct ((rem_time >? 0) && negb (Strategy.empty_store s)) eqn:Hc;
      [|apply fuelled_Ok].
    apply andb_true_iff in Hc as (Hrem & _).
    destruct (Strategy.best_pile s rem_time) as [best_p|e] eqn:Hbest; simpl.
    2: { apply (fuelled_raise (A := Pile)). rewrite <- Hbest. auto with fuel. }
    destruct (Qle_bool (snd (fst best_p)) Strategy.min_score) eqn:Hscore.
    + destruct (Strategy.least_equilibrated_pile s) as [piles|e] eqn:Hpiles; simpl.
      2: { apply (fuelled_raise (A := list Position)). rewrite <- Hpiles.
           auto with fuel. }
      destruct (least_equilibrated_inv _ _ Hpiles)
        as [->|(big & small & hb & hs & -> & Hb & Hs & Hge)];
        [discriminate|].
      change (py_getitem [big; small] 0) with (Ok big).
      change (py_getitem [big; small] 1) with (Ok small). simpl.
      destruct (Strategy.equilibrate_piles s rem_time big small) as [r|e] eqn:He;
        simpl.
      2: { apply (fuelled_raise (A := (Strategy.t * Z)%type)). rewrite <- He.
           auto with fuel. }
      apply IH.
      assert (Hpos : 0 < rem_time) by lia.
      pose proof (equilibrate_piles_progress _ _ _ _ _ _ _ Hpos Hb Hs Hge He). lia.
    + destruct (Strategy.dig_pile s (fst (fst best_p)) rem_time) as [s1|e] eqn:Hd;
        simpl.
      2: { apply (fuelled_raise (A := Strategy.t)). rewrite <- Hd. auto with fuel. }
      apply IH.
      destruct (best_pile_progress _ _ _ Hbest) as [Hle|Hlt]; [congruence | lia].
Qed.

Lemma fuelled_treat_loop (c : Container) (before_add : bool)
    (removables : list Container) :
  forall s, fuelled (Strategy.treat_loop s c before_add removables).
Proof.
  induction removables as [|r rest IH]; simpl; intros s;
    unfold Strategy.treat_one; fuelled_tac.
Qed.
#[local] Hint Resolve fuelled_treat_loop : fuel.

Lemma fuelled_treat_removables (s : Strategy.t) (c : Container) (before_add : bool) :
  fuelled (Strategy.treat_removables s c before_add).
Proof. unfold Strategy.treat_removables, Store.removable_containers. fuelled_tac. Qed.

Lemma fuelled_intake (s : Strategy.t) (c : Container) : fuelled (Strategy.intake s c).
Proof. unfold Strategy.intake, Strategy.least_full_pile. fuelled_tac. Qed.
#[local] Hint Resolve fuelled_treat_removables fuelled_intake : fuel.

(** No call of [exec], and no run, ends on the budget of the model. *)
Lemma exec_fuelled (s : Strategy.t) (c : Container) : fuelled (Strategy.exec s c).
Proof.
  unfold Strategy.exec. fuelled_tac. apply exec_loop_fuel. lia.
Qed.

Lemma execute_strategy_fuelled (containers : list Container) (width : Z) :
  fuelled (execute_strategy containers width).
Proof.
  unfold execute_strategy. generalize (Strategy.__init__ width).
  induction containers as [|c containers IH]; simpl; intros s;
    [apply fuelled_Ok|].
  apply fuelled_bind; [apply exec_fuelled | auto].
Qed.

(** ** Cash and the delivery windows *)

Lemma move_cash (st st' : Store.t) (c : Container) (p : Position) :
  Store.move st c p = Ok st' -> Store._cash st' = Store._cash st.
Proof.
  intros H. apply move_cases in H as [(_ & ->)|(_ & s1 & Hr & Ha)]; [reflexivity|].
  apply add_fields in Ha as (_ & _ & Ha & _).
  apply remove_fields in Hr as (_ & _ & Hr & _). congruence.
Qed.

Lemma credited_cons (cmap : gmap Z Container) (r : LogRecord) (rest : list LogRecord) :
  credited cmap (r :: rest) = credited cmap [r] + credited cmap rest.
Proof.
  destruct r; simpl; try lia. destruct (cmap !! identifier0); lia.
Qed.

Lemma check_line_cash (cmap : gmap Z Container) (st st' : Store.t * Z)
    (r : LogRecord) :
  check_line cmap st r = Ok st' ->
  Store._cash (fst st') = Store._cash (fst st) + credited cmap [r].
Proof.
  unfold check_line. intros H.
  destruct r as [t n w|t i p|t i|t i p|t amount]; simpl in H;
    destruct (py_assert (t >=? snd st)); simpl in H; try discriminate.
  - unfold map_getitem in H. destruct (cmap !! i) as [c|]; simpl in H; [|discriminate].
    destruct (Store.add (fst st) c p) as [x|e] eqn:Ha; simpl in H; [|discriminate].
    inversion H; subst; simpl.
    apply add_fields in Ha as (_ & _ & Ha & _). lia.
  - unfold map_getitem in H. simpl.
    destruct (cmap !! i) as [c|]; simpl in H; [|discriminate].
    destruct (Store.remove (fst st) c) as [x|e] eqn:Hr; simpl in H; [|discriminate].
    apply remove_fields in Hr as (_ & _ & Hr & _).
    destruct ((start (delivery c) <=? t) && (t <? end_ (delivery c)));
      inversion H; subst; simpl; lia.
  - unfold map_getitem in H. destruct (cmap !! i) as [c|]; simpl in H; [|discriminate].
    destruct (Store.move (fst st) c p) as [x|e] eqn:Hm; simpl in H; [|discriminate].
    inversion H; subst; simpl. apply move_cash in Hm. lia.
  - destruct (py_assert _) in H; simpl in H; [|discriminate].
    inversion H; subst; simpl. lia.
Qed.

Lemma check_lines_cash (cmap : gmap Z Container) (lines : list LogRecord) :
  forall st st',
    check_lines cmap st lines = Ok st' ->
    Store._cash (fst st') = Store._cash (fst st) + credited cmap lines.
Proof.
  induction lines as [|r lines IH]; intros st st' H.
  - simpl in H. inversion H; subst. simpl. lia.
  - simpl in H. destruct (check_line cmap st r) as [st1|e] eqn:H1; simpl in H;
      [|discriminate].
    rewrite credited_cons, (IH _ _ H), (check_line_cash _ _ _ _ H1). lia.
Qed.

(** The cash of an audited strategy is what the checker derives from its
    log: the values of the containers removed inside their delivery
    windows. *)
Lemma audited_cash (cmap : gmap Z Container) (s : Strategy.t) :
  audited cmap s ->
  Store.cash (Strategy._store s) = credited cmap (Strategy._logger s).
Proof.
  intros (name & w & rest & last & Hlog & Hrep & _).
  rewrite Hlog. apply check_lines_cash in Hrep. simpl in Hrep. exact Hrep.
Qed.

(** ** Removal of a container that lies where the index says *)

Lemma py_list_remove_succeeds (c : Container) (l : list Container) :
  In c l -> exists l', py_list_remove c l = Ok l'.
Proof.
  induction l as [|x l IH]; simpl; intros Hin; [contradiction|].
  destruct (decide (x = c)); [eauto|].
  destruct Hin as [->|Hin]; [contradiction|].
  destruct (IH Hin) as (l' & ->). simpl. eauto.
Qed.

Lemma remove_loop_succeeds (h : Z) (n : nat) :
  forall (p q : Z) (st : list (list Container)),
    Z.to_nat (q - p) = n -> 0 <= p -> 0 <= h ->
    (forall i, p <= i < q ->
       exists col, st !! Z.to_nat i = Some col /\ h < py_len col) ->
    exists st', Store.remove_loop st h (py_range p q) = Ok st'.
Proof.
  induction n as [|n IH]; intros p q st Hn Hp Hh Hcols.
  - rewrite py_range_nil by lia. simpl. eauto.
  - rewrite py_range_cons by lia. simpl.
    destruct (Hcols p ltac:(lia)) as (col & Hcol & Hlen).
    assert (Hlt : p < py_len st).
    { apply lookup_lt_Some in Hcol. unfold py_len. lia. }
    unfold Store.storage_del.
    rewrite py_index_nonneg by lia. simpl.
    rewrite py_getitem_nonneg by lia. rewrite Hcol. simpl.
    unfold py_delitem. rewrite py_index_nonneg by lia. simpl.
    apply IH; try lia.
    intros i Hi. destruct (Hcols i ltac:(lia)) as (coli & Hcoli & Hleni).
    exists coli. split; [|exact Hleni].
    rewrite list_lookup_insert_ne by lia. exact Hcoli.
Qed.

Lemma settled_columns (st : Store.t) (c : Container) (loc : Location) :
  Store.location st c = Some loc -> 0 <= fst loc -> flat_at st c = true ->
  forall i, snd loc <= i < snd loc + size c ->
    exists col, Store._storage st !! Z.to_nat i = Some col /\ fst loc < py_len col.
Proof.
  intros Hloc Hh Hflat i Hi. unfold flat_at in Hflat. rewrite Hloc in Hflat.
  rewrite forallb_forall in Hflat.
  specialize (Hflat i (proj2 (In_py_range _ _ _) Hi)).
  apply Z.eqb_eq in Hflat. unfold column_height in Hflat.
  destruct (Store._storage st !! Z.to_nat i) as [col|]; simpl in Hflat.
  - exists col. split; [reflexivity | lia].
  - unfold py_len in Hflat. simpl in Hflat. lia.
Qed.

Lemma remove_succeeds (st : Store.t) (c : Container) :
  In c (Store.containers st) -> settled st c ->
  Store.can_remove st c = Ok true ->
  exists st', Store.remove st c = Ok st'.
Proof.
  intros Hin (loc & Hloc & Hh & Hcol & Hflat) Hcan.
  unfold Store.containers in Hin.
  unfold Store.remove. rewrite Hloc.
  unfold Store.location in Hloc. rewrite Hloc.
  rewrite bool_decide_eq_true_2 by eauto. rewrite Hcan. simpl.
  destruct (py_list_remove_succeeds _ _ Hin) as (cs & ->). simpl.
  destruct (remove_loop_succeeds (fst loc) _ (snd loc) (snd loc + size c)
              (Store._storage st) eq_refl Hcol Hh) as (st' & ->).
  - apply settled_columns; auto.
  - simpl. eauto.
Qed.

(** ** Expired containers *)





(** * Further properties of the store *)

(** ** Heights after a placement *)

Lemma add_column_height (s s' : Store.t) (c : Container) (p : Position) (i : Z) :
  well_formed s -> 0 <= p -> 0 <= i -> Store.add s c p = Ok s' ->
  column_height s' i
  = column_height s i + (if bool_decide (p <= i < p + size c) then 1 else 0).
Proof.
  intros Hwf Hp Hi H.
  destruct (add_fields _ _ _ _ H) as (Hc & _ & _ & _ & _ & Hst).
  destruct (can_add_true_inv _ _ _ Hwf Hp Hc) as (_ & Hfit & _).
  unfold column_height.
  rewrite (add_loop_lookup c _ p (p + size c) _ _ (Z.to_nat i) eq_refl Hp Hst).
  destruct (decide (p <= i < p + size c)) as [Hin|Hout].
  - rewrite !bool_decide_eq_true_2 by lia.
    destruct (Store._storage s !! Z.to_nat i) as [col|] eqn:Ecol; simpl.
    + unfold py_len. rewrite length_app. simpl. lia.
    + apply lookup_ge_None_1 in Ecol. unfold well_formed in Hwf. lia.
  - rewrite !bool_decide_eq_false_2 by lia. lia.
Qed.

Lemma py_getitem_last {A : Type} (l : list A) (x : A) :
  py_getitem (l ++ [x]) (-1) = Ok x.
Proof.
  assert (Hidx : py_index (l ++ [x]) (-1) = Ok (length l)).
  { unfold py_index, py_len. rewrite length_app. cbn [length].
    change (0 <=? -1) with false. change (-1 <? 0) with true. cbn [andb].
    destruct (Z.leb_spec (- Z.of_nat (length l + 1)) (-1)); [f_equal; lia | lia]. }
  unfold py_getitem. rewrite Hidx. simpl.
  now rewrite list_lookup_middle.
Qed.

Lemma add_column_lookup (s s' : Store.t) (c : Container) (p : Position) (i : Z) :
  well_formed s -> 0 <= p -> p <= i < p + size c -> Store.add s c p = Ok s' ->
  exists col,
    Store._storage s !! Z.to_nat i = Some col
    /\ Store._storage s' !! Z.to_nat i = Some (col ++ [c])
    /\ i < Store._width s.
Proof.
  intros Hwf Hp Hi H.
  destruct (add_fields _ _ _ _ H) as (Hc & _ & _ & _ & _ & Hst).
  destruct (can_add_true_inv _ _ _ Hwf Hp Hc) as (_ & Hfit & _).
  rewrite (add_loop_lookup c _ p (p + size c) _ _ (Z.to_nat i) eq_refl Hp Hst).
  rewrite bool_decide_eq_true_2 by lia.
  destruct (Store._storage s !! Z.to_nat i) as [col|] eqn:Ecol.
  - exists col. repeat split. lia.
  - apply lookup_ge_None_1 in Ecol. unfold well_formed in Hwf. lia.
Qed.

(** X2.  The container [add] has just placed at a column [p >= 0] of a
    well-formed yard can be removed at once, and [top_container] answers
    it on every column of its footprint. *)
Theorem placed_container_on_top (s s' : Store.t) (c : Container) (p : Position) :
  well_formed s -> 0 <= p -> 0 < size c -> Store.add s c p = Ok s' ->
  Store.can_remove s' c = Ok true
  /\ forall i, p <= i < p + size c -> Store.top_container s' i = Ok (Some c).
Proof.
  intros Hwf Hp Hsize H.
  split.
  - destruct (add_flat_heights _ _ _ _ Hwf Hp H) as (h & Hl & Hh).
    rewrite (can_remove_present _ _ _ _ Hl), (Hh p) by lia. simpl.
    now rewrite Z.eqb_refl.
  - intros i Hi.
    destruct (add_column_lookup _ _ _ _ i Hwf Hp Hi H) as (col & _ & Hcol & _).
    unfold Store.top_container, Store.empty.
    rewrite py_getitem_nonneg by lia. rewrite Hcol. simpl.
    assert (Hne : (py_len (col ++ [c]) =? 0) = false).
    { apply Z.eqb_neq. unfold py_len. rewrite length_app. cbn [length]. lia. }
    rewrite Hne. now rewrite py_getitem_last.
Qed.

Lemma placed_container_on_top_witness :
  Store.can_remove wide_yard wide_box = Ok true
  /\ forall i, 0 <= i < 0 + size wide_box ->
               Store.top_container wide_yard i = Ok (Some wide_box).
Proof.
  apply (placed_container_on_top (Store.__init__ 3) wide_yard wide_box 0);
    [reflexivity | lia | reflexivity | reflexivity].
Defined.

(** X3.  A placed container offers a flat surface: after [add] has placed
    [c] at [p >= 0], [can_add] accepts at [p] any container of the size
    of [c]. *)
Theorem placed_container_can_be_stacked_on (s s' : Store.t) (c c' : Container)
    (p : Position) :
  well_formed s -> 0 <= p -> Store.add s c p = Ok s' -> size c' = size c ->
  Store.can_add s' c' p = Ok true.
Proof.
  intros Hwf Hp H Hsize.
  destruct (add_fields _ _ _ _ H) as (Hc & Hw & _).
  destruct (can_add_true_inv _ _ _ Hwf Hp Hc) as (Hlt & Hfit & Hlev).
  assert (Hwf' : well_formed s') by (eapply add_well_formed; eauto).
  assert (Hle : p + size c <= Store._width s)
    by (destruct (Z_lt_dec 0 (size c)); lia).
  assert (Hp' : 0 <= p < Store._width s') by (rewrite Hw; lia).
  assert (Hle' : p + size c' <= Store._width s') by (rewrite Hw, Hsize; lia).
  rewrite (can_add_inside s' c' p Hwf' Hp' Hle').
  f_equal. unfold can_place_spec. rewrite Hw, Hsize.
  replace (0 <=? p) with true by lia.
  replace (p <? Store._width s) with true by lia.
  replace (p + size c <=? Store._width s) with true by lia. simpl.
  unfold level in *. rewrite forallb_forall in *. intros i Hi.
  specialize (Hlev i Hi). apply In_py_range in Hi.
  apply Z.eqb_eq in Hlev. apply Z.eqb_eq.
  rewrite !(add_column_height s s' c p) by (auto; lia).
  rewrite !bool_decide_eq_true_2 by lia. lia.
Qed.

Lemma placed_container_can_be_stacked_on_witness :
  Store.can_add wide_yard dear_box 0 = Ok true.
Proof.
  apply (placed_container_can_be_stacked_on (Store.__init__ 3) wide_yard wide_box
           dear_box 0); [reflexivity | lia | reflexivity | reflexivity].
Defined.

(** X4.  Top-only removal in a pile: once a second container [d] is
    placed at the column where [c] was placed, [can_remove] refuses [c]
    and [remove] fails its assertion. *)
Theorem covered_container_cannot_be_removed (s s1 s2 : Store.t) (c d : Container)
    (p : Position) :
  well_formed s -> 0 <= p -> 0 < size c -> 0 < size d ->
  identifier d <> identifier c ->
  Store.add s c p = Ok s1 -> Store.add s1 d p = Ok s2 ->
  Store.can_remove s2 c = Ok false
  /\ Store.remove s2 c = Raise AssertionError.
Proof.
  intros Hwf Hp Hc Hd Hne H1 H2.
  assert (Hwf1 : well_formed s1) by (eapply add_well_formed; eauto).
  assert (Hwf2 : well_formed s2) by (eapply add_well_formed; eauto).
  destruct (add_location _ _ _ _ H1) as (h & Hh & Hl1).
  destruct (add_fields _ _ _ _ H1) as (Hc1 & Hw1 & _).
  destruct (add_fields _ _ _ _ H2) as (Hc2 & Hw2 & _ & _ & (h2 & _ & Hm2) & _).
  destruct (can_add_true_inv _ _ _ Hwf Hp Hc1) as (Hlt & _ & _).
  assert (Hl2 : Store.location s2 c = Some (h, p)).
  { unfold Store.location in *. rewrite Hm2.
    rewrite lookup_insert_ne by exact Hne. exact Hl1. }
  rewrite height_column_wf in Hh by auto.
  replace (p <? Store._width s) with true in Hh by lia. inversion Hh; subst h.
  assert (Hcan : Store.can_remove s2 c = Ok false).
  { rewrite (can_remove_present _ _ _ _ Hl2).
    rewrite height_column_wf by auto. rewrite Hw2, Hw1.
    replace (p <? Store._width s) with true by lia. simpl.
    rewrite (add_column_height s1 s2 d p) by (auto; lia).
    rewrite (add_column_height s s1 c p) by (auto; lia).
    rewrite !bool_decide_eq_true_2 by lia.
    replace (column_height s p + 1 =? column_height s p + 1 + 1) with false by lia.
    reflexivity. }
  split; [exact Hcan|].
  unfold Store.remove. unfold Store.location in Hl2. rewrite Hl2.
  rewrite bool_decide_eq_true_2 by eauto. now rewrite Hcan.
Qed.

Lemma covered_container_cannot_be_removed_witness :
  Store.can_remove stacked_yard small_box = Ok false
  /\ Store.remove stacked_yard small_box = Raise AssertionError.
Proof.
  apply (covered_container_cannot_be_removed (Store.__init__ 1)
           (run_from (Store.__init__ 1) (Store.add (Store.__init__ 1) small_box 0))
           stacked_yard small_box second_box 0);
    try reflexivity; try lia; discriminate.
Defined.

(** ** Placement followed by removal *)

Lemma add_can_remove (s s' : Store.t) (c : Container) (p : Position) :
  well_formed s -> 0 <= p -> 0 < size c -> Store.add s c p = Ok s' ->
  Store.can_remove s' c = Ok true.
Proof.
  intros Hwf Hp Hsize H.
  destruct (add_flat_heights _ _ _ _ Hwf Hp H) as (h & Hl & Hh).
  rewrite (can_remove_present _ _ _ _ Hl), (Hh p) by lia. simpl.
  now rewrite Z.eqb_refl.
Qed.

Lemma remove_loop_lookup (h : Z) (n : nat) :
  forall (p q : Z) (st st' : list (list Container)) (k : nat),
    Z.to_nat (q - p) = n -> 0 <= p -> 0 <= h ->
    Store.remove_loop st h (py_range p q) = Ok st' ->
    st' !! k
    = if bool_decide (p <= Z.of_nat k < q)
      then delete (Z.to_nat h) <$> st !! k
      else st !! k.
Proof.
  induction n as [|n IH]; intros p q st st' k Hn Hp Hh H.
  - rewrite py_range_nil in H by lia. inversion H; subst.
    rewrite bool_decide_eq_false_2 by lia. reflexivity.
  - rewrite py_range_cons in H by lia. simpl in H.
    destruct (Store.storage_del st p h) as [st1|e] eqn:Hdel; simpl in H;
      [|discriminate].
    rewrite (IH (p + 1) q st1 st' k) by (try exact H; lia).
    unfold Store.storage_del in Hdel.
    destruct (py_index st p) as [k0|e] eqn:Hk0; simpl in Hdel; [|discriminate].
    apply py_index_nonneg_inv in Hk0 as (-> & Hlt); [|exact Hp].
    rewrite py_getitem_nonneg in Hdel by exact Hp.
    destruct (st !! Z.to_nat p) as [col|] eqn:Hcol; simpl in Hdel; [|discriminate].
    unfold py_delitem in Hdel.
    destruct (py_index col h) as [kh|e] eqn:Hkh; simpl in Hdel; [|discriminate].
    apply py_index_nonneg_inv in Hkh as (-> & _); [|exact Hh].
    inversion Hdel; subst st1; clear Hdel.
    destruct (decide (k = Z.to_nat p)) as [->|Hne].
    + rewrite bool_decide_eq_false_2 by lia.
      rewrite bool_decide_eq_true_2 by lia.
      rewrite list_lookup_insert_eq by (unfold py_len in Hlt; lia).
      now rewrite Hcol.
    + rewrite list_lookup_insert_ne by auto.
      destruct (decide (p + 1 <= Z.of_nat k < q)).
      * rewrite !bool_decide_eq_true_2 by lia. reflexivity.
      * rewrite !bool_decide_eq_false_2 by lia. reflexivity.
Qed.

Lemma delete_last {A : Type} (l : list A) (x : A) :
  delete (length l) (l ++ [x]) = l.
Proof. induction l as [|y l IH]; simpl; [reflexivity | now rewrite IH]. Qed.

Lemma py_list_remove_last (c : Container) (l : list Container) :
  ~ In c l -> py_list_remove c (l ++ [c]) = Ok l.
Proof.
  induction l as [|x l IH]; simpl; intros Hin.
  - now rewrite decide_True.
  - rewrite decide_False by (intros ->; apply Hin; now left).
    rewrite IH by (intros H; apply Hin; now right). reflexivity.
Qed.

(** X1.  Round trip: on a well-formed yard, [remove] right after [add] of
    a container of positive size at a column [p >= 0] succeeds and gives
    back the columns, the cash and the width of the yard before; it gives
    back the index when the identifier was not in it, and the list of
    containers when the container was not in it. *)
Theorem add_remove_round_trip (s s1 : Store.t) (c : Container) (p : Position) :
  well_formed s -> 0 <= p -> 0 < size c -> Store.add s c p = Ok s1 ->
  exists s2,
    Store.remove s1 c = Ok s2
    /\ Store._storage s2 = Store._storage s
    /\ Store._cash s2 = Store._cash s
    /\ Store._width s2 = Store._width s
    /\ (Store.location s c = None -> Store._map s2 = Store._map s)
    /\ (~ In c (Store.containers s) -> Store._containers s2 = Store._containers s).
Proof.
  intros Hwf Hp Hsize H.
  assert (Hwf1 : well_formed s1) by (eapply add_well_formed; eauto).
  pose proof (add_can_remove _ _ _ _ Hwf Hp Hsize H) as Hcan.
  destruct (add_location _ _ _ _ H) as (h & Hh & Hl1).
  destruct (add_fields _ _ _ _ H) as (Hc & Hw & Hcash & Hcs & (h' & Hh' & Hm) & Hst).
  rewrite Hh in Hh'. inversion Hh'; subst h'. clear Hh'.
  destruct (can_add_true_inv _ _ _ Hwf Hp Hc) as (Hlt & Hfit & Hlev).
  rewrite height_column_wf in Hh by auto.
  replace (p <? Store._width s) with true in Hh by lia. inversion Hh; subst h.
  assert (Hh0 : 0 <= column_height s p) by (unfold column_height, py_len; lia).
  assert (Hin : In c (Store.containers s1)).
  { unfold Store.containers. rewrite Hcs. apply in_or_app. right. now left. }
  assert (Hset : settled s1 c).
  { exists (column_height s p, p).
    split; [exact Hl1|]. split; [exact Hh0|]. split; [exact Hp|].
    exact (add_flat _ _ _ _ Hwf Hp H). }
  destruct (remove_succeeds _ _ Hin Hset Hcan) as (s2 & Hr).
  exists s2. split; [exact Hr|].
  destruct (remove_fields _ _ _ Hr)
    as (_ & Hw2 & Hcash2 & Hcs2 & Hm2 & loc & Hloc & Hst2).
  rewrite Hl1 in Hloc. inversion Hloc; subst loc. simpl in Hst2. clear Hloc.
  split; [|split; [congruence|split; [congruence|split]]].
  - apply list_eq. intros k.
    rewrite (remove_loop_lookup _ _ p (p + size c) _ _ k eq_refl Hp Hh0 Hst2).
    rewrite (add_loop_lookup c _ p (p + size c) _ _ k eq_refl Hp Hst).
    destruct (decide (p <= Z.of_nat k < p + size c)) as [Hk|Hk].
    + rewrite !bool_decide_eq_true_2 by lia.
      destruct (Store._storage s !! k) as [col|] eqn:Hcol; simpl; [|reflexivity].
      f_equal.
      unfold level in Hlev. rewrite forallb_forall in Hlev.
      specialize (Hlev (Z.of_nat k) (proj2 (In_py_range _ _ _) Hk)).
      apply Z.eqb_eq in Hlev. unfold column_height at 1 in Hlev.
      rewrite Nat2Z.id, Hcol in Hlev. simpl in Hlev.
      rewrite <- Hlev. unfold py_len. rewrite Nat2Z.id. apply delete_last.
    + rewrite !bool_decide_eq_false_2 by lia. reflexivity.
  - intros Hnone. rewrite Hm2, Hm. now apply delete_insert_id.
  - intros Hnotin. unfold Store.containers in Hnotin.
    rewrite Hcs, py_list_remove_last in Hcs2 by exact Hnotin. now inversion Hcs2.
Qed.

Lemma add_remove_round_trip_witness :
  exists s2,
    Store.remove wide_yard wide_box = Ok s2
    /\ Store._storage s2 = Store._storage (Store.__init__ 3)
    /\ Store._cash s2 = Store._cash (Store.__init__ 3)
    /\ Store._width s2 = Store._width (Store.__init__ 3)
    /\ (Store.location (Store.__init__ 3) wide_box = None ->
        Store._map s2 = Store._map (Store.__init__ 3))
    /\ (~ In wide_box (Store.containers (Store.__init__ 3)) ->
        Store._containers s2 = Store._containers (Store.__init__ 3)).
Proof.
  apply (add_remove_round_trip (Store.__init__ 3) wide_yard wide_box 0);
    [reflexivity | lia | reflexivity | reflexivity].
Defined.

(** ** Positions left of the yard *)

(** X5.  [valid_position] only bounds a position from above.  On a
    well-formed yard of width [w >= 0], a position [p] with [-w <= p < 0]
    is accepted by [height_column], which reads column [w + p] (Python
    counts a negative index from the end); below [-w] the assertion still
    passes and the subscript raises [IndexError]. *)
Theorem height_column_negative_position (s : Store.t) (p : Position) :
  well_formed s -> 0 <= Store._width s -> p < 0 ->
  Store.valid_position s p = true
  /\ (- Store._width s <= p ->
      Store.height_column s p = Ok (column_height s (Store._width s + p)))
  /\ (p < - Store._width s -> Store.height_column s p = Raise IndexError).
Proof.
  intros Hwf Hw Hp. unfold Store.height_column, Store.valid_position.
  assert (Hlen : py_len (Store._storage s) = Store._width s)
    by (unfold py_len, well_formed in *; lia).
  replace (p <? Store._width s) with true by lia. simpl.
  split; [reflexivity|]. unfold py_getitem, py_index. rewrite Hlen.
  replace (0 <=? p) with false by lia. replace (p <? 0) with true by lia.
  simpl. split; intros Hb.
  - replace (- Store._width s <=? p) with true by lia. simpl.
    unfold column_height.
    destruct (Store._storage s !! Z.to_nat (Store._width s + p)) as [col|] eqn:E;
      simpl; [reflexivity|].
    apply lookup_ge_None_1 in E. unfold well_formed in Hwf. lia.
  - now replace (- Store._width s <=? p) with false by lia.
Qed.

Lemma height_column_negative_position_witness :
  Store.valid_position wide_yard (-1) = true
  /\ Store.height_column wide_yard (-1) = Ok 0
  /\ Store.height_column wide_yard (-3) = Ok 1
  /\ Store.height_column wide_yard (-4) = Raise IndexError.
Proof.
  assert (Hwf : well_formed wide_yard) by reflexivity.
  assert (Hw : 0 <= Store._width wide_yard) by (vm_compute; discriminate).
  destruct (height_column_negative_position wide_yard (-1) Hwf Hw ltac:(lia))
    as (H1 & H2 & _).
  destruct (height_column_negative_position wide_yard (-3) Hwf Hw ltac:(lia))
    as (_ & H3 & _).
  destruct (height_column_negative_position wide_yard (-4) Hwf Hw ltac:(lia))
    as (_ & _ & H4).
  split; [exact H1|]. split; [|split].
  - rewrite H2; [reflexivity | vm_compute; discriminate].
  - rewrite H3; [reflexivity | vm_compute; discriminate].
  - apply H4. reflexivity.
Defined.

(** ** [Store.height] *)

Lemma height_loop_ge (st : list (list Container)) :
  forall h, h <= Store.height_loop h st.
Proof.
  induction st as [|l st IH]; simpl; intros h; [lia|].
  specialize (IH (Z.max h (py_len l))). lia.
Qed.

Lemma height_loop_bound (st : list (list Container)) :
  forall h col, In col st -> py_len col <= Store.height_loop h st.
Proof.
  induction st as [|l st IH]; simpl; intros h col Hin; [contradiction|].
  destruct Hin as [->|Hin]; [|now apply IH].
  pose proof (height_loop_ge st (Z.max h (py_len col))). lia.
Qed.

Lemma height_loop_attained (st : list (list Container)) :
  forall h,
    Store.height_loop h st = h
    \/ exists col, In col st /\ Store.height_loop h st = py_len col.
Proof.
  induction st as [|l st IH]; simpl; intros h; [now left|].
  destruct (IH (Z.max h (py_len l))) as [Heq|(col & Hin & Heq)].
  - rewrite Heq. destruct (Z.max_spec h (py_len l)) as [(_ & ->)|(_ & ->)];
      [right; exists l; auto | now left].
  - right. exists col. auto.
Qed.

(** X6.  [height] is the height of the highest column: no column is
    higher, and it is [0] or the height of one of the columns. *)
Theorem height_is_highest_column (s : Store.t) :
  (forall col, In col (Store._storage s) -> py_len col <= Store.height s)
  /\ (Store.height s = 0
      \/ exists col, In col (Store._storage s) /\ Store.height s = py_len col).
Proof.
  unfold Store.height. split.
  - intros col. apply height_loop_bound.
  - apply height_loop_attained.
Qed.

(** ** [Store.removable_containers] *)

(** X7.  When [removable_containers] returns, its list is the list of
    containers of the yard filtered by [can_remove], in the order of the
    yard, and every container of the yard has a location. *)
Theorem removable_containers_filter (s : Store.t) (l : list Container) :
  Store.removable_containers s = Ok l ->
  l = List.filter
        (fun c => match Store.can_remove s c with Ok true => true | _ => false end)
        (Store.containers s)
  /\ Forall (fun c => is_Some (Store.location s c)) (Store.containers s).
Proof.
  unfold Store.removable_containers. generalize (Store.containers s).
  intros cs. revert l. induction cs as [|c cs IH]; simpl; intros l H.
  - inversion H. split; [reflexivity | constructor].
  - destruct (Store.can_remove s c) as [b|e] eqn:Hc; simpl in H; [|discriminate].
    destruct (Store.removable_loop s cs) as [l0|e]; simpl in H; [|discriminate].
    destruct (IH l0 eq_refl) as (-> & Hall). inversion H; subst l.
    split; [now destruct b|]. constructor; [|exact Hall].
    destruct (Store.location s c) eqn:Hl; [eauto|].
    rewrite can_remove_absent in Hc by exact Hl. discriminate.
Qed.

Lemma removable_containers_filter_witness :
  [beside_box; top_box]
  = List.filter
      (fun c => match Store.can_remove (Strategy._store three_boxes) c with
                | Ok true => true | _ => false end)
      (Store.containers (Strategy._store three_boxes))
  /\ Forall (fun c => is_Some (Store.location (Strategy._store three_boxes) c))
       (Store.containers (Strategy._store three_boxes)).
Proof.
  apply (removable_containers_filter (Strategy._store three_boxes)).
  vm_compute. reflexivity.
Defined.

(** * Further properties of the log checker *)

(** ** The dictionary of containers *)

Lemma containers_fold_inv (cs : list Container) :
  forall (m : gmap Z Container) (i : Z) (c : Container),
    fold_left (fun m c => <[identifier c := c]> m) cs m !! i = Some c ->
    (In c cs /\ identifier c = i) \/ m !! i = Some c.
Proof.
  induction cs as [|x cs IH]; simpl; intros m i c H; [now right|].
  destruct (IH _ _ _ H) as [(Hin & Hid)|Hm]; [left; auto|].
  destruct (decide (identifier x = i)) as [Heq|Hne].
  - rewrite <- Heq, lookup_insert_eq in Hm. inversion Hm; subst. left. auto.
  - rewrite lookup_insert_ne in Hm by exact Hne. now right.
Qed.

Lemma containers_map_inv (cs : list Container) (i : Z) (c : Container) :
  containers_map cs !! i = Some c -> In c cs /\ identifier c = i.
Proof.
  unfold containers_map. intros H.
  destruct (containers_fold_inv _ _ _ _ H) as [?|Hm]; [auto|].
  rewrite lookup_empty in Hm. discriminate.
Qed.

(** X8.  The dictionary [check_and_show] builds maps an identifier to a
    container of the file that bears it, and to the last such container
    when several lines of the file share the identifier. *)
Theorem containers_map_lookup (cs : list Container) :
  (forall i c, containers_map cs !! i = Some c -> In c cs /\ identifier c = i)
  /\ (forall cs1 c cs2,
         cs = cs1 ++ c :: cs2 ->
         identifier c ∉ List.map identifier cs2 ->
         containers_map cs !! identifier c = Some c)
  /\ (forall i, i ∉ List.map identifier cs -> map_getitem (containers_map cs) i
                                           = Raise KeyError).
Proof.
  split; [apply containers_map_inv|]. unfold containers_map. split.
  - intros cs1 c cs2 -> Hnot. rewrite fold_left_app. simpl.
    rewrite containers_map_other by exact Hnot. apply lookup_insert_eq.
  - intros i Hnot. unfold map_getitem.
    rewrite containers_map_other by exact Hnot. now rewrite lookup_empty.
Qed.

(** ** What an accepted log looks like *)

Lemma check_line_shape (cmap : gmap Z Container) (st st' : Store.t * Z)
    (r : LogRecord) :
  check_line cmap st r = Ok st' ->
  snd st <= line_time r
  /\ snd st' = line_time r
  /\ is_start r = false
  /\ (forall i, line_identifier r = Some i -> is_Some (cmap !! i)).
Proof.
  unfold check_line. intros H.
  destruct r as [t n w|t i p|t i|t i p|t amount]; simpl in H;
    destruct (py_assert (t >=? snd st)) eqn:Ha; simpl in H; try discriminate;
    apply py_assert_Ok in Ha; simpl.
  - unfold map_getitem in H. destruct (cmap !! i) as [c|] eqn:Hc; simpl in H;
      [|discriminate].
    destruct (Store.add (fst st) c p); simpl in H; [|discriminate].
    inversion H; subst; simpl. repeat split; try lia.
    intros j [= <-]. eauto.
  - unfold map_getitem in H. destruct (cmap !! i) as [c|] eqn:Hc; simpl in H;
      [|discriminate].
    destruct (Store.remove (fst st) c); simpl in H; [|discriminate].
    assert (Hs : snd st' = t).
    { destruct ((start (delivery c) <=? t) && (t <? end_ (delivery c)));
        inversion H; reflexivity. }
    repeat split; try lia. intros j [= <-]. eauto.
  - unfold map_getitem in H. destruct (cmap !! i) as [c|] eqn:Hc; simpl in H;
      [|discriminate].
    destruct (Store.move (fst st) c p); simpl in H; [|discriminate].
    inversion H; subst; simpl. repeat split; try lia.
    intros j [= <-]. eauto.
  - destruct (py_assert _) in H; simpl in H; [|discriminate].
    inversion H; subst; simpl. repeat split; try lia. discriminate.
Qed.

Lemma check_lines_shape (cmap : gmap Z Container) (lines : list LogRecord) :
  forall st st',
    check_lines cmap st lines = Ok st' ->
    Sorted Z.le (snd st :: List.map line_time lines)
    /\ Forall (fun r => is_start r = false) lines
    /\ Forall (fun r => forall i, line_identifier r = Some i -> is_Some (cmap !! i))
         lines.
Proof.
  induction lines as [|r lines IH]; simpl; intros st st' H.
  - repeat constructor.
  - destruct (check_line cmap st r) as [st1|e] eqn:H1; simpl in H; [|discriminate].
    destruct (check_line_shape _ _ _ _ H1) as (Hle & Hlast & Hstart & Hid).
    destruct (IH _ _ H) as (Hsorted & Hstarts & Hids). rewrite Hlast in Hsorted.
    repeat split; try (constructor; assumption).
    constructor; [exact Hsorted | constructor; exact Hle].
Qed.

(** X9.  A log that [check_and_show] accepts starts with the [START]
    line at time 0 and has no other [START] line; its time stamps never
    decrease; every identifier it names is the identifier of a container
    of the file. *)
Theorem accepted_log_shape (containers_list : list Container)
    (lines : list LogRecord) (st : Store.t) :
  check_and_show containers_list lines = Ok st ->
  exists name width rest,
    lines = START 0 name width :: rest
    /\ Sorted Z.le (List.map line_time lines)
    /\ Forall (fun r => is_start r = false) rest
    /\ Forall (fun r => forall i, line_identifier r = Some i ->
                 exists c, In c containers_list /\ identifier c = i) rest.
Proof.
  unfold check_and_show. intros H.
  destruct lines as [|[t name width| | | |] rest]; try discriminate.
  destruct t; try discriminate.
  destruct (check_lines (containers_map containers_list) (Store.__init__ width, 0) rest)
    as [st1|e] eqn:H1; simpl in H; [|discriminate].
  destruct (check_lines_shape _ _ _ _ H1) as (Hsorted & Hstarts & Hids).
  exists name, width, rest. repeat split; auto.
  eapply Forall_impl; [exact Hids|]. intros r Hr i Hi.
  destruct (Hr i Hi) as (c & Hc). exists c.
  now apply containers_map_inv.
Qed.

Lemma accepted_log_shape_witness :
  exists name width rest,
    cash_log = START 0 name width :: rest
    /\ Sorted Z.le (List.map line_time cash_log)
    /\ Forall (fun r => is_start r = false) rest
    /\ Forall (fun r => forall i, line_identifier r = Some i ->
                 exists c, In c [small_box] /\ identifier c = i) rest.
Proof.
  apply (accepted_log_shape [small_box] cash_log
           (run_from (Store.__init__ 4) (check_and_show [small_box] cash_log))).
  vm_compute. reflexivity.
Defined.

(** ** The cash the checker computes *)

(** X10.  For a log that [check_and_show] accepts, the cash of the yard
    it rebuilds is the total value of the containers removed inside their
    delivery windows, and the amount of every [CASH] line is that total
    over the lines before it. *)
Theorem accepted_log_cash (containers_list : list Container)
    (lines : list LogRecord) (st : Store.t) :
  check_and_show containers_list lines = Ok st ->
  Store.cash st = credited (containers_map containers_list) lines
  /\ forall l1 t amount l2,
       lines = l1 ++ CASH t amount :: l2 ->
       amount = credited (containers_map containers_list) l1.
Proof.
  unfold check_and_show. intros H.
  destruct lines as [|[t0 name width| | | |] rest]; try discriminate.
  destruct t0; try discriminate.
  destruct (check_lines (containers_map containers_list) (Store.__init__ width, 0) rest)
    as [st1|e] eqn:H1; simpl in H; [|discriminate].
  inversion H; subst st; clear H. split.
  - apply check_lines_cash in H1. simpl in H1. exact H1.
  - intros l1 t amount l2 Heq.
    destruct l1 as [|r l1]; [discriminate|].
    simpl in Heq. injection Heq as Hr Hrest. subst r rest. simpl.
    rewrite check_lines_app in H1.
    destruct (check_lines (containers_map containers_list) (Store.__init__ width, 0) l1)
      as [st2|e] eqn:H2; simpl in H1; [|discriminate].
    apply check_lines_cash in H2. simpl in H2.
    unfold check_line in H1. simpl in H1.
    destruct (py_assert (t >=? snd st2)); simpl in H1; [|discriminate].
    destruct (py_assert (amount =? Store.cash (fst st2))) eqn:Ha; simpl in H1;
      [|discriminate].
    apply py_assert_Ok in Ha. apply Z.eqb_eq in Ha.
    unfold Store.cash in Ha. lia.
Qed.

Lemma accepted_log_cash_witness :
  Store.cash (run_from (Store.__init__ 4) (check_and_show [small_box] cash_log))
  = credited (containers_map [small_box]) cash_log
  /\ forall l1 t amount l2,
       cash_log = l1 ++ CASH t amount :: l2 ->
       amount = credited (containers_map [small_box]) l1.
Proof.
  apply (accepted_log_cash [small_box] cash_log). vm_compute. reflexivity.
Defined.

(** ** The yard the checker rebuilds *)

Lemma check_line_yard (cmap : gmap Z Container) (st st' : Store.t * Z)
    (r : LogRecord) :
  check_line cmap st r = Ok st' ->
  Store._width (fst st') = Store._width (fst st)
  /\ (well_formed (fst st) -> well_formed (fst st')).
Proof.
  unfold check_line. intros H.
  destruct r as [t n w|t i p|t i|t i p|t amount]; simpl in H;
    destruct (py_assert (t >=? snd st)); simpl in H; try discriminate.
  - unfold map_getitem in H. destruct (cmap !! i) as [c|]; simpl in H; [|discriminate].
    destruct (Store.add (fst st) c p) as [x|e] eqn:Ha; simpl in H; [|discriminate].
    inversion H; subst; simpl.
    split; [now apply add_fields in Ha as (_ & Hw & _) | eauto using add_well_formed].
  - unfold map_getitem in H. destruct (cmap !! i) as [c|]; simpl in H; [|discriminate].
    destruct (Store.remove (fst st) c) as [x|e] eqn:Hr; simpl in H; [|discriminate].
    pose proof (remove_well_formed _ _ _ Hr) as Hwf.
    apply remove_fields in Hr as (_ & Hw & _).
    destruct ((start (delivery c) <=? t) && (t <? end_ (delivery c)));
      inversion H; subst; simpl; auto.
  - unfold map_getitem in H. destruct (cmap !! i) as [c|]; simpl in H; [|discriminate].
    destruct (Store.move (fst st) c p) as [x|e] eqn:Hm; simpl in H; [|discriminate].
    inversion H; subst; simpl. split; [|eauto using move_well_formed].
    apply move_cases in Hm as [(_ & ->)|(_ & s1 & Hr & Ha)]; [reflexivity|].
    apply add_fields in Ha as (_ & Ha & _).
    apply remove_fields in Hr as (_ & Hr & _). congruence.
  - destruct (py_assert _) in H; simpl in H; [|discriminate].
    inversion H; subst; simpl. auto.
Qed.

Lemma check_lines_yard (cmap : gmap Z Container) (lines : list LogRecord) :
  forall st st',
    check_lines cmap st lines = Ok st' ->
    Store._width (fst st') = Store._width (fst st)
    /\ (well_formed (fst st) -> well_formed (fst st')).
Proof.
  induction lines as [|r lines IH]; simpl; intros st st' H.
  - inversion H; subst. auto.
  - destruct (check_line cmap st r) as [st1|e] eqn:H1; simpl in H; [|discriminate].
    destruct (check_line_yard _ _ _ _ H1) as (Hw1 & Hwf1).
    destruct (IH _ _ H) as (Hw & Hwf). split; [congruence | auto].
Qed.

(** X11.  The yard [check_and_show] rebuilds from an accepted log has the
    width of the [START] line and one column for each position of that
    width. *)
Theorem accepted_log_yard (containers_list : list Container) (name : string)
    (width : Z) (rest : list LogRecord) (st : Store.t) :
  check_and_show containers_list (START 0 name width :: rest) = Ok st ->
  Store.width st = width /\ well_formed st.
Proof.
  unfold check_and_show. intros H.
  destruct (check_lines (containers_map containers_list) (Store.__init__ width, 0) rest)
    as [st1|e] eqn:H1; simpl in H; [|discriminate].
  inversion H; subst st; clear H.
  destruct (check_lines_yard _ _ _ _ H1) as (Hw & Hwf). simpl in Hw, Hwf.
  split; [exact Hw | apply Hwf, init_well_formed].
Qed.

Lemma accepted_log_yard_witness :
  Store.width (run_from (Store.__init__ 4) (check_and_show [small_box] cash_log)) = 4
  /\ well_formed (run_from (Store.__init__ 4) (check_and_show [small_box] cash_log)).
Proof.
  apply (accepted_log_yard [small_box] "my_strategy" 4
           [ADD 0 1 0; CASH 0 0; REMOVE 1 1; CASH 2 10]).
  vm_compute. reflexivity.
Defined.

(** * Further properties of the expert strategy *)

(** ** Every run is a sequence of logged actions *)

Lemma action_inv (s s' : Strategy.t) (r : LogRecord) :
  action s r s' ->
  Strategy._time s' = Strategy._time s + 1
  /\ Strategy._logger s' = Strategy._logger s ++ [r]
  /\ line_time r = Strategy._time s
  /\ Store._width (Strategy._store s') = Store._width (Strategy._store s)
  /\ (well_formed (Strategy._store s) -> well_formed (Strategy._store s')).
Proof.
  intros Ha. inversion Ha as [s0 c p s0' H|s0 c s0' H|s0 c s0' H|s0 c p s0' H];
    subst; simpl.
  - unfold Strategy.add_container in H.
    destruct (Store.can_add (Strategy._store s) c p) as [[|]|e]; simpl in H;
      try discriminate.
    destruct (Store.add (Strategy._store s) c p) as [st|e] eqn:Hst; simpl in H;
      [|discriminate].
    inversion H; subst; simpl. repeat split; eauto using add_well_formed.
    now apply add_fields in Hst as (_ & Hw & _).
  - unfold Strategy.lose_container in H.
    destruct (Store.can_remove (Strategy._store s) c) as [[|]|e]; simpl in H;
      try discriminate.
    destruct (Store.remove (Strategy._store s) c) as [st|e] eqn:Hst; simpl in H;
      [|discriminate].
    inversion H; subst; simpl. repeat split; eauto using remove_well_formed.
    now apply remove_fields in Hst as (_ & Hw & _).
  - unfold Strategy.sell_container in H.
    destruct (Store.can_remove (Strategy._store s) c) as [[|]|e]; simpl in H;
      try discriminate.
    rewrite remove_add_cash in H.
    destruct (Store.remove (Strategy._store s) c) as [st|e] eqn:Hst; simpl in H;
      [|discriminate].
    inversion H; subst; simpl. repeat split.
    + now apply remove_fields in Hst as (_ & Hw & _).
    + intros Hwf. apply (remove_well_formed _ _ _ Hst Hwf).
  - unfold Strategy.move_container in H.
    destruct (Store.can_move (Strategy._store s) c p) as [[|]|e]; simpl in H;
      try discriminate.
    destruct (Store.move (Strategy._store s) c p) as [st|e] eqn:Hst; simpl in H;
      [|discriminate].
    inversion H; subst; simpl. repeat split; eauto using move_well_formed.
    apply move_cases in Hst as [(_ & ->)|(_ & s1 & Hr & Hadd)]; [reflexivity|].
    apply add_fields in Hadd as (_ & Hw1 & _).
    apply remove_fields in Hr as (_ & Hw2 & _). congruence.
Qed.

Lemma actions_app (s s1 s2 : Strategy.t) (l1 l2 : list LogRecord) :
  actions s l1 s1 -> actions s1 l2 s2 -> actions s (l1 ++ l2) s2.
Proof.
  induction 1 as [|s r sa l sb Hact Hrest IH]; simpl; intros H2; [exact H2|].
  econstructor; eauto.
Qed.

Lemma actions_one (s s' : Strategy.t) (r : LogRecord) :
  action s r s' -> actions s [r] s'.
Proof. intros H. econstructor; [exact H | constructor]. Qed.

Lemma actions_inv (s s' : Strategy.t) (l : list LogRecord) :
  actions s l s' ->
  Strategy._time s' = Strategy._time s + py_len l
  /\ Strategy._logger s' = Strategy._logger s ++ l
  /\ List.map line_time l = py_range (Strategy._time s) (Strategy._time s')
  /\ Store._width (Strategy._store s') = Store._width (Strategy._store s)
  /\ (well_formed (Strategy._store s) -> well_formed (Strategy._store s')).
Proof.
  induction 1 as [|s r sa l sb Hact Hrest IH].
  - unfold py_len. simpl. rewrite app_nil_r, py_range_nil by lia.
    repeat split; auto. lia.
  - destruct (action_inv _ _ _ Hact) as (Ht & Hl & Hr & Hw & Hwf).
    destruct IH as (Ht' & Hl' & Hr' & Hw' & Hwf').
    assert (Hlen : py_len (r :: l) = py_len l + 1)
      by (unfold py_len; simpl length; lia).
    split; [lia|]. split; [rewrite Hl', Hl, <- app_assoc; reflexivity|].
    split; [|split; [congruence | auto]].
    rewrite (py_range_cons (Strategy._time s)) by (unfold py_len in *; lia).
    simpl. rewrite Hr, Hr', Ht. reflexivity.
Qed.

Lemma treat_one_actions (s s' : Strategy.t) (r : Container) :
  Strategy.treat_one s r = Ok s' ->
  exists l, actions s l s' /\ Forall (fun x => is_remove x = true) l
            /\ (length l <= 1)%nat.
Proof.
  unfold Strategy.treat_one. intros H.
  destruct (Strategy.expired_container s r).
  - eexists. split; [apply actions_one, action_lose; exact H|].
    split; [repeat constructor | simpl; lia].
  - destruct (Strategy.valid_container s r).
    + eexists. split; [apply actions_one, action_sell; exact H|].
      split; [repeat constructor | simpl; lia].
    + inversion H; subst. exists []. repeat constructor.
Qed.

Lemma treat_loop_actions (c : Container) (before_add : bool)
    (removables : list Container) :
  forall s s',
    Strategy.treat_loop s c before_add removables = Ok s' ->
    exists l, actions s l s' /\ Forall (fun x => is_remove x = true) l
              /\ (length l <= length removables)%nat.
Proof.
  induction removables as [|r rest IH]; simpl; intros s s' H.
  - inversion H; subst. exists []. repeat constructor.
  - destruct ((end_ (delivery c) >? Strategy._time s)
              && (if before_add then value c <? value r else true)).
    + destruct (Strategy.treat_one s r) as [s1|e] eqn:H1; simpl in H; [|discriminate].
      destruct (treat_one_actions _ _ _ H1) as (l1 & Ha1 & Hr1 & Hn1).
      destruct (IH _ _ H) as (l2 & Ha2 & Hr2 & Hn2).
      exists (l1 ++ l2). split; [eapply actions_app; eauto|].
      split; [now apply Forall_app_2 | rewrite length_app; lia].
    + inversion H; subst. exists []. split; [constructor|].
      split; [constructor | simpl; lia].
Qed.

Lemma removable_loop_length (st : Store.t) (cs : list Container) :
  forall l, Store.removable_loop st cs = Ok l -> (length l <= length cs)%nat.
Proof.
  induction cs as [|c cs IH]; simpl; intros l H.
  - inversion H. simpl. lia.
  - destruct (Store.can_remove st c) as [b|e]; simpl in H; [|discriminate].
    destruct (Store.removable_loop st cs) as [l0|e]; simpl in H; [|discriminate].
    specialize (IH l0 eq_refl). inversion H; subst. destruct b; simpl; lia.
Qed.

Lemma sort_by_cost_length (s : Strategy.t) (l : list Container) :
  length (Strategy.sort_by_cost s l) = length l.
Proof.
  rewrite sort_by_cost_partition, length_app.
  induction l as [|x l IH]; simpl; [reflexivity|].
  destruct (Strategy.valid_container s x); simpl; lia.
Qed.

Lemma treat_removables_actions (s s' : Strategy.t) (c : Container) (before_add : bool) :
  Strategy.treat_removables s c before_add = Ok s' ->
  exists l, actions s l s' /\ Forall (fun x => is_remove x = true) l
            /\ (length l <= length (Store.containers (Strategy._store s)))%nat.
Proof.
  unfold Strategy.treat_removables, Store.removable_containers. intros H.
  destruct (Store.removable_loop (Strategy._store s)
              (Store.containers (Strategy._store s))) as [l0|e] eqn:Hl;
    simpl in H; [|discriminate].
  destruct (treat_loop_actions _ _ _ _ _ H) as (l & Ha & Hr & Hn).
  exists l. split; [exact Ha|]. split; [exact Hr|].
  rewrite sort_by_cost_length in Hn. apply removable_loop_length in Hl. lia.
Qed.

Lemma evaluate_container_actions (s s' : Strategy.t) (c : Container) (p_2 : Position) :
  Strategy.evaluate_container s c p_2 = Ok s' ->
  exists l, actions s l s' /\ (length l <= 1)%nat.
Proof.
  unfold Strategy.evaluate_container. intros H.
  destruct (Store.can_add (Strategy._store s) c p_2) as [b1|e]; simpl in H;
    [|discriminate].
  destruct (if b1 then Store.can_remove (Strategy._store s) c else Ok false)
    as [[|]|e]; simpl in H; try discriminate.
  - destruct (Strategy.expired_container s c);
      [|destruct (Strategy.valid_container s c)];
      eexists; (split; [apply actions_one|simpl; lia]).
    + apply action_lose; exact H.
    + apply action_sell; exact H.
    + apply action_move; exact H.
  - inversion H; subst. exists []. split; [constructor | simpl; lia].
Qed.

Lemma dig_loop_actions (p : Position) (fuel : nat) :
  forall s s',
    Strategy.dig_loop fuel s p = Ok s' ->
    exists l, actions s l s' /\ (length l <= fuel)%nat.
Proof.
  induction fuel as [|fuel IH]; simpl; intros s s' H.
  - inversion H; subst. exists []. split; [constructor | simpl; lia].
  - destruct (Store.empty (Strategy._store s) p) as [[|]|e]; simpl in H;
      try discriminate.
    { inversion H; subst. exists []. split; [constructor | simpl; lia]. }
    destruct (py_getitem (Store._storage (Strategy._store s)) p) as [col|e];
      simpl in H; [|discriminate].
    destruct (Strategy.height_column s p) as [h|e]; simpl in H; [|discriminate].
    destruct (py_getitem col (h - 1)) as [c|e]; simpl in H; [|discriminate].
    destruct (Strategy.adjacent_stack s c) as [p_2|e]; simpl in H; [|discriminate].
    destruct (Strategy.evaluate_container s c p_2) as [s1|e] eqn:He; simpl in H;
      [|discriminate].
    destruct (evaluate_container_actions _ _ _ _ He) as (l1 & Ha1 & Hn1).
    destruct (IH _ _ H) as (l2 & Ha2 & Hn2).
    exists (l1 ++ l2). split; [eapply actions_app; eauto|].
    rewrite length_app. lia.
Qed.

Lemma dig_pile_actions (s s' : Strategy.t) (p : Position) (depth : Z) :
  Strategy.dig_pile s p depth = Ok s' ->
  exists l, actions s l s' /\ py_len l <= depth.
Proof.
  unfold Strategy.dig_pile. intros H.
  destruct (py_assert (depth >=? 0)) eqn:Hd; simpl in H; [|discriminate].
  apply py_assert_Ok in Hd.
  destruct (py_assert (Strategy.valid_position s p)); simpl in H; [|discriminate].
  destruct (dig_loop_actions _ _ _ _ H) as (l & Ha & Hn).
  exists l. split; [exact Ha|]. unfold py_len. lia.
Qed.

Lemma move_container_cash (s s' : Strategy.t) (c : Container) (p : Position) :
  Strategy.move_container s c p = Ok s' ->
  Store.cash (Strategy._store s') = Store.cash (Strategy._store s).
Proof.
  unfold Strategy.move_container. intros H.
  destruct (Store.can_move (Strategy._store s) c p) as [[|]|e]; simpl in H;
    try discriminate.
  destruct (Store.move (Strategy._store s) c p) as [st|e] eqn:Hst; simpl in H;
    [|discriminate].
  inversion H; subst; simpl. now apply move_cash in Hst.
Qed.

Lemma equilibrate_loop_actions (big_pile small_pile : Position) (rem_time : nat) :
  forall s r,
    Strategy.equilibrate_loop rem_time s big_pile small_pile = Ok r ->
    exists l, actions s l (fst r)
              /\ Forall (fun x => is_move x = true) l
              /\ (length l + snd r <= rem_time)%nat
              /\ Store.cash (Strategy._store (fst r)) = Store.cash (Strategy._store s).
Proof.
  induction rem_time as [|n IH]; simpl; intros s r H.
  - inversion H; subst. exists []. repeat constructor.
  - destruct (Strategy.height_column s big_pile) as [hb|e]; simpl in H;
      [|discriminate].
    destruct (Strategy.height_column s small_pile) as [hs|e]; simpl in H;
      [|discriminate].
    destruct (hb >=? hs).
    2: { inversion H; subst. exists []. simpl.
         repeat split; try constructor; try lia. }
    destruct (Store.empty (Strategy._store s) big_pile) as [[|]|e]; simpl in H;
      try discriminate.
    + destruct (IH _ _ H) as (l & Ha & Hm & Hn & Hc).
      exists l. split; [exact Ha|]. split; [exact Hm|]. split; [lia | exact Hc].
    + destruct (py_getitem (Store._storage (Strategy._store s)) big_pile)
        as [col|e]; simpl in H; [|discriminate].
      destruct (py_getitem col (-1)) as [c|e]; simpl in H; [|discriminate].
      destruct (Strategy.move_container s c small_pile) as [s1|e] eqn:Hmv;
        simpl in H; [|discriminate].
      destruct (IH _ _ H) as (l & Ha & Hm & Hn & Hc).
      exists (MOVE (Strategy._time s) (identifier c) small_pile :: l).
      split; [econstructor; [apply action_move; exact Hmv | exact Ha]|].
      split; [constructor; [reflexivity | exact Hm]|].
      split; [simpl; lia|]. rewrite Hc. now apply move_container_cash in Hmv.
Qed.

Lemma equilibrate_piles_actions (s : Strategy.t) (rem_time : Z)
    (big_pile small_pile : Position) (r : Strategy.t * Z) :
  Strategy.equilibrate_piles s rem_time big_pile small_pile = Ok r ->
  exists l, actions s l (fst r)
            /\ Forall (fun x => is_move x = true) l
            /\ 0 <= snd r /\ py_len l + snd r <= rem_time
            /\ Store.cash (Strategy._store (fst r)) = Store.cash (Strategy._store s).
Proof.
  unfold Strategy.equilibrate_piles. intros H.
  destruct (py_assert (rem_time >=? 0)) eqn:Hd; simpl in H; [|discriminate].
  apply py_assert_Ok in Hd.
  destruct (Strategy.equilibrate_loop (Z.to_nat rem_time) s big_pile small_pile)
    as [r0|e] eqn:Hl; simpl in H; [|discriminate].
  destruct (equilibrate_loop_actions _ _ _ _ _ Hl) as (l & Ha & Hm & Hn & Hc).
  exists l. unfold py_len.
  destruct (Strategy.empty_store (fst r0)); inversion H; subst; simpl;
    (split; [exact Ha|]); (split; [exact Hm|]); (split; [lia|]);
    (split; [lia | exact Hc]).
Qed.

Lemma intake_actions (s s' : Strategy.t) (c : Container) :
  Strategy.intake s c = Ok s' -> exists l, actions s l s'.
Proof.
  unfold Strategy.intake. intros H.
  destruct (Strategy.least_full_pile s c) as [pos|e]; simpl in H; [|discriminate].
  destruct (Store.can_add (Strategy._store s) c pos) as [b|e]; simpl in H;
    [|discriminate].
  destruct (b && negb (Strategy.expired_container s c)
            && (end_ (delivery c) >? Strategy._time s)).
  - eexists. apply actions_one, action_add. exact H.
  - inversion H; subst. exists []. constructor.
Qed.

Lemma exec_loop_actions (fuel : nat) :
  forall s rem_time s',
    Strategy.exec_loop fuel s rem_time = Ok s' -> exists l, actions s l s'.
Proof.
  induction fuel as [|fuel IH]; simpl; intros s rem_time s' H.
  - destruct ((rem_time >? 0) && negb (Strategy.empty_store s)); [discriminate|].
    inversion H; subst. exists []. constructor.
  - destruct ((rem_time >? 0) && negb (Strategy.empty_store s)).
    2: { inversion H; subst. exists []. constructor. }
    destruct (Strategy.best_pile s rem_time) as [best_p|e]; simpl in H;
      [|discriminate].
    destruct (Qle_bool (snd (fst best_p)) Strategy.min_score).
    + destruct (Strategy.least_equilibrated_pile s) as [piles|e]; simpl in H;
        [|discriminate].
      destruct (py_getitem piles 0) as [big|e]; simpl in H; [|discriminate].
      destruct (py_getitem piles 1) as [small|e]; simpl in H; [|discriminate].
      destruct (Strategy.equilibrate_piles s rem_time big small) as [r|e] eqn:He;
        simpl in H; [|discriminate].
      destruct (equilibrate_piles_actions _ _ _ _ _ He) as (l1 & Ha1 & _).
      destruct (IH _ _ _ H) as (l2 & Ha2).
      exists (l1 ++ l2). eapply actions_app; eauto.
    + destruct (Strategy.dig_pile s (fst (fst best_p)) rem_time) as [s1|e] eqn:Hd;
        simpl in H; [|discriminate].
      destruct (dig_pile_actions _ _ _ _ Hd) as (l1 & Ha1 & _).
      destruct (IH _ _ _ H) as (l2 & Ha2).
      exists (l1 ++ l2). eapply actions_app; eauto.
Qed.

Lemma exec_actions (s s' : Strategy.t) (c : Container) :
  Strategy.exec s c = Ok s' -> exists l, actions s l s'.
Proof.
  unfold Strategy.exec. intros H.
  destruct (Strategy.treat_removables s c true) as [s1|e] eqn:H1; simpl in H;
    [|discriminate].
  destruct (Strategy.intake s1 c) as [s2|e] eqn:H2; simpl in H; [|discriminate].
  destruct (Strategy.treat_removables s2 c false) as [s3|e] eqn:H3; simpl in H;
    [|discriminate].
  destruct (treat_removables_actions _ _ _ _ H1) as (l1 & Ha1 & _).
  destruct (intake_actions _ _ _ H2) as (l2 & Ha2).
  destruct (treat_removables_actions _ _ _ _ H3) as (l3 & Ha3 & _).
  destruct (exec_loop_actions _ _ _ _ H) as (l4 & Ha4).
  exists (l1 ++ l2 ++ l3 ++ l4).
  repeat (eapply actions_app; [eassumption|]). exact Ha4.
Qed.

Lemma execute_loop_actions (containers : list Container) :
  forall s s', execute_loop s containers = Ok s' -> exists l, actions s l s'.
Proof.
  induction containers as [|c containers IH]; simpl; intros s s' H.
  - inversion H; subst. exists []. constructor.
  - destruct (Strategy.exec s c) as [s1|e] eqn:H1; simpl in H; [|discriminate].
    destruct (exec_actions _ _ _ H1) as (l1 & Ha1).
    destruct (IH _ _ H) as (l2 & Ha2).
    exists (l1 ++ l2). eapply actions_app; eauto.
Qed.

(** ** The clock and the log *)

(** X12.  The clock advances by exactly one per logged action and by
    nothing else.  A call of [exec] appends to the log one line per unit
    of clock it spends, stamped with the successive values of the clock;
    after a run, the log is the [START] line followed by as many lines as
    the clock shows, stamped [0], [1], [2], ... *)
Theorem clock_counts_logged_actions :
  (forall (s : Strategy.t) (c : Container) (s' : Strategy.t),
      Strategy.exec s c = Ok s' ->
      exists l,
        Strategy._logger s' = Strategy._logger s ++ l
        /\ Strategy._time s' = Strategy._time s + py_len l
        /\ List.map line_time l = py_range (Strategy._time s) (Strategy._time s'))
  /\ (forall (containers : list Container) (width : Z) (s : Strategy.t),
         execute_strategy containers width = Ok s ->
         exists rest,
           Strategy._logger s = START 0 "my_strategy" width :: rest
           /\ Strategy._time s = py_len rest
           /\ List.map line_time rest = py_range 0 (Strategy._time s)).
Proof.
  split.
  - intros s c s' H. destruct (exec_actions _ _ _ H) as (l & Ha).
    destruct (actions_inv _ _ _ Ha) as (Ht & Hl & Hr & _). eauto.
  - intros containers width s H. unfold execute_strategy in H.
    destruct (execute_loop_actions _ _ _ H) as (l & Ha).
    destruct (actions_inv _ _ _ Ha) as (Ht & Hl & Hr & _).
    exists l. simpl in *. repeat split; auto.
Qed.

Lemma clock_counts_logged_actions_witness :
  exists rest,
    Strategy._logger example_run = START 0 "my_strategy" 20 :: rest
    /\ Strategy._time example_run = py_len rest
    /\ List.map line_time rest = py_range 0 (Strategy._time example_run).
Proof.
  apply (proj2 clock_counts_logged_actions example_file 20 example_run).
  vm_compute. reflexivity.
Defined.

(** X13.  A run keeps the yard in shape: after [execute_strategy], the
    yard has the width it was created with and one column for each
    position of that width. *)
Theorem run_keeps_yard_well_formed (containers : list Container) (width : Z)
    (s : Strategy.t) :
  execute_strategy containers width = Ok s ->
  Store.width (Strategy._store s) = width /\ well_formed (Strategy._store s).
Proof.
  intros H. unfold execute_strategy in H.
  destruct (execute_loop_actions _ _ _ H) as (l & Ha).
  destruct (actions_inv _ _ _ Ha) as (_ & _ & _ & Hw & Hwf).
  split; [exact Hw | apply Hwf, init_well_formed].
Qed.

Lemma run_keeps_yard_well_formed_witness :
  Store.width (Strategy._store example_run) = 20
  /\ well_formed (Strategy._store example_run).
Proof.
  apply (run_keeps_yard_well_formed example_file 20 example_run).
  vm_compute. reflexivity.
Defined.

(** ** Cash over a run *)

Lemma credited_app (cmap : gmap Z Container) (l1 l2 : list LogRecord) :
  credited cmap (l1 ++ l2) = credited cmap l1 + credited cmap l2.
Proof.
  induction l1 as [|r l1 IH]; simpl app; [simpl; lia|].
  rewrite (credited_cons cmap r (l1 ++ l2)), (credited_cons cmap r l1), IH. lia.
Qed.

Lemma credited_nonneg (cmap : gmap Z Container) (l : list LogRecord) :
  (forall i c, cmap !! i = Some c -> 0 <= value c) -> 0 <= credited cmap l.
Proof.
  intros Hv. induction l as [|r l IH]; simpl; [lia|].
  destruct r; try exact IH.
  destruct (cmap !! identifier0) as [c|] eqn:Hc; [|exact IH].
  specialize (Hv _ _ Hc).
  destruct ((start (delivery c) <=? t) && (t <? end_ (delivery c))); lia.
Qed.

Lemma execute_loop_app (cs1 cs2 : list Container) :
  forall s,
    execute_loop s (cs1 ++ cs2)
    = (s1 <- execute_loop s cs1 ;; execute_loop s1 cs2).
Proof.
  induction cs1 as [|c cs1 IH]; simpl; intros s; [reflexivity|].
  destruct (Strategy.exec s c); simpl; auto.
Qed.

(** X14.  Cash never decreases along a run.  For a container file with
    distinct identifiers and no negative value, the cash after any prefix
    of the file is non-negative and at most the cash after the whole
    file. *)
Theorem run_cash_never_decreases (cs1 cs2 : list Container) (width : Z)
    (s2 : Strategy.t) :
  NoDup (List.map identifier (cs1 ++ cs2)) ->
  Forall (fun c => 0 <= value c) (cs1 ++ cs2) ->
  execute_strategy (cs1 ++ cs2) width = Ok s2 ->
  exists s1,
    execute_strategy cs1 width = Ok s1
    /\ 0 <= Store.cash (Strategy._store s1)
    /\ Store.cash (Strategy._store s1) <= Store.cash (Strategy._store s2).
Proof.
  intros Hnd Hval H. unfold execute_strategy in *.
  rewrite execute_loop_app in H.
  destruct (execute_loop (Strategy.__init__ width) cs1) as [s1|e] eqn:H1;
    simpl in H; [|discriminate].
  exists s1. split; [reflexivity|].
  pose proof (containers_map_known _ Hnd) as Hk.
  apply Forall_app in Hk as (Hk1 & Hk2).
  assert (Ha1 : audited (containers_map (cs1 ++ cs2)) s1)
    by (eapply execute_loop_audited; eauto using init_audited).
  assert (Ha2 : audited (containers_map (cs1 ++ cs2)) s2)
    by (eapply execute_loop_audited; eauto).
  destruct (execute_loop_actions _ _ _ H) as (l & Hact).
  destruct (actions_inv _ _ _ Hact) as (_ & Hlog & _).
  rewrite (audited_cash _ _ Ha1), (audited_cash _ _ Ha2), Hlog, credited_app.
  assert (Hpos : forall l', 0 <= credited (containers_map (cs1 ++ cs2)) l').
  { intros l'. apply credited_nonneg. intros i c Hc.
    apply containers_map_inv in Hc as (Hin & _).
    rewrite Forall_forall in Hval. apply Hval. now apply list_elem_of_In. }
  pose proof (Hpos (Strategy._logger s1)). pose proof (Hpos l). lia.
Qed.

Lemma run_cash_never_decreases_witness :
  exists s1,
    execute_strategy [read_container 1 1 10 0 5 3 8] 20 = Ok s1
    /\ 0 <= Store.cash (Strategy._store s1)
    /\ Store.cash (Strategy._store s1) <= Store.cash (Strategy._store example_run).
Proof.
  apply (run_cash_never_decreases [read_container 1 1 10 0 5 3 8]
           [read_container 2 2 5 1 9 20 30; read_container 3 1 7 2 12 9 11] 20
           example_run).
  - apply (bool_decide_unpack (NoDup (List.map identifier example_file))).
    vm_compute. exact I.
  - repeat constructor; vm_compute; discriminate.
  - vm_compute. reflexivity.
Defined.

(** ** What the phases of [exec] do to the log *)

(** X15.  [treat_removables] only removes: the lines it appends to the
    log are [REMOVE] lines, at most one per container of the yard, and
    the clock advances by their number. *)
Theorem treat_removables_only_removes (s s' : Strategy.t) (c : Container)
    (before_add : bool) :
  Strategy.treat_removables s c before_add = Ok s' ->
  exists l,
    Strategy._logger s' = Strategy._logger s ++ l
    /\ Forall (fun r => is_remove r = true) l
    /\ py_len l <= py_len (Store.containers (Strategy._store s))
    /\ Strategy._time s' = Strategy._time s + py_len l.
Proof.
  intros H. destruct (treat_removables_actions _ _ _ _ H) as (l & Ha & Hr & Hn).
  destruct (actions_inv _ _ _ Ha) as (Ht & Hl & _).
  exists l. unfold py_len in *. repeat split; auto. lia.
Qed.

Lemma treat_removables_only_removes_witness :
  exists l,
    Strategy._logger
      (run_from before_post_flush
         (Strategy.treat_removables before_post_flush dear_box false))
    = Strategy._logger before_post_flush ++ l
    /\ Forall (fun r => is_remove r = true) l
    /\ py_len l <= py_len (Store.containers (Strategy._store before_post_flush))
    /\ Strategy._time
         (run_from before_post_flush
            (Strategy.treat_removables before_post_flush dear_box false))
       = Strategy._time before_post_flush + py_len l.
Proof.
  apply (treat_removables_only_removes before_post_flush _ dear_box false).
  vm_compute. reflexivity.
Defined.

(** X16.  [dig_pile] spends at most [depth] units of clock. *)
Theorem dig_pile_spends_at_most_depth (s s' : Strategy.t) (p : Position) (depth : Z) :
  Strategy.dig_pile s p depth = Ok s' ->
  Strategy._time s <= Strategy._time s' <= Strategy._time s + depth.
Proof.
  intros H. destruct (dig_pile_actions _ _ _ _ H) as (l & Ha & Hn).
  destruct (actions_inv _ _ _ Ha) as (Ht & _). unfold py_len in *. lia.
Qed.

(** X17.  [equilibrate_piles] keeps to its budget: it only moves
    containers (its lines are [MOVE] lines, the cash is unchanged), and
    the clock it spends plus the time it returns is at most the time it
    was given. *)
Theorem equilibrate_piles_keeps_budget (s : Strategy.t) (rem_time : Z)
    (big_pile small_pile : Position) (r : Strategy.t * Z) :
  Strategy.equilibrate_piles s rem_time big_pile small_pile = Ok r ->
  0 <= snd r
  /\ Strategy._time s <= Strategy._time (fst r)
  /\ Strategy._time (fst r) + snd r <= Strategy._time s + rem_time
  /\ Store.cash (Strategy._store (fst r)) = Store.cash (Strategy._store s)
  /\ exists l,
       Strategy._logger (fst r) = Strategy._logger s ++ l
       /\ Forall (fun x => is_move x = true) l.
Proof.
  intros H.
  destruct (equilibrate_piles_actions _ _ _ _ _ H) as (l & Ha & Hm & H0 & Hn & Hc).
  destruct (actions_inv _ _ _ Ha) as (Ht & Hl & _).
  unfold py_len in *. repeat split; try lia; eauto.
Qed.

Lemma dig_pile_spends_at_most_depth_witness :
  Strategy._time three_boxes
  <= Strategy._time (run_from three_boxes (Strategy.dig_pile three_boxes 0 2))
  <= Strategy._time three_boxes + 2.
Proof.
  apply (dig_pile_spends_at_most_depth three_boxes _ 0 2).
  vm_compute. reflexivity.
Defined.

Lemma equilibrate_piles_keeps_budget_witness :
  let r := run_from (three_boxes, 0) (Strategy.equilibrate_piles three_boxes 3 0 1) in
  0 <= snd r
  /\ Strategy._time three_boxes <= Strategy._time (fst r)
  /\ Strategy._time (fst r) + snd r <= Strategy._time three_boxes + 3
  /\ Store.cash (Strategy._store (fst r)) = Store.cash (Strategy._store three_boxes)
  /\ exists l,
       Strategy._logger (fst r) = Strategy._logger three_boxes ++ l
       /\ Forall (fun x => is_move x = true) l.
Proof.
  intros r.
  apply (equilibrate_piles_keeps_budget three_boxes 3 0 1 r).
  vm_compute. reflexivity.
Defined.

(** ** [sort_by_cost] *)

(** X18.  [sort_by_cost] loses and repeats nothing: its result is a
    permutation of its argument, the sellable containers first, and each
    of the two groups keeps the order of the argument. *)
Theorem sort_by_cost_stable_partition (s : Strategy.t) (l : list Container) :
  Strategy.sort_by_cost s l
  = List.filter (Strategy.valid_container s) l
    ++ List.filter (fun x => negb (Strategy.valid_container s x)) l
  /\ Permutation l (Strategy.sort_by_cost s l).
Proof.
  split; [apply sort_by_cost_partition|]. rewrite sort_by_cost_partition.
  induction l as [|x l IH]; simpl; [constructor|].
  destruct (Strategy.valid_container s x); simpl.
  - now constructor.
  - etransitivity; [apply perm_skip; exact IH | apply Permutation_middle].
Qed.

(** ** The designated piles *)

(** X19.  The piles tile the yard from column 0: for every size [k], the
    second pile starts [k] columns after the first, and the first pile of
    size [k + 1] starts [k] columns after the second pile of size [k]; a
    pile number other than 1 or 2 fails the assertion. *)
Theorem stack_positions_tile (k n : Z) :
  (exists a, Strategy.stack_position 1 k = Ok a
             /\ Strategy.stack_position 2 k = Ok (a + k)
             /\ Strategy.stack_position 1 (k + 1) = Ok (a + k + k))
  /\ Strategy.stack_position 1 1 = Ok 0
  /\ (n < 1 \/ 2 < n -> Strategy.stack_position n k = Raise AssertionError).
Proof.
  unfold Strategy.stack_position. split; [|split].
  - exists (k * (k - 1)). simpl. repeat split; f_equal; nia.
  - reflexivity.
  - intros Hn.
    replace ((n <=? 2) && (n >=? 1)) with false; [reflexivity|].
    symmetry. apply andb_false_iff. lia.
Qed.

Lemma better_pile_valid (s : Strategy.t) (pos : Position) (best pile : Pile)
    (depth : Z) :
  Strategy.better_pile s pos best depth = Ok pile ->
  pos < Store._width (Strategy._store s).
Proof.
  unfold Strategy.better_pile, Strategy.valid_position. intros H.
  destruct (pos <? Store._width (Strategy._store s)) eqn:E; [lia | discriminate].
Qed.

Lemma best_pile_inv (s : Strategy.t) (depth : Z) (pile : Pile) :
  Strategy.best_pile s depth = Ok pile ->
  16 < Store._width (Strategy._store s)
  /\ In (fst (fst pile)) [0; 1; 2; 4; 6; 9; 12; 16].
Proof.
  unfold Strategy.best_pile.
  change (py_range 1 5) with [1; 2; 3; 4]. intros H.
  destruct (py_assert (depth >=? 0)); simpl in H; [|discriminate].
  repeat match type of H with
  | bind (Strategy.better_pile ?s ?pos ?b ?d) _ = Ok _ =>
      let b' := fresh "b" in
      let Hb := fresh "Hb" in
      destruct (Strategy.better_pile s pos b d) as [b'|] eqn:Hb; simpl in H;
        [|discriminate]
  end.
  inversion H; subst pile; clear H.
  split; [apply better_pile_valid in Hb5; lia|].
  repeat match goal with
  | Hb : Strategy.better_pile _ _ _ _ = Ok _ |- _ =>
      apply better_pile_inv in Hb as [->|(sc & _ & ->)]; [|simpl; tauto]
  end.
  simpl. tauto.
Qed.

Lemma least_equilibrated_width (s : Strategy.t) (piles : list Position) :
  Strategy.least_equilibrated_pile s = Ok piles ->
  16 < Store._width (Strategy._store s).
Proof.
  unfold Strategy.least_equilibrated_pile.
  change (py_range 1 5) with [1; 2; 3; 4].
  generalize (-1) (@nil Position). intros m res H.
  cbn [Strategy.least_equilibrated_loop] in H.
  unfold Strategy.stack_position in H. simpl in H.
  repeat match type of H with
  | bind (Strategy.height_column ?s ?p) _ = Ok _ =>
      let h := fresh "h" in
      let Hh := fresh "Hh" in
      destruct (Strategy.height_column s p) as [h|] eqn:Hh; simpl in H;
        [|discriminate]
  | (if ?b then _ else _) = Ok _ => destruct b
  end;
  match goal with
  | Hh : Strategy.height_column _ (4 ^ 2) = Ok _ |- _ =>
      change (4 ^ 2) with 16 in Hh;
      unfold Strategy.height_column, Strategy.valid_position in Hh;
      destruct (16 <? Store._width (Strategy._store s)) eqn:E;
        [lia | discriminate]
  end.
Qed.

(** X20.  The idle loop of [exec] needs seventeen columns.  [best_pile]
    and [least_equilibrated_pile] assert that column 16 is a position of
    the yard, so they only return on yards wider than 16, and [best_pile]
    then names one of the eight pile columns; on a narrower yard, a call
    of the loop with time left and a container in the yard does not
    return. *)
Theorem idle_loop_needs_seventeen_columns (s : Strategy.t) :
  (forall depth pile,
      Strategy.best_pile s depth = Ok pile ->
      16 < Store.width (Strategy._store s)
      /\ In (fst (fst pile)) [0; 1; 2; 4; 6; 9; 12; 16])
  /\ (forall piles,
         Strategy.least_equilibrated_pile s = Ok piles ->
         16 < Store.width (Strategy._store s))
  /\ (Store.width (Strategy._store s) <= 16 ->
      forall fuel rem_time s',
        0 < rem_time -> Strategy.empty_store s = false ->
        Strategy.exec_loop fuel s rem_time <> Ok s').
Proof.
  split; [apply best_pile_inv|]. split; [apply least_equilibrated_width|].
  intros Hw fuel rem_time s' Hrem Hne H. unfold Store.width in Hw.
  destruct fuel as [|fuel]; simpl in H;
    replace (rem_time >? 0) with true in H by lia; rewrite Hne in H; simpl in H;
    [discriminate|].
  destruct (Strategy.best_pile s rem_time) as [best_p|e] eqn:Hb; simpl in H;
    [|discriminate].
  apply best_pile_inv in Hb as (Hb & _). lia.
Qed.

Lemma idle_loop_needs_seventeen_columns_witness :
  Strategy.exec_loop 5
    (run_from (Strategy.__init__ 4) (Strategy.intake (Strategy.__init__ 4) cheap_box))
    3
  <> Ok (Strategy.__init__ 4).
Proof.
  destruct (idle_loop_needs_seventeen_columns
              (run_from (Strategy.__init__ 4)
                 (Strategy.intake (Strategy.__init__ 4) cheap_box)))
    as (_ & _ & H).
  apply H.
  - vm_compute. discriminate.
  - lia.
  - vm_compute. reflexivity.
Defined.

(** ** Termination of the idle loop *)

Lemma exec_loop_enough (f1 : nat) :
  forall (f2 : nat) (s : Strategy.t) (rem_time : Z),
    (Z.to_nat rem_time <= f1)%nat -> (Z.to_nat rem_time <= f2)%nat ->
    Strategy.exec_loop f1 s rem_time = Strategy.exec_loop f2 s rem_time.
Proof.
  induction f1 as [|f1 IH]; intros f2 s rem_time H1 H2.
  - destruct f2; simpl; replace (rem_time >? 0) with false by lia; reflexivity.
  - destruct f2 as [|f2]; simpl.
    { replace (rem_time >? 0) with false by lia. reflexivity. }
    destruct ((rem_time >? 0) && negb (Strategy.empty_store s)) eqn:Hc;
      [|reflexivity].
    apply andb_true_iff in Hc as (Hrem & _).
    destruct (Strategy.best_pile s rem_time) as [best_p|e] eqn:Hbest; simpl;
      [|reflexivity].
    destruct (Qle_bool (snd (fst best_p)) Strategy.min_score) eqn:Hscore.
    + destruct (Strategy.least_equilibrated_pile s) as [piles|e] eqn:Hpiles; simpl;
        [|reflexivity].
      destruct (least_equilibrated_inv _ _ Hpiles)
        as [->|(big & small & hb & hs & -> & Hb & Hs & Hge)]; [reflexivity|].
      change (py_getitem [big; small] 0) with (Ok big).
      change (py_getitem [big; small] 1) with (Ok small). simpl.
      destruct (Strategy.equilibrate_piles s rem_time big small) as [r|e] eqn:He;
        simpl; [|reflexivity].
      assert (Hpos : 0 < rem_time) by lia.
      pose proof (equilibrate_piles_progress _ _ _ _ _ _ _ Hpos Hb Hs Hge He).
      apply IH; lia.
    + destruct (Strategy.dig_pile s (fst (fst best_p)) rem_time) as [s1|e] eqn:Hd;
        simpl; [|reflexivity].
      destruct (best_pile_progress _ _ _ Hbest) as [Hle|Hlt]; [congruence|].
      apply IH; lia.
Qed.

(** X21.  The idle loop of [exec] terminates: every turn leaves less time
    than it found, so [rem_time] turns are enough, whatever the yard.  In
    the model a larger budget of turns changes nothing, and the budget is
    never what ends the loop. *)
Theorem idle_loop_terminates (fuel : nat) (s : Strategy.t) (rem_time : Z) :
  (Z.to_nat rem_time <= fuel)%nat ->
  Strategy.exec_loop fuel s rem_time
  = Strategy.exec_loop (Z.to_nat rem_time) s rem_time
  /\ Strategy.exec_loop fuel s rem_time <> Raise OutOfFuel.
Proof.
  intros H. split; [apply exec_loop_enough; lia | now apply exec_loop_fuel].
Qed.

Lemma idle_loop_terminates_witness :
  Strategy.exec_loop 10 three_boxes 2
  = Strategy.exec_loop (Z.to_nat 2) three_boxes 2
  /\ Strategy.exec_loop 10 three_boxes 2 <> Raise OutOfFuel.
Proof. apply (idle_loop_terminates 10 three_boxes 2). vm_compute. lia. Defined.

(** ** The pair of piles to balance *)

Lemma least_equilibrated_loop_inv (s : Strategy.t) (sizes : list Z) :
  forall (m : Z) (res r : list Position) (big small hb hs : Z),
    res = [big; small] ->
    Strategy.height_column s big = Ok hb ->
    Strategy.height_column s small = Ok hs ->
    hb - hs = m -> 0 <= m ->
    Strategy.least_equilibrated_loop s m res sizes = Ok r ->
    exists big' small' hb' hs',
      r = [big'; small']
      /\ Strategy.height_column s big' = Ok hb'
      /\ Strategy.height_column s small' = Ok hs'
      /\ ((r = res /\ hb' - hs' = m)
          \/ exists l1 i l2,
               sizes = l1 ++ i :: l2
               /\ m < hb' - hs'
               /\ ((big' = i ^ 2 /\ small' = i * (i - 1) /\ hs' < hb')
                   \/ (big' = i * (i - 1) /\ small' = i ^ 2 /\ hs' <= hb'))
               /\ forall j h1 h2,
                    In j l1 ->
                    Strategy.height_column s (j * (j - 1)) = Ok h1 ->
                    Strategy.height_column s (j ^ 2) = Ok h2 ->
                    Z.abs (h2 - h1) < hb' - hs')
      /\ forall j h1 h2,
           In j sizes ->
           Strategy.height_column s (j * (j - 1)) = Ok h1 ->
           Strategy.height_column s (j ^ 2) = Ok h2 ->
           Z.abs (h2 - h1) <= hb' - hs'.
Proof.
  induction sizes as [|i sizes IH]; simpl;
    intros m res r big small hb hs Hres Hb Hs Hm Hm0 H.
  - inversion H; subst r. exists big, small, hb, hs.
    split; [exact Hres|]. split; [exact Hb|]. split; [exact Hs|].
    split; [left; split; [reflexivity | exact Hm]|]. intros j h1 h2 [].
  - unfold Strategy.stack_position in H. simpl in H.
    destruct (Strategy.height_column s (i ^ 2)) as [h2|e] eqn:E2; simpl in H;
      [|discriminate].
    destruct (Strategy.height_column s (i * (i - 1))) as [h1|e] eqn:E1; simpl in H;
      [|discriminate].
    assert (Hhere : forall j k1 k2,
      i = j ->
      Strategy.height_column s (j * (j - 1)) = Ok k1 ->
      Strategy.height_column s (j ^ 2) = Ok k2 ->
      Z.abs (k2 - k1) = Z.abs (h2 - h1)).
    { intros j k1 k2 <- Hk1 Hk2. rewrite E1 in Hk1. rewrite E2 in Hk2.
      inversion Hk1; inversion Hk2; subst. reflexivity. }
    destruct (m <? Z.abs (h2 - h1)) eqn:Hcmp.
    + assert (Hd0 : 0 <= Z.abs (h2 - h1)) by lia.
      cut (exists big1 small1 hb1 hs1,
        Strategy.least_equilibrated_loop s (Z.abs (h2 - h1)) [big1; small1] sizes
        = Ok r
        /\ Strategy.height_column s big1 = Ok hb1
        /\ Strategy.height_column s small1 = Ok hs1
        /\ hb1 - hs1 = Z.abs (h2 - h1)
        /\ ((big1 = i ^ 2 /\ small1 = i * (i - 1) /\ hs1 < hb1)
            \/ (big1 = i * (i - 1) /\ small1 = i ^ 2 /\ hs1 <= hb1))).
      2: { destruct (h2 - h1 >? 0) eqn:Hsign.
           - exists (i ^ 2), (i * (i - 1)), h2, h1.
             split; [exact H|]. split; [exact E2|]. split; [exact E1|].
             split; [lia|]. left. split; [reflexivity|]. split; [reflexivity | lia].
           - exists (i * (i - 1)), (i ^ 2), h1, h2.
             split; [exact H|]. split; [exact E1|]. split; [exact E2|].
             split; [lia|]. right. split; [reflexivity|]. split; [reflexivity | lia]. }
      intros (big1 & small1 & hb1 & hs1 & H1 & Hb1 & Hs1 & Hd1 & Hch1).
      destruct (IH _ _ _ big1 small1 hb1 hs1 eq_refl Hb1 Hs1 Hd1 Hd0 H1)
        as (b' & s' & hb' & hs' & Hr & Hb' & Hs' & Hwhere & Hmax).
      exists b', s', hb', hs'.
      split; [exact Hr|]. split; [exact Hb'|]. split; [exact Hs'|].
      split.
      * right. destruct Hwhere as [(Hsame & Hdiff)|(l1 & i' & l2 & Hsp & Hlt & Hch & Hstrict)].
        -- exists [], i, sizes. split; [reflexivity|]. split; [lia|].
           rewrite Hr in Hsame. inversion Hsame; subst b' s'.
           rewrite Hb1 in Hb'. rewrite Hs1 in Hs'.
           inversion Hb'; inversion Hs'; subst hb' hs'.
           split; [exact Hch1|]. intros j k1 k2 [].
        -- exists (i :: l1), i', l2. split; [now rewrite Hsp|]. split; [lia|].
           split; [exact Hch|].
           intros j k1 k2 [Hj|Hj] Hk1 Hk2; [|eauto].
           rewrite (Hhere j k1 k2 Hj Hk1 Hk2). lia.
      * intros j k1 k2 [Hj|Hj] Hk1 Hk2; [|eauto].
        rewrite (Hhere j k1 k2 Hj Hk1 Hk2).
        destruct Hwhere as [(_ & Hdiff)|(_ & _ & _ & _ & Hlt & _)]; lia.
    + destruct (IH _ _ _ big small hb hs Hres Hb Hs Hm Hm0 H)
        as (b' & s' & hb' & hs' & Hr & Hb' & Hs' & Hwhere & Hmax).
      exists b', s', hb', hs'.
      split; [exact Hr|]. split; [exact Hb'|]. split; [exact Hs'|].
      split.
      * destruct Hwhere as [Hsame|(l1 & i' & l2 & Hsp & Hlt & Hch & Hstrict)];
          [now left|].
        right. exists (i :: l1), i', l2. split; [now rewrite Hsp|].
        split; [exact Hlt|]. split; [exact Hch|].
        intros j k1 k2 [Hj|Hj] Hk1 Hk2; [|eauto].
        rewrite (Hhere j k1 k2 Hj Hk1 Hk2). lia.
      * intros j k1 k2 [Hj|Hj] Hk1 Hk2; [|eauto].
        rewrite (Hhere j k1 k2 Hj Hk1 Hk2).
        destruct Hwhere as [(_ & Hdiff)|(_ & _ & _ & _ & Hlt & _)]; lia.
Qed.

Lemma least_equilibrated_first (s : Strategy.t) (i : Z) (rest : list Z)
    (r : list Position) :
  Strategy.least_equilibrated_loop s (-1) [] (i :: rest) = Ok r ->
  exists big small hb hs l1 i' l2,
    r = [big; small]
    /\ Strategy.height_column s big = Ok hb
    /\ Strategy.height_column s small = Ok hs
    /\ i :: rest = l1 ++ i' :: l2
    /\ ((big = i' ^ 2 /\ small = i' * (i' - 1) /\ hs < hb)
        \/ (big = i' * (i' - 1) /\ small = i' ^ 2 /\ hs <= hb))
    /\ (forall j h1 h2,
          In j l1 ->
          Strategy.height_column s (j * (j - 1)) = Ok h1 ->
          Strategy.height_column s (j ^ 2) = Ok h2 ->
          Z.abs (h2 - h1) < hb - hs)
    /\ forall j h1 h2,
         In j (i :: rest) ->
         Strategy.height_column s (j * (j - 1)) = Ok h1 ->
         Strategy.height_column s (j ^ 2) = Ok h2 ->
         Z.abs (h2 - h1) <= hb - hs.
Proof.
  intros H. simpl in H. unfold Strategy.stack_position in H. simpl in H.
  destruct (Strategy.height_column s (i ^ 2)) as [h2|e] eqn:E2; simpl in H;
    [|discriminate].
  destruct (Strategy.height_column s (i * (i - 1))) as [h1|e] eqn:E1; simpl in H;
    [|discriminate].
  replace (-1 <? Z.abs (h2 - h1)) with true in H by lia.
  assert (Hd0 : 0 <= Z.abs (h2 - h1)) by lia.
  assert (Hhere : forall j k1 k2,
    i = j ->
    Strategy.height_column s (j * (j - 1)) = Ok k1 ->
    Strategy.height_column s (j ^ 2) = Ok k2 ->
    Z.abs (k2 - k1) = Z.abs (h2 - h1)).
  { intros j k1 k2 <- Hk1 Hk2. rewrite E1 in Hk1. rewrite E2 in Hk2.
    inversion Hk1; inversion Hk2; subst. reflexivity. }
  assert (Hnew : exists big1 small1 hb1 hs1,
    Strategy.least_equilibrated_loop s (Z.abs (h2 - h1)) [big1; small1] rest = Ok r
    /\ Strategy.height_column s big1 = Ok hb1
    /\ Strategy.height_column s small1 = Ok hs1
    /\ hb1 - hs1 = Z.abs (h2 - h1)
    /\ ((big1 = i ^ 2 /\ small1 = i * (i - 1) /\ hs1 < hb1)
        \/ (big1 = i * (i - 1) /\ small1 = i ^ 2 /\ hs1 <= hb1))).
  { destruct (h2 - h1 >? 0) eqn:Hsign.
    - exists (i ^ 2), (i * (i - 1)), h2, h1.
      split; [exact H|]. split; [exact E2|]. split; [exact E1|].
      split; [lia|]. left. split; [reflexivity|]. split; [reflexivity | lia].
    - exists (i * (i - 1)), (i ^ 2), h1, h2.
      split; [exact H|]. split; [exact E1|]. split; [exact E2|].
      split; [lia|]. right. split; [reflexivity|]. split; [reflexivity | lia]. }
  destruct Hnew as (big1 & small1 & hb1 & hs1 & H1 & Hb1 & Hs1 & Hd1 & Hch1).
  destruct (least_equilibrated_loop_inv s rest _ _ _ big1 small1 hb1 hs1
              eq_refl Hb1 Hs1 Hd1 Hd0 H1)
    as (b' & s' & hb' & hs' & Hr & Hb' & Hs' & Hwhere & Hmax).
  destruct Hwhere as [(Hsame & Hdiff)|(l1 & i' & l2 & Hsp & Hlt & Hch & Hstrict)].
  - rewrite Hr in Hsame. inversion Hsame; subst b' s'.
    rewrite Hb1 in Hb'. rewrite Hs1 in Hs'.
    inversion Hb'; inversion Hs'; subst hb' hs'.
    exists big1, small1, hb1, hs1, [], i, rest.
    split; [exact Hr|]. split; [exact Hb1|]. split; [exact Hs1|].
    split; [reflexivity|]. split; [exact Hch1|].
    split; [intros j k1 k2 []|].
    intros j k1 k2 [Hj|Hj] Hk1 Hk2; [|eauto].
    rewrite (Hhere j k1 k2 Hj Hk1 Hk2). lia.
  - exists b', s', hb', hs', (i :: l1), i', l2.
    split; [exact Hr|]. split; [exact Hb'|]. split; [exact Hs'|].
    split; [now rewrite Hsp|]. split; [exact Hch|].
    split.
    + intros j k1 k2 [Hj|Hj] Hk1 Hk2; [|eauto].
      rewrite (Hhere j k1 k2 Hj Hk1 Hk2). lia.
    + intros j k1 k2 [Hj|Hj] Hk1 Hk2; [|eauto].
      rewrite (Hhere j k1 k2 Hj Hk1 Hk2). lia.
Qed.

(** X22.  When [least_equilibrated_pile] returns, it returns the two
    piles of one size class from 1 to 4: the second pile of the class
    first when it is strictly the higher, the first pile first otherwise
    (also when the two are level).  No size class has a larger difference
    of heights between its two piles, and every class before the one
    returned has a smaller one. *)
Theorem least_equilibrated_pile_shape (s : Strategy.t) (piles : list Position) :
  Strategy.least_equilibrated_pile s = Ok piles ->
  exists i big small hb hs,
    1 <= i <= 4
    /\ piles = [big; small]
    /\ Strategy.height_column s big = Ok hb
    /\ Strategy.height_column s small = Ok hs
    /\ ((big = i ^ 2 /\ small = i * (i - 1) /\ hs < hb)
        \/ (big = i * (i - 1) /\ small = i ^ 2 /\ hs <= hb))
    /\ (forall j h1 h2,
          1 <= j <= 4 ->
          Strategy.height_column s (j * (j - 1)) = Ok h1 ->
          Strategy.height_column s (j ^ 2) = Ok h2 ->
          Z.abs (h2 - h1) <= hb - hs)
    /\ (forall j h1 h2,
          1 <= j < i ->
          Strategy.height_column s (j * (j - 1)) = Ok h1 ->
          Strategy.height_column s (j ^ 2) = Ok h2 ->
          Z.abs (h2 - h1) < hb - hs).
Proof.
  unfold Strategy.least_equilibrated_pile.
  change (py_range 1 5) with [1; 2; 3; 4]. intros H.
  destruct (least_equilibrated_first _ _ _ _ H)
    as (big & small & hb & hs & l1 & i & l2 & Hr & Hb & Hs & Hsp & Hch
        & Hstrict & Hmax).
  exists i, big, small, hb, hs.
  assert (Hi : 1 <= i <= 4 /\ forall j, 1 <= j < i -> In j l1).
  { destruct l1 as [|a1 [|a2 [|a3 [|a4 l1]]]]; simpl in Hsp;
      inversion Hsp; subst; simpl.
    - split; [lia|]. intros j Hj. lia.
    - split; [lia|]. intros j Hj. lia.
    - split; [lia|]. intros j Hj. lia.
    - split; [lia|]. intros j Hj. lia.
    - destruct l1; discriminate. }
  destruct Hi as (Hi & Hbefore).
  split; [exact Hi|]. split; [exact Hr|]. split; [exact Hb|]. split; [exact Hs|].
  split; [exact Hch|]. split.
  - intros j h1 h2 Hj. apply Hmax. simpl. lia.
  - intros j h1 h2 Hj. apply Hstrict. now apply Hbefore.
Qed.

Lemma least_equilibrated_pile_shape_witness :
  exists i big small hb hs,
    1 <= i <= 4
    /\ run_from [] (Strategy.least_equilibrated_pile three_boxes) = [big; small]
    /\ Strategy.height_column three_boxes big = Ok hb
    /\ Strategy.height_column three_boxes small = Ok hs
    /\ ((big = i ^ 2 /\ small = i * (i - 1) /\ hs < hb)
        \/ (big = i * (i - 1) /\ small = i ^ 2 /\ hs <= hb))
    /\ (forall j h1 h2,
          1 <= j <= 4 ->
          Strategy.height_column three_boxes (j * (j - 1)) = Ok h1 ->
          Strategy.height_column three_boxes (j ^ 2) = Ok h2 ->
          Z.abs (h2 - h1) <= hb - hs)
    /\ (forall j h1 h2,
          1 <= j < i ->
          Strategy.height_column three_boxes (j * (j - 1)) = Ok h1 ->
          Strategy.height_column three_boxes (j ^ 2) = Ok h2 ->
          Z.abs (h2 - h1) < hb - hs).
Proof.
  apply (least_equilibrated_pile_shape three_boxes). vm_compute. reflexivity.
Defined.

(** ** The other pile of a size class *)

Lemma move_container_location (s s' : Strategy.t) (c : Container) (p : Position) :
  Strategy.move_container s c p = Ok s' ->
  exists h, Store.location (Strategy._store s') c = Some (h, p).
Proof.
  unfold Strategy.move_container. intros H.
  destruct (Store.can_move (Strategy._store s) c p) as [b|e] eqn:Hc; simpl in H;
    [|discriminate].
  destruct b; simpl in H; [|discriminate].
  destruct (Store.move (Strategy._store s) c p) as [store|e] eqn:Hm; simpl in H;
    [|discriminate].
  injection H as <-. simpl.
  destruct (move_cases _ _ _ _ Hm) as [(Hf & _)|(_ & s1 & _ & Ha)]; [congruence|].
  destruct (add_location _ _ _ _ Ha) as (h & _ & Hl). now exists h.
Qed.

(** X23.  The two piles of a size class alternate: for a container of
    size other than 0 lying in one of its two piles, [adjacent_stack]
    names the other pile, and once [move_container] has carried the
    container there, [adjacent_stack] names the pile it came from. *)
Theorem adjacent_stack_alternates (s s' : Strategy.t) (c : Container)
    (h : Z) (p p_2 : Position) :
  size c <> 0 ->
  Store.location (Strategy._store s) c = Some (h, p) ->
  p = size c * (size c - 1) \/ p = size c ^ 2 ->
  Strategy.adjacent_stack s c = Ok p_2 ->
  Strategy.move_container s c p_2 = Ok s' ->
  p_2 <> p
  /\ (p_2 = size c * (size c - 1) \/ p_2 = size c ^ 2)
  /\ Strategy.adjacent_stack s' c = Ok p.
Proof.
  intros Hsize Hloc Hp Hadj Hmove.
  destruct (move_container_location _ _ _ _ Hmove) as (h' & Hloc').
  unfold Strategy.adjacent_stack, Store.location, Location, Position in *.
  rewrite Hloc in Hadj. rewrite Hloc'. simpl in *.
  destruct (p =? size c ^ 2) eqn:E; injection Hadj as <-.
  - apply Z.eqb_eq in E.
    replace (size c * (size c - 1) =? size c ^ 2) with false by nia.
    split; [nia|]. split; [now left|]. now rewrite E.
  - apply Z.eqb_neq in E. rewrite Z.eqb_refl.
    destruct Hp as [Hp|Hp]; [|contradiction].
    split; [nia|]. split; [now right|]. now rewrite Hp.
Qed.

Lemma adjacent_stack_alternates_witness :
  1 <> 0
  /\ (1 <> 0
      /\ (1 = 1 * (1 - 1) \/ 1 = 1 ^ 2)
      /\ Strategy.adjacent_stack
           (run_from three_boxes (Strategy.move_container three_boxes top_box 1))
           top_box = Ok 0).
Proof.
  split; [discriminate|].
  apply (adjacent_stack_alternates three_boxes
           (run_from three_boxes (Strategy.move_container three_boxes top_box 1))
           top_box 1 0 1).
  - vm_compute. discriminate.
  - vm_compute. reflexivity.
  - left. vm_compute. reflexivity.
  - vm_compute. reflexivity.
  - vm_compute. reflexivity.
Defined.

(** ** The loops of the simple strategy *)

Lemma simple_evaluate_container_inv (s s' : Simple.t) (c : Container)
    (p_2 : Position) :
  Simple.evaluate_container s c p_2 = Ok s' ->
  Store._width (Strategy._store s') = Store._width (Strategy._store s)
  /\ Strategy._time s <= Strategy._time s' <= Strategy._time s + 1.
Proof.
  intros H.
  destruct (evaluate_container_actions s s' c p_2 H) as (l & Hl & Hlen).
  destruct (actions_inv _ _ _ Hl) as (Ht & _ & _ & Hw & _).
  split; [exact Hw|]. unfold py_len in Ht. lia.
Qed.

Lemma simple_transfer_loop_width (fuel : nat) :
  forall (s s' : Simple.t) (p_1 p_2 : Position) (time_limit : Z),
    Simple.transfer_loop fuel s p_1 p_2 time_limit = Ok s' ->
    Store._width (Strategy._store s') = Store._width (Strategy._store s).
Proof.
  induction fuel as [|fuel IH]; simpl; intros s s' p_1 p_2 time_limit H.
  - destruct (Store.empty (Strategy._store s) p_1) as [e|err]; simpl in H;
      [|discriminate].
    destruct (negb e && (time_limit >? Strategy._time s)); [discriminate|].
    now inversion H.
  - destruct (Store.empty (Strategy._store s) p_1) as [e|err]; simpl in H;
      [|discriminate].
    destruct (negb e && (time_limit >? Strategy._time s)); [|now inversion H].
    destruct (py_getitem (Store._storage (Strategy._store s)) p_1) as [col|err];
      simpl in H; [|discriminate].
    destruct (py_getitem col (-1)) as [c|err]; simpl in H; [|discriminate].
    destruct (Simple.evaluate_container s c p_2) as [s1|err] eqn:He; simpl in H;
      [|discriminate].
    apply IH in H. apply simple_evaluate_container_inv in He as (Hw & _).
    congruence.
Qed.

Lemma simple_transfer_inv (fuel : nat) (s s' : Simple.t) (p_1 p_2 : Position)
    (time_limit : Z) :
  Simple.transfer fuel s p_1 p_2 time_limit = Ok s' ->
  p_1 < Store._width (Strategy._store s)
  /\ p_2 < Store._width (Strategy._store s)
  /\ Store._width (Strategy._store s') = Store._width (Strategy._store s).
Proof.
  unfold Simple.transfer, Simple.valid_position. intros H.
  destruct (p_1 <? Store._width (Strategy._store s)) eqn:H1; simpl in H;
    [|discriminate].
  destruct (p_2 <? Store._width (Strategy._store s)) eqn:H2; simpl in H;
    [|discriminate].
  apply simple_transfer_loop_width in H.
  split; [lia|]. split; [lia|]. rewrite H. now destruct (Simple.empty_store s).
Qed.

Lemma simple_exec_for_width (fuel : nat) (time_limit : Z) (widths : list Z) :
  forall s s' : Simple.t,
    Simple.exec_for fuel s time_limit widths = Ok s' ->
    Forall (fun i => i ^ 2 < Store._width (Strategy._store s)) widths.
Proof.
  induction widths as [|i widths IH]; simpl; intros s s' H; [constructor|].
  unfold Simple.stack_position, Strategy.stack_position in H. simpl in H.
  destruct (Simple.transfer fuel s (i * (i - 1)) (i ^ 2) time_limit)
    as [s1|err] eqn:H1; simpl in H; [|discriminate].
  destruct (Simple.transfer fuel s1 (i ^ 2) (i * (i - 1)) time_limit)
    as [s2|err] eqn:H2; simpl in H; [|discriminate].
  apply simple_transfer_inv in H1 as (_ & Hi & Hw1).
  apply simple_transfer_inv in H2 as (_ & _ & Hw2).
  constructor; [exact Hi|].
  apply IH in H. rewrite Hw2, Hw1 in H. exact H.
Qed.

Lemma simple_add_container_inv (s s' : Simple.t) (c : Container) (p : Position) :
  Simple.add_container s c p = Ok s' ->
  Store._width (Strategy._store s') = Store._width (Strategy._store s)
  /\ Strategy._time s' = Strategy._time s + 1.
Proof.
  unfold Simple.add_container. intros H.
  destruct (Store.add (Strategy._store s) c p) as [store|err] eqn:Ha; simpl in H;
    [|discriminate].
  injection H as <-. simpl.
  apply add_fields in Ha as (_ & Hw & _). split; [exact Hw | reflexivity].
Qed.

(** X24.  The simple strategy needs seventeen columns as well: each pass
    of the loop of [exec] calls [transfer] on column 16, which asserts
    that it is a position of the yard.  On a yard of width at most 16, a
    call of [exec] for a container whose arrival window ends more than one
    unit after the clock never returns normally. *)
Theorem simple_exec_needs_seventeen_columns (s : Simple.t) (c : Container) :
  Store._width (Strategy._store s) <= 16 ->
  Strategy._time s + 1 < end_ (arrival c) ->
  forall (fuel : nat) (s' : Simple.t), Simple.exec fuel s c <> Ok s'.
Proof.
  intros Hw Ht fuel s' H. unfold Simple.exec in H.
  destruct (Simple.stack_position 1 (size c)) as [pos_1|err]; simpl in H;
    [|discriminate].
  destruct (Store.can_add (Strategy._store s) c pos_1) as [b|err]; simpl in H;
    [|discriminate].
  destruct (if b && negb (Simple.expired_container s c)
            then Simple.add_container s c pos_1 else Ok s) as [s1|err] eqn:H1;
    simpl in H; [|discriminate].
  assert (Hs1 : Store._width (Strategy._store s1) <= 16
                /\ Strategy._time s1 < end_ (arrival c)).
  { destruct (b && negb (Simple.expired_container s c)).
    - apply simple_add_container_inv in H1 as (Hw1 & Ht1). lia.
    - injection H1 as <-. lia. }
  destruct Hs1 as (Hw1 & Ht1).
  destruct fuel as [|fuel]; cbn [Simple.exec_loop] in H;
    replace (Strategy._time s1 <? end_ (arrival c)) with true in H by lia;
    cbv iota in H; [discriminate|].
  destruct (Simple.exec_for fuel s1 (end_ (arrival c)) (py_range 1 5))
    as [s2|err] eqn:H2; cbn [bind] in H; [|discriminate].
  apply simple_exec_for_width in H2.
  change (py_range 1 5) with [1; 2; 3; 4] in H2.
  rewrite !Forall_cons in H2. lia.
Qed.

Lemma simple_exec_needs_seventeen_columns_witness :
  Simple.exec 5 (Simple.__init__ 16) small_box <> Ok (Simple.__init__ 16).
Proof.
  apply (simple_exec_needs_seventeen_columns (Simple.__init__ 16) small_box).
  - vm_compute. discriminate.
  - vm_compute. reflexivity.
Defined.

Lemma simple_transfer_loop_idle (fuel : nat) (s : Simple.t) (p_1 p_2 : Position)
    (time_limit : Z) :
  Store.empty (Strategy._store s) p_1 = Ok true ->
  Simple.transfer_loop fuel s p_1 p_2 time_limit = Ok s.
Proof.
  intros He. destruct fuel; cbn [Simple.transfer_loop]; rewrite He; reflexivity.
Qed.

Lemma simple_transfer_idle (fuel : nat) (s : Simple.t) (p_1 p_2 : Position)
    (time_limit : Z) :
  p_1 < Store._width (Strategy._store s) ->
  p_2 < Store._width (Strategy._store s) ->
  Store.empty (Strategy._store s) p_1 = Ok true ->
  Simple.transfer fuel s p_1 p_2 time_limit
  = Ok (if Simple.empty_store s then Simple.update_time s else s).
Proof.
  intros H1 H2 He. unfold Simple.transfer, Simple.valid_position.
  replace (p_1 <? Store._width (Strategy._store s)) with true by lia.
  replace (p_2 <? Store._width (Strategy._store s)) with true by lia.
  simpl. apply simple_transfer_loop_idle.
  destruct (Simple.empty_store s); exact He.
Qed.

Lemma simple_exec_for_idle (fuel : nat) (s : Simple.t) (time_limit : Z) :
  16 < Store._width (Strategy._store s) ->
  (forall p, In p [0; 1; 2; 4; 6; 9; 12; 16] ->
             Store.empty (Strategy._store s) p = Ok true) ->
  Simple.exec_for fuel s time_limit [1; 2; 3; 4]
  = Ok (if Simple.empty_store s
        then {| Strategy._store := Strategy._store s;
                Strategy._logger := Strategy._logger s;
                Strategy._time := Strategy._time s + 8 |}
        else s).
Proof.
  intros Hw He.
  assert (Hstep : forall (s1 : Simple.t) p_1 p_2,
    Strategy._store s1 = Strategy._store s ->
    In p_1 [0; 1; 2; 4; 6; 9; 12; 16] -> In p_2 [0; 1; 2; 4; 6; 9; 12; 16] ->
    Simple.transfer fuel s1 p_1 p_2 time_limit
    = Ok (if Simple.empty_store s then Simple.update_time s1 else s1)).
  { intros s1 p_1 p_2 Hs1 Hp1 Hp2.
    rewrite simple_transfer_idle.
    - unfold Simple.empty_store. now rewrite Hs1.
    - rewrite Hs1. simpl in Hp1. lia.
    - rewrite Hs1. simpl in Hp2. lia.
    - rewrite Hs1. now apply He. }
  change (Simple.exec_for fuel s time_limit [1; 2; 3; 4])
    with (s1 <- Simple.transfer fuel s 0 1 time_limit ;;
          s2 <- Simple.transfer fuel s1 1 0 time_limit ;;
          s3 <- Simple.transfer fuel s2 2 4 time_limit ;;
          s4 <- Simple.transfer fuel s3 4 2 time_limit ;;
          s5 <- Simple.transfer fuel s4 6 9 time_limit ;;
          s6 <- Simple.transfer fuel s5 9 6 time_limit ;;
          s7 <- Simple.transfer fuel s6 12 16 time_limit ;;
          s8 <- Simple.transfer fuel s7 16 12 time_limit ;;
          Ok s8).
  destruct (Simple.empty_store s) eqn:Hempty.
  - repeat (rewrite Hstep
      by (try reflexivity; simpl; repeat (first [left; reflexivity | right]));
      cbn [bind]).
    unfold Simple.update_time, Strategy.update_time. simpl.
    do 2 f_equal. lia.
  - repeat (rewrite Hstep
      by (try reflexivity; simpl; repeat (first [left; reflexivity | right]));
      cbn [bind]). reflexivity.
Qed.

(** X25.  The loop of [exec] can spin for ever.  When the yard holds a
    container, none of the eight pile columns of sizes 1 to 4 holds one and
    the clock is before the end of the arrival window, no [transfer] finds
    anything to do, the clock stands still and the loop never ends: the
    model runs out of turns whatever number it is given. *)
Theorem simple_exec_hangs_on_idle_piles (s : Simple.t) (c : Container) :
  Simple.empty_store s = false ->
  16 < Store._width (Strategy._store s) ->
  (forall p, In p [0; 1; 2; 4; 6; 9; 12; 16] ->
             Store.empty (Strategy._store s) p = Ok true) ->
  Strategy._time s < end_ (arrival c) ->
  forall fuel : nat, Simple.exec_loop fuel s c = Raise OutOfFuel.
Proof.
  intros Hne Hw He Ht fuel.
  induction fuel as [|fuel IH]; cbn [Simple.exec_loop];
    replace (Strategy._time s <? end_ (arrival c)) with true by lia;
    cbv iota; [reflexivity|].
  change (py_range 1 5) with [1; 2; 3; 4].
  rewrite simple_exec_for_idle by assumption. rewrite Hne. cbn [bind]. exact IH.
Qed.

Lemma simple_exec_hangs_on_idle_piles_witness :
  Simple.exec 50 (Simple.__init__ 30) five_box = Raise OutOfFuel.
Proof.
  change (Simple.exec 50 (Simple.__init__ 30) five_box)
    with (Simple.exec_loop 50 idle_yard five_box).
  apply (simple_exec_hangs_on_idle_piles idle_yard five_box).
  - vm_compute. reflexivity.
  - vm_compute. reflexivity.
  - intros p Hp. simpl in Hp.
    repeat (destruct Hp as [<-|Hp]; [vm_compute; reflexivity|]).
    destruct Hp.
  - vm_compute. reflexivity.
Defined.

(** X26.  On an empty yard the clock of the simple strategy runs in steps
    of eight: every [transfer] on an empty store adds one unit and logs
    nothing, and a pass of the loop of [exec] makes eight of them without
    looking at the clock.  The loop ends with the yard and the log as they
    were and the clock at the first of [time], [time + 8], [time + 16],
    ... that is not before the end of the arrival window, up to seven
    units after it. *)
Theorem simple_empty_yard_ticks_by_eight (s : Simple.t) (c : Container)
    (fuel : nat) :
  Simple.empty_store s = true ->
  16 < Store._width (Strategy._store s) ->
  (forall p, In p [0; 1; 2; 4; 6; 9; 12; 16] ->
             Store.empty (Strategy._store s) p = Ok true) ->
  (Z.to_nat (end_ (arrival c) - Strategy._time s) <= fuel)%nat ->
  exists k : Z,
    0 <= k
    /\ Simple.exec_loop fuel s c
       = Ok {| Strategy._store := Strategy._store s;
               Strategy._logger := Strategy._logger s;
               Strategy._time := Strategy._time s + 8 * k |}
    /\ end_ (arrival c) <= Strategy._time s + 8 * k
    /\ (k = 0 \/ Strategy._time s + 8 * k < end_ (arrival c) + 8).
Proof.
  revert s.
  induction fuel as [|fuel IH]; intros s Hempty Hw He Hfuel;
    cbn [Simple.exec_loop].
  - replace (Strategy._time s <? end_ (arrival c)) with false by lia.
    exists 0. split; [lia|]. split; [|split; [lia | now left]].
    destruct s; simpl. do 2 f_equal. lia.
  - destruct (Strategy._time s <? end_ (arrival c)) eqn:Hlt.
    + change (py_range 1 5) with [1; 2; 3; 4].
      rewrite simple_exec_for_idle by assumption. rewrite Hempty. cbn [bind].
      destruct (IH {| Strategy._store := Strategy._store s;
                      Strategy._logger := Strategy._logger s;
                      Strategy._time := Strategy._time s + 8 |})
        as (k & Hk & Hr & Hend & Hlast);
        [exact Hempty | exact Hw | exact He | simpl; lia |].
      simpl in Hr, Hend, Hlast. rewrite Hr.
      exists (k + 1). split; [lia|]. split; [do 2 f_equal; lia|].
      split; [lia|]. right. lia.
    + exists 0. split; [lia|]. split; [|split; [lia | now left]].
      destruct s; simpl. do 2 f_equal. lia.
Qed.

Lemma simple_empty_yard_ticks_by_eight_witness :
  exists k : Z,
    0 <= k
    /\ Simple.exec_loop 5 (Simple.__init__ 20) small_box
       = Ok {| Strategy._store := Strategy._store (Simple.__init__ 20);
               Strategy._logger := Strategy._logger (Simple.__init__ 20);
               Strategy._time := Strategy._time (Simple.__init__ 20) + 8 * k |}
    /\ end_ (arrival small_box) <= Strategy._time (Simple.__init__ 20) + 8 * k
    /\ (k = 0
        \/ Strategy._time (Simple.__init__ 20) + 8 * k
           < end_ (arrival small_box) + 8).
Proof.
  apply (simple_empty_yard_ticks_by_eight (Simple.__init__ 20) small_box 5).
  - vm_compute. reflexivity.
  - vm_compute. reflexivity.
  - intros p Hp. simpl in Hp.
    repeat (destruct Hp as [<-|Hp]; [vm_compute; reflexivity|]).
    destruct Hp.
  - vm_compute. lia.
Defined.

(** ** What [move] does *)

(** X27.  A moved container is on top at its new place.  On a yard in
    shape, when [move] carries a container of positive size to a column
    [p >= 0], the container is recorded at column [p], [can_remove] holds
    for it again, the yard is still in shape, and the cash and the width
    are the ones before. *)
Theorem moved_container_on_top (s s' : Store.t) (c : Container) (p : Position) :
  well_formed s -> 0 <= p -> 0 < size c ->
  Store.can_move s c p = Ok true ->
  Store.move s c p = Ok s' ->
  (exists h, Store.location s' c = Some (h, p))
  /\ Store.can_remove s' c = Ok true
  /\ well_formed s'
  /\ Store._cash s' = Store._cash s
  /\ Store._width s' = Store._width s.
Proof.
  intros Hwf Hp Hsize Hc H.
  destruct (move_cases _ _ _ _ H) as [(Hf & _)|(_ & s1 & Hr & Ha)];
    [congruence|].
  assert (Hwf1 : well_formed s1) by now apply (remove_well_formed s s1 c).
  split.
  { destruct (add_location _ _ _ _ Ha) as (h & _ & Hl). now exists h. }
  split; [now apply (add_can_remove s1 s' c p)|].
  split; [now apply (add_well_formed s1 s' c p)|].
  split; [now apply (move_cash s s' c p)|].
  apply add_fields in Ha as (_ & Hw1 & _).
  apply remove_fields in Hr as (_ & Hw2 & _). congruence.
Qed.

Lemma moved_container_on_top_witness :
  (exists h,
     Store.location
       (run_from (Strategy._store three_boxes)
          (Store.move (Strategy._store three_boxes) top_box 1))
       top_box = Some (h, 1))
  /\ Store.can_remove
       (run_from (Strategy._store three_boxes)
          (Store.move (Strategy._store three_boxes) top_box 1))
       top_box = Ok true
  /\ well_formed
       (run_from (Strategy._store three_boxes)
          (Store.move (Strategy._store three_boxes) top_box 1))
  /\ Store._cash
       (run_from (Strategy._store three_boxes)
          (Store.move (Strategy._store three_boxes) top_box 1))
     = Store._cash (Strategy._store three_boxes)
  /\ Store._width
       (run_from (Strategy._store three_boxes)
          (Store.move (Strategy._store three_boxes) top_box 1))
     = Store._width (Strategy._store three_boxes).
Proof.
  apply (moved_container_on_top (Strategy._store three_boxes)
           (run_from (Strategy._store three_boxes)
              (Store.move (Strategy._store three_boxes) top_box 1))
           top_box 1).
  - vm_compute. reflexivity.
  - lia.
  - vm_compute. reflexivity.
  - vm_compute. reflexivity.
  - vm_compute. reflexivity.
Defined.

(** ** Eviction of expired containers *)








(** ** The index and the columns of tidy yards *)

Lemma init_column (width : Z) (i : nat) (col : list Container) :
  Store._storage (Store.__init__ width) !! i = Some col -> col = [].
Proof.
  unfold Store.__init__. cbn [Store._storage].
  generalize (py_range 0 width). intros l. revert i.
  induction l as [|x l IH]; intros [|i] H; simpl in H; try discriminate.
  - now inversion H.
  - eauto.
Qed.

Lemma recorded_init (width : Z) : recorded (Store.__init__ width).
Proof.
  split; [apply init_well_formed|]. split; [constructor|]. split.
  - intros c [].
  - intros i j col c Hcol Hc. apply init_column in Hcol. subst col.
    destruct j; discriminate.
Qed.

Lemma py_list_remove_NoDup (c : Container) (l : list Container) :
  forall l',
    NoDup (List.map identifier l) -> py_list_remove c l = Ok l' ->
    In c l
    /\ NoDup (List.map identifier l')
    /\ forall x, In x l' <-> In x l /\ identifier x <> identifier c.
Proof.
  induction l as [|x l IH]; simpl; intros l' Hnd H; [discriminate|].
  apply NoDup_cons in Hnd as (Hx & Hnd).
  destruct (decide (x = c)) as [->|Hne].
  - inversion H; subst l'. split; [now left|]. split; [exact Hnd|].
    intros y. split.
    + intros Hy. split; [now right|]. intros Heq. apply Hx.
      rewrite <- Heq. apply list_elem_of_In. now apply in_map.
    + intros ([->|Hy] & Hid); [contradiction | exact Hy].
  - destruct (py_list_remove c l) as [r|e] eqn:Hr; simpl in H; [|discriminate].
    inversion H; subst l'. destruct (IH r Hnd eq_refl) as (Hin & Hnd' & Hiff).
    split; [now right|]. split.
    + simpl. apply NoDup_cons. split; [|exact Hnd'].
      intros Hmem. apply Hx. apply list_elem_of_In in Hmem.
      apply in_map_iff in Hmem as (y & Hy & Hyr). apply Hiff in Hyr as (Hyl & _).
      apply list_elem_of_In. rewrite <- Hy. now apply in_map.
    + intros y. simpl. rewrite Hiff. split.
      * intros [->|(Hy & Hid)]; [|split; [now right | exact Hid]].
        split; [now left|]. intros Heq. apply Hx.
        rewrite Heq. apply list_elem_of_In. now apply in_map.
      * intros ([->|Hy] & Hid); [now left | right; now split].
Qed.

Lemma add_storage (s s' : Store.t) (c : Container) (p : Position) :
  well_formed s -> 0 <= p -> Store.add s c p = Ok s' ->
  exists h,
    0 <= h
    /\ Store._map s' = <[identifier c := (h, p)]> (Store._map s)
    /\ Store._containers s' = Store._containers s ++ [c]
    /\ (forall k : nat,
          Store._storage s' !! k
          = if bool_decide (p <= Z.of_nat k < p + size c)
            then (fun col => col ++ [c]) <$> Store._storage s !! k
            else Store._storage s !! k)
    /\ forall k : nat,
         p <= Z.of_nat k < p + size c ->
         exists col, Store._storage s !! k = Some col /\ py_len col = h.
Proof.
  intros Hwf Hp H.
  destruct (add_fields _ _ _ _ H) as (Hc & _ & _ & Hcont & (h & Hh & Hm) & Hst).
  destruct (can_add_true_inv _ _ _ Hwf Hp Hc) as (Hlt & Hfit & Hlevel).
  rewrite height_column_wf in Hh by assumption.
  replace (p <? Store._width s) with true in Hh by lia.
  injection Hh as Hh.
  exists h. split; [subst h; unfold column_height, py_len; lia|].
  split; [exact Hm|]. split; [exact Hcont|]. split.
  - intros k. apply (add_loop_lookup c _ p (p + size c) _ _ k eq_refl Hp Hst).
  - intros k Hk.
    unfold level in Hlevel. rewrite forallb_forall in Hlevel.
    specialize (Hlevel (Z.of_nat k) (proj2 (In_py_range _ _ _) Hk)).
    apply Z.eqb_eq in Hlevel. rewrite Hh in Hlevel.
    unfold column_height in Hlevel at 1. rewrite Nat2Z.id in Hlevel.
    destruct (Store._storage s !! k) as [col|] eqn:Ecol.
    + exists col. split; [reflexivity | exact Hlevel].
    + apply lookup_ge_None_1 in Ecol. unfold well_formed in Hwf.
      specialize (Hfit ltac:(lia)). lia.
Qed.

Lemma recorded_add (s s' : Store.t) (c : Container) (p : Position) :
  recorded s -> 0 <= p -> Store.location s c = None ->
  Store.add s c p = Ok s' -> recorded s'.
Proof.
  intros (Hwf & Hnd & Hcont & Hcell) Hp Hfresh H.
  destruct (add_storage _ _ _ _ Hwf Hp H) as (h & Hh & Hm & Hcs & Hst & Hcols).
  assert (Hother : forall x, In x (Store._containers s) -> identifier x <> identifier c).
  { intros x Hx Heq. destruct (Hcont x Hx) as (hx & px & Hmx & _).
    unfold Store.location in Hfresh. rewrite Heq in Hmx.
    unfold Location, Position in Hfresh, Hmx. rewrite Hfresh in Hmx. discriminate. }
  split; [now apply (add_well_formed s s' c p)|]. split; [|split].
  - rewrite Hcs, map_app. simpl. apply NoDup_app. split; [exact Hnd|]. split.
    + intros i Hi Hi'. apply list_elem_of_In in Hi.
      apply in_map_iff in Hi as (x & Hx & Hxin).
      apply list_elem_of_In in Hi'. destruct Hi' as [Hi'|[]].
      apply (Hother x Hxin). congruence.
    + apply NoDup_singleton.
  - intros x Hx. rewrite Hcs in Hx. apply in_app_or in Hx as [Hx|[<-|[]]].
    + destruct (Hcont x Hx) as (hx & px & Hmx & Hhx & Hpx & Hcellx).
      exists hx, px. rewrite Hm, lookup_insert_ne by (intros E; apply (Hother x Hx); auto).
      split; [exact Hmx|]. split; [exact Hhx|]. split; [exact Hpx|].
      intros i Hi. destruct (Hcellx i Hi) as (col & Hcol & Hc).
      rewrite Hst, Hcol. cbn [fmap option_fmap option_map].
      destruct (bool_decide (p <= Z.of_nat (Z.to_nat i) < p + size c)).
      * exists (col ++ [c]). split; [reflexivity|].
        rewrite lookup_app_l; [exact Hc|]. now apply lookup_lt_Some in Hc.
      * exists col. split; [reflexivity | exact Hc].
    + exists h, p. rewrite Hm, lookup_insert_eq.
      split; [reflexivity|]. split; [exact Hh|]. split; [exact Hp|].
      intros i Hi.
      assert (Hk : p <= Z.of_nat (Z.to_nat i) < p + size c) by lia.
      destruct (Hcols _ Hk) as (col & Hcol & Hlen).
      rewrite Hst, Hcol, bool_decide_eq_true_2 by exact Hk.
      exists (col ++ [c]). split; [reflexivity|].
      replace (Z.to_nat h) with (length col) by (unfold py_len in Hlen; lia).
      apply list_lookup_middle. reflexivity.
  - intros i j col x Hcol Hx. rewrite Hst in Hcol.
    assert (Hold : forall col0, Store._storage s !! i = Some col0 ->
              col0 !! j = Some x ->
              In x (Store._containers s')
              /\ exists px, Store._map s' !! identifier x = Some (Z.of_nat j, px)
                            /\ px <= Z.of_nat i < px + size x).
    { intros col0 Hcol0 Hx0. destruct (Hcell i j col0 x Hcol0 Hx0) as (Hin & px & Hmx & Hpx).
      split; [rewrite Hcs; apply in_or_app; now left|].
      exists px. rewrite Hm, lookup_insert_ne by (intros E; apply (Hother x Hin); auto).
      split; assumption. }
    destruct (bool_decide (p <= Z.of_nat i < p + size c)) eqn:Hin.
    + apply bool_decide_eq_true in Hin.
      destruct (Hcols _ Hin) as (col0 & Hcol0 & Hlen).
      rewrite Hcol0 in Hcol. cbn [fmap option_fmap option_map] in Hcol.
      injection Hcol as <-.
      destruct (decide (j < length col0)%nat) as [Hj|Hj].
      * rewrite lookup_app_l in Hx by exact Hj. now apply (Hold col0).
      * assert (Hjl : j = length col0).
        { apply lookup_lt_Some in Hx. rewrite length_app in Hx. simpl in Hx. lia. }
        subst j. rewrite list_lookup_middle in Hx by reflexivity.
        injection Hx as <-. split; [rewrite Hcs; apply in_or_app; right; now left|].
        exists p. rewrite Hm, lookup_insert_eq. unfold py_len in Hlen.
        rewrite Hlen. split; [reflexivity | exact Hin].
    + now apply (Hold col).
Qed.

Lemma identifier_inj (l : list Container) (x y : Container) :
  NoDup (List.map identifier l) -> In x l -> In y l ->
  identifier x = identifier y -> x = y.
Proof.
  induction l as [|z l IH]; simpl; intros Hnd Hx Hy Heq; [contradiction|].
  apply NoDup_cons in Hnd as (Hz & Hnd).
  assert (Hmem : forall w, In w l -> identifier z <> identifier w).
  { intros w Hw E. apply Hz. rewrite E. apply list_elem_of_In. now apply in_map. }
  destruct Hx as [->|Hx], Hy as [->|Hy]; auto.
  - exfalso. now apply (Hmem y Hy).
  - exfalso. apply (Hmem x Hx). congruence.
Qed.

Lemma remove_storage (s s' : Store.t) (c : Container) :
  recorded s -> flat_at s c = true -> Store.remove s c = Ok s' ->
  exists h p,
    Store._map s !! identifier c = Some (h, p) /\ 0 <= h /\ 0 <= p
    /\ In c (Store._containers s)
    /\ Store._map s' = delete (identifier c) (Store._map s)
    /\ py_list_remove c (Store._containers s) = Ok (Store._containers s')
    /\ (forall k : nat,
          Store._storage s' !! k
          = if bool_decide (p <= Z.of_nat k < p + size c)
            then delete (Z.to_nat h) <$> Store._storage s !! k
            else Store._storage s !! k)
    /\ forall k : nat,
         p <= Z.of_nat k < p + size c ->
         exists col, Store._storage s !! k = Some col
                     /\ length col = S (Z.to_nat h)
                     /\ col !! Z.to_nat h = Some c.
Proof.
  intros (Hwf & Hnd & Hcont & Hcell) Hflat H.
  destruct (remove_fields _ _ _ H) as (_ & _ & _ & Hcs & Hm & loc & Hloc & Hst).
  destruct (py_list_remove_NoDup _ _ _ Hnd Hcs) as (Hin & _).
  destruct (Hcont c Hin) as (h & p & Hmc & Hh & Hp & Hcells).
  unfold Store.location in Hloc.
  assert (Hl : loc = (h, p)).
  { unfold Location, Position in Hloc, Hmc. rewrite Hmc in Hloc. now inversion Hloc. }
  subst loc. cbn [fst snd] in Hst.
  exists h, p. split; [exact Hmc|]. split; [exact Hh|]. split; [exact Hp|].
  split; [exact Hin|]. split; [exact Hm|]. split; [exact Hcs|]. split.
  - intros k. apply (remove_loop_lookup h _ p (p + size c) _ _ k eq_refl Hp Hh Hst).
  - intros k Hk. destruct (Hcells (Z.of_nat k) Hk) as (col & Hcol & Hc).
    rewrite Nat2Z.id in Hcol. exists col. split; [exact Hcol|]. split; [|exact Hc].
    unfold flat_at, Store.location in Hflat.
    unfold Location, Position in Hflat, Hmc. rewrite Hmc in Hflat.
    cbn [fst snd] in Hflat. rewrite forallb_forall in Hflat.
    specialize (Hflat (Z.of_nat k) (proj2 (In_py_range _ _ _) Hk)).
    apply Z.eqb_eq in Hflat. unfold column_height in Hflat.
    rewrite Nat2Z.id, Hcol in Hflat. simpl in Hflat. unfold py_len in Hflat. lia.
Qed.

Lemma recorded_remove (s s' : Store.t) (c : Container) :
  recorded s -> flat_at s c = true -> Store.remove s c = Ok s' -> recorded s'.
Proof.
  intros Hrec Hflat H.
  destruct (remove_storage _ _ _ Hrec Hflat H)
    as (h & p & Hmc & Hh & Hp & Hin & Hm & Hcs & Hst & Hcols).
  destruct Hrec as (Hwf & Hnd & Hcont & Hcell).
  destruct (py_list_remove_NoDup _ _ _ Hnd Hcs) as (_ & Hnd' & Hiff).
  split; [now apply (remove_well_formed s s' c)|]. split; [exact Hnd'|]. split.
  - intros x Hx. apply Hiff in Hx as (Hx & Hid).
    destruct (Hcont x Hx) as (hx & px & Hmx & Hhx & Hpx & Hcellx).
    exists hx, px. rewrite Hm, lookup_delete_ne by auto.
    split; [exact Hmx|]. split; [exact Hhx|]. split; [exact Hpx|].
    intros i Hi. destruct (Hcellx i Hi) as (col & Hcol & Hc).
    rewrite Hst, Hcol. cbn [fmap option_fmap option_map].
    destruct (bool_decide (p <= Z.of_nat (Z.to_nat i) < p + size c)) eqn:Hfoot.
    + apply bool_decide_eq_true in Hfoot.
      destruct (Hcols _ Hfoot) as (col0 & Hcol0 & Hlen & Hc0).
      rewrite Hcol in Hcol0. injection Hcol0 as <-.
      exists (delete (Z.to_nat h) col). split; [reflexivity|].
      assert (Hne : Z.to_nat hx <> Z.to_nat h).
      { intros E. rewrite E in Hc. rewrite Hc in Hc0. injection Hc0 as ->.
        now apply Hid. }
      apply lookup_lt_Some in Hc as Hlt.
      rewrite list_lookup_delete_lt by lia. exact Hc.
    + exists col. split; [reflexivity | exact Hc].
  - intros i j col x Hcol Hx. rewrite Hst in Hcol.
    assert (Hold : forall col0, Store._storage s !! i = Some col0 ->
              col0 !! j = Some x ->
              (Z.of_nat j = h -> ~ p <= Z.of_nat i < p + size c) ->
              In x (Store._containers s')
              /\ exists px, Store._map s' !! identifier x = Some (Z.of_nat j, px)
                            /\ px <= Z.of_nat i < px + size x).
    { intros col0 Hcol0 Hx0 Hnot.
      destruct (Hcell i j col0 x Hcol0 Hx0) as (Hxin & px & Hmx & Hpx).
      assert (Hid : identifier x <> identifier c).
      { intros E. assert (x = c) by (apply (identifier_inj (Store._containers s)); auto).
        subst x.
        unfold Location, Position in Hmx, Hmc. rewrite Hmc in Hmx.
        injection Hmx as Hj Hpp. subst px. now apply Hnot. }
      split; [apply Hiff; now split|].
      exists px. rewrite Hm, lookup_delete_ne by auto. split; assumption. }
    destruct (bool_decide (p <= Z.of_nat i < p + size c)) eqn:Hfoot.
    + apply bool_decide_eq_true in Hfoot.
      destruct (Hcols _ Hfoot) as (col0 & Hcol0 & Hlen & Hc0).
      rewrite Hcol0 in Hcol. cbn [fmap option_fmap option_map] in Hcol.
      injection Hcol as <-.
      apply lookup_lt_Some in Hx as Hlt. rewrite length_delete in Hlt
        by (rewrite Hc0; eauto).
      rewrite list_lookup_delete_lt in Hx by lia.
      apply (Hold col0); auto. lia.
    + apply bool_decide_eq_false in Hfoot. apply (Hold col); auto.
Qed.

Lemma recorded_move (s s' : Store.t) (c : Container) (p : Position) :
  recorded s -> 0 <= p -> flat_at s c = true -> Store.move s c p = Ok s' ->
  recorded s'.
Proof.
  intros Hrec Hp Hflat H.
  destruct (move_cases _ _ _ _ H) as [(_ & ->)|(_ & s1 & Hr & Ha)]; [exact Hrec|].
  apply (recorded_add s1 s' c p); auto.
  - now apply (recorded_remove s s1 c).
  - apply remove_fields in Hr as (_ & _ & _ & _ & Hm & _).
    unfold Store.location. rewrite Hm. apply lookup_delete_eq.
Qed.

Lemma tidy_recorded (s : Store.t) : tidy s -> recorded s.
Proof.
  induction 1 as [width|s c p s' _ IH Hp Hfresh Ha|s c s' _ IH Hflat Hr
                  |s c p s' _ IH Hp Hflat Hm].
  - apply recorded_init.
  - now apply (recorded_add s s' c p).
  - now apply (recorded_remove s s' c).
  - now apply (recorded_move s s' c p).
Qed.

Lemma py_getitem_minus_one {A : Type} (col : list A) (n : nat) :
  length col = S n ->
  py_getitem col (-1)
  = match col !! n with Some x => Ok x | None => Raise IndexError end.
Proof.
  intros Hlen. unfold py_getitem, py_index, py_len. rewrite Hlen.
  change (0 <=? -1) with false. change (-1 <? 0) with true. cbn [andb].
  destruct (Z.leb_spec (- Z.of_nat (S n)) (-1)) as [_|Hlt]; [|lia]. cbn [bind].
  now replace (Z.to_nat (Z.of_nat (S n) + -1)) with n by lia.
Qed.

Lemma top_container_column (s : Store.t) (i : Z) (col : list Container) (n : nat) :
  0 <= i -> Store._storage s !! Z.to_nat i = Some col -> length col = S n ->
  Store.top_container s i
  = match col !! n with Some x => Ok (Some x) | None => Raise IndexError end.
Proof.
  intros Hi Hcol Hlen. unfold Store.top_container, Store.empty.
  rewrite py_getitem_nonneg by exact Hi. rewrite Hcol. cbn [bind].
  unfold py_len at 1. rewrite Hlen.
  assert (E : (Z.of_nat (S n) =? 0) = false) by (apply Z.eqb_neq; lia).
  rewrite E.
  rewrite (py_getitem_minus_one col n Hlen). now destruct (col !! n).
Qed.

(** C2, as the code has it.  In a yard built by [add], [remove] and
    [move] under the preconditions of the specification, every container
    of the yard lies at its recorded height in every column of its
    recorded footprint, so that the column is at least one higher than
    that height; it is exactly one higher when the container is the top
    of the column, and only then.  The flat-surface property holds of the
    containers that nothing covers, on every column of their footprint. *)
Theorem flat_surface_of_uncovered (s : Store.t) (c : Container) :
  tidy s -> In c (Store.containers s) ->
  exists h p,
    Store.location s c = Some (h, p)
    /\ (forall i, p <= i < p + size c ->
          (exists col, Store._storage s !! Z.to_nat i = Some col
                       /\ col !! Z.to_nat h = Some c)
          /\ h + 1 <= column_height s i
          /\ (Store.top_container s i = Ok (Some c)
              <-> Store.height_column s i = Ok (h + 1)))
    /\ (flat_at s c = true
        <-> forall i, p <= i < p + size c ->
                      Store.top_container s i = Ok (Some c)).
Proof.
  intros Ht Hin. destruct (tidy_recorded s Ht) as (Hwf & Hnd & Hcont & Hcell).
  destruct (Hcont c Hin) as (h & p & Hm & Hh & Hp & Hcells).
  exists h, p. split; [exact Hm|].
  assert (Hcolumn : forall i, p <= i < p + size c ->
    exists col n,
      Store._storage s !! Z.to_nat i = Some col
      /\ col !! Z.to_nat h = Some c
      /\ length col = S n
      /\ Store.height_column s i = Ok (Z.of_nat (S n))
      /\ column_height s i = Z.of_nat (S n)
      /\ (Store.top_container s i = Ok (Some c) <-> n = Z.to_nat h)).
  { intros i Hi. destruct (Hcells i Hi) as (col & Hcol & Hc).
    apply lookup_lt_Some in Hc as Hlt.
    destruct (length col) as [|n] eqn:Hlen; [lia|].
    exists col, n. split; [exact Hcol|]. split; [exact Hc|]. split; [exact Hlen|].
    assert (Hch : column_height s i = Z.of_nat (S n))
      by (unfold column_height, py_len; now rewrite Hcol; simpl; rewrite Hlen).
    split; [|split; [exact Hch|]].
    - rewrite height_column_wf by (auto; lia). rewrite Hch.
      apply lookup_lt_Some in Hcol. unfold well_formed in Hwf.
      now replace (i <? Store._width s) with true by lia.
    - rewrite (top_container_column s i col n ltac:(lia) Hcol Hlen).
      destruct (col !! n) as [x|] eqn:Hx.
      + split.
        * intros Heq. injection Heq as ->.
          destruct (Hcell _ _ _ _ Hcol Hx) as (_ & px & Hmx & _).
          unfold Store.location, Location, Position in Hm, Hmx.
          rewrite Hm in Hmx. injection Hmx as Hn _. lia.
        * intros ->. rewrite Hc in Hx. now injection Hx as ->.
      + apply lookup_ge_None_1 in Hx. lia. }
  split.
  - intros i Hi.
    destruct (Hcolumn i Hi) as (col & n & Hcol & Hc & Hlen & Hhc & Hch & Htop).
    split; [now exists col|].
    apply lookup_lt_Some in Hc as Hlt. split; [lia|].
    rewrite Htop, Hhc. split; [intros ->; f_equal; lia|].
    intros Heq. injection Heq as Heq. lia.
  - unfold flat_at, Store.location. unfold Location, Position in *.
    rewrite Hm. cbn [fst snd]. rewrite forallb_forall. split.
    + intros Hflat i Hi.
      destruct (Hcolumn i Hi) as (col & n & _ & _ & _ & _ & Hch & Htop).
      apply Htop. specialize (Hflat i (proj2 (In_py_range _ _ _) Hi)).
      apply Z.eqb_eq in Hflat. lia.
    + intros Htops i Hi. apply In_py_range in Hi.
      destruct (Hcolumn i Hi) as (col & n & _ & _ & _ & _ & Hch & Htop).
      apply Z.eqb_eq. rewrite Hch. apply Htop in Htops; [lia | exact Hi].
Qed.

(** [small_box] under [second_box] in [stacked_yard]: it lies at height 0
    of column 0, which has height 2, and it is not the top of it. *)
Lemma flat_surface_of_uncovered_witness :
  exists h p,
    Store.location stacked_yard small_box = Some (h, p)
    /\ (forall i, p <= i < p + size small_box ->
          (exists col, Store._storage stacked_yard !! Z.to_nat i = Some col
                       /\ col !! Z.to_nat h = Some small_box)
          /\ h + 1 <= column_height stacked_yard i
          /\ (Store.top_container stacked_yard i = Ok (Some small_box)
              <-> Store.height_column stacked_yard i = Ok (h + 1)))
    /\ (flat_at stacked_yard small_box = true
        <-> forall i, p <= i < p + size small_box ->
                      Store.top_container stacked_yard i = Ok (Some small_box)).
Proof.
  apply (flat_surface_of_uncovered stacked_yard small_box).
  - apply (tidy_add
             (run_from (Store.__init__ 1) (Store.add (Store.__init__ 1) small_box 0))
             second_box 0); [|lia|reflexivity|reflexivity].
    apply (tidy_add (Store.__init__ 1) small_box 0);
      [constructor|lia|reflexivity|reflexivity].
  - left. reflexivity.
Defined.

(** The precondition of removal matters: [can_remove] reads the leftmost
    column only, so the code lets [wide_box] go from under [small_box] in
    [covered_yard]; [small_box] is then the top of column 1, recorded at
    height 1 in a column of height 1. *)
Lemma removal_from_under_breaks_the_record :
  reachable covered_yard
  /\ flat_at covered_yard wide_box = false
  /\ exists s',
       Store.remove covered_yard wide_box = Ok s'
       /\ Store.top_container s' 1 = Ok (Some small_box)
       /\ Store.location s' small_box = Some (1, 1)
       /\ Store.height_column s' 1 = Ok 1.
Proof.
  split.
  - apply (reachable_add wide_yard small_box 1); [|reflexivity].
    apply (reachable_add (Store.__init__ 3) wide_box 0); [constructor | reflexivity].
  - split; [reflexivity|]. eexists. split; [vm_compute; reflexivity|].
    repeat split.
Qed.
